(** * Portable spreadsheet generator: cells and the grid

    A shallow embedding of [portable_spreadsheet/cell.py] and
    [portable_spreadsheet/spreadsheet.py], and of the arithmetic of the draft
    [cell.py] that sits beside the package.

    Python objects live in a store: a [Cell] and a [CellIndices] each have an
    address, attribute assignment rewrites the object at its address, and
    [copy.deepcopy] allocates fresh objects.  Methods are computations in a
    state-and-exception monad over that store.

    The modules [word_constructor], [cell_indices], [cell_type],
    [spreadsheet_utils] are imported by the sources but are not part of them.
    What the sources call in [word_constructor] is taken as an interface
    ([WordConstructor.Ops]); the numbers stored in cells and the arithmetic
    routines on them are an interface as well ([Native]). *)

From Stdlib Require Import ZArith QArith Qabs String List Lia.
From stdpp Require Import base list strings.

Set Default Proof Using "Type".
Local Open Scope string_scope.
Local Open Scope list_scope.

(* ================================================================== *)
(** ** Exceptions and results *)

(** The exception classes the sources raise, or that Python raises under them.
    [InvalidOperand] and [IncompatibleIndices] have no [raise] in the sources:
    they are the spec's names for the two failures of the word constructor.
    [Inexact] is no exception of Python: the instance of exact numbers below
    reports with it a float that it has no number for. *)
Inductive exn : Type :=
| ValueError (msg : string)
| IndexError (msg : string)
| TypeError (msg : string)
| ZeroDivisionError (msg : string)
| Inexact (what : string)
| InvalidOperand
| IncompatibleIndices
| NoSuchObject.  (* an address outside the store; no Python program reaches it *)

Inductive result (A : Type) : Type :=
| Returned (a : A)
| Raised (e : exn).
Arguments Returned {A} a.
Arguments Raised {A} e.

Definition rbind {A B} (m : result A) (k : A -> result B) : result B :=
  match m with
  | Returned a => k a
  | Raised e => Raised e
  end.

Notation "x <-? m ;; k" := (rbind m (fun x => k))
  (at level 100, m at next level, right associativity).

(** [x is None] *)
Definition is_None {A} (x : option A) : bool :=
  match x with
  | None => true
  | Some _ => false
  end.

(* ================================================================== *)
(** ** Coordinates

    A coordinate handed to the grid is a Python number: an [int], or a
    (finite) [float], which is a rational. *)

Inductive index : Type :=
| PyInt (z : Z)
| PyFloat (q : Q).

(** [int(x)]: identity on an int, truncation toward zero on a float. *)
Definition int (x : index) : Z :=
  match x with
  | PyInt z => z
  | PyFloat q => Z.quot (Qnum q) (Zpos (Qden q))
  end.

Definition to_Q (x : index) : Q :=
  match x with
  | PyInt z => inject_Z z
  | PyFloat q => q
  end.

(** [abs(x - int(x)) > 0.000_001] *)
Definition not_integer (x : index) : bool :=
  negb (Qle_bool (Qabs (to_Q x - inject_Z (int x))) (1 # 1000000)).

(** [range(n)] *)
Definition range (n : nat) : list Z := map Z.of_nat (seq 0 n).

(** ** Python lists *)

(** The position a list subscript [i] denotes in a list of length [n]:
    non-negative subscripts count from the front, negative ones from the
    back. *)
Definition position (n : nat) (i : Z) : option nat :=
  if (0 <=? i)%Z && (i <? Z.of_nat n)%Z then Some (Z.to_nat i)
  else if (- Z.of_nat n <=? i)%Z && (i <? 0)%Z then Some (Z.to_nat (Z.of_nat n + i))
  else None.

(** [l[i]] *)
Definition getitem {A} (l : list A) (i : index) : result A :=
  match i with
  | PyFloat _ => Raised (TypeError "list indices must be integers or slices, not float")
  | PyInt z =>
      match position (length l) z with
      | Some k =>
          match l !! k with
          | Some a => Returned a
          | None => Raised (IndexError "list index out of range")
          end
      | None => Raised (IndexError "list index out of range")
      end
  end.

(** [l[i] = a] *)
Definition setitem {A} (l : list A) (i : index) (a : A) : result (list A) :=
  match i with
  | PyFloat _ => Raised (TypeError "list indices must be integers or slices, not float")
  | PyInt z =>
      match position (length l) z with
      | Some k => Returned (<[k := a]> l)
      | None => Raised (IndexError "list assignment index out of range")
      end
  end.

Arguments getitem : simpl never.
Arguments setitem : simpl never.
Arguments position : simpl never.

(* ================================================================== *)
(** ** Numbers

    The value of a cell is a Python number or [None].  The sources compute
    with Python's operators and with NumPy; both are taken as given. *)

Inductive binop : Type := Add | Sub | Mul | Div | Pow.

(** [np.sum], [np.prod], [np.mean], [np.min], [np.max] *)
Inductive method_np : Type := np_sum | np_prod | np_mean | np_min | np_max.

Class Native (num : Type) : Type := {
  (** [x + y], [x - y], [x * y], [x / y], [x ** y] on two numbers *)
  native : binop -> num -> num -> result num;
  (** [np.log(x)] and [np.exp(x)] *)
  np_log : option num -> result num;
  np_exp : option num -> result num;
  (** [method_np([c.value for c in subset])] *)
  np_reduce : method_np -> list (option num) -> result (option num)
}.

(** A Python operator applied to two cell values: [None] has no arithmetic. *)
Definition operator {num} `{Native num} (op : binop) (x y : option num)
  : result num :=
  match x, y with
  | Some a, Some b => native op a b
  | _, _ => Raised (TypeError "unsupported operand type(s)")
  end.

(* ================================================================== *)
(** ** Objects *)

(** Addresses of objects in the store. *)
Abbreviation loc := nat.

(** [cell_type.CellType] *)
Inductive CellType : Type := value_only | computational.

(** Modelled from the spec: the class [CellIndices] of the absent module
    [cell_indices]: the shape (rows, columns) of the grid and the label and
    help-text sequences of its rows and columns. *)
Record CellIndices : Type := {
  shape : nat * nat;
  rows_labels : list string;
  columns_labels : list string;
  rows_help_text : list string;
  columns_help_text : list string
}.

Section Objects.
Context {num fragment : Type}.

(** The attributes [Cell.__init__] sets.  [cell_indices] is the address of a
    [CellIndices] object ("pass only reference"). *)
Record Cell : Type := {
  row : option index;
  column : option index;
  _value : option num;
  cell_type : CellType;
  cell_indices : loc;
  _constructing_words : fragment
}.

Record Store : Type := {
  cells : list Cell;
  indices : list CellIndices
}.

(** [Spreadsheet]: the attributes the grid operations use. *)
Record Spreadsheet : Type := {
  _cell_indices : loc;
  _sheet : list (list loc)
}.
End Objects.
Arguments Cell : clear implicits.
Arguments Store : clear implicits.

(** What [Spreadsheet._set_item] is given: a number or a [Cell] object. *)
Inductive T_cell_val (num : Type) : Type :=
| Number (v : num)
| CellObject (l : loc).
Arguments Number {num} v.
Arguments CellObject {num} l.

(* ================================================================== *)
(** ** The word constructor, as the sources use it *)

Module WordConstructor.
(** Modelled from the spec: the module [word_constructor] is absent; these
    are the functions of [WordConstructor] the sources call.  The spec gives
    it one pure function per operator; a function that builds on the
    fragments of its operands can fail. *)
Class Ops (num fragment : Type) : Type := {
  (** [WordConstructor.init_from_new_cell(self)], called in [Cell.__init__]
      once row, column, value, type and indices are set *)
  init_from_new_cell :
    option index -> option index -> option num -> CellType -> loc -> fragment;
  add : Cell num fragment -> Cell num fragment -> result fragment;
  subtract : Cell num fragment -> Cell num fragment -> result fragment;
  multiply : Cell num fragment -> Cell num fragment -> result fragment;
  divide : Cell num fragment -> Cell num fragment -> result fragment;
  power : Cell num fragment -> Cell num fragment -> result fragment;
  reference : Cell num fragment -> result fragment;
  constant : Cell num fragment -> fragment;
  brackets : Cell num fragment -> result fragment;
  logarithm : Cell num fragment -> result fragment;
  exponential : Cell num fragment -> result fragment;
  (** [words.aggregation(start_idx, end_idx, grammar_method)] *)
  aggregation : fragment -> index * index -> index * index -> string -> fragment
}.
End WordConstructor.

(* ================================================================== *)
(** ** Computations over the store *)

Section Monad.
Context {num fragment : Type}.

Definition M (A : Type) : Type :=
  Store num fragment -> result (A * Store num fragment).

Definition ret {A} (a : A) : M A := fun st => Returned (a, st).

Definition bind {A B} (m : M A) (k : A -> M B) : M B :=
  fun st =>
    match m st with
    | Returned (a, st') => k a st'
    | Raised e => Raised e
    end.

Definition lift {A} (r : result A) : M A :=
  fun st =>
    match r with
    | Returned a => Returned (a, st)
    | Raised e => Raised e
    end.

Definition raise {A} (e : exn) : M A := fun _ => Raised e.

(** Allocation of an object: a fresh address, the next one. *)
Definition new_cell (c : Cell num fragment) : M loc :=
  fun st => Returned (length (cells st),
                      {| cells := cells st ++ [c]; indices := indices st |}).

Definition get_cell (l : loc) : M (Cell num fragment) :=
  fun st =>
    match cells st !! l with
    | Some c => Returned (c, st)
    | None => Raised NoSuchObject
    end.

(** Attribute assignment on the object at [l]. *)
Definition put_cell (l : loc) (c : Cell num fragment) : M unit :=
  fun st => Returned (tt, {| cells := <[l := c]> (cells st);
                             indices := indices st |}).

Definition new_indices (ci : CellIndices) : M loc :=
  fun st => Returned (length (indices st),
                      {| cells := cells st; indices := indices st ++ [ci] |}).

Definition get_indices (l : loc) : M CellIndices :=
  fun st =>
    match indices st !! l with
    | Some ci => Returned (ci, st)
    | None => Raised NoSuchObject
    end.

Fixpoint mapM {A B} (f : A -> M B) (l : list A) : M (list B) :=
  match l with
  | [] => ret []
  | a :: l' => bind (f a) (fun b => bind (mapM f l') (fun bs => ret (b :: bs)))
  end.

Fixpoint foldM {A S} (f : S -> A -> M S) (s : S) (l : list A) : M S :=
  match l with
  | [] => ret s
  | a :: l' => bind (f s a) (fun s' => foldM f s' l')
  end.
End Monad.

Notation "x <- m ;; k" := (bind m (fun x => k))
  (at level 100, m at next level, right associativity).
Notation "m ;;; k" := (bind m (fun _ => k))
  (at level 100, right associativity).

Section Copy.
Context {num fragment : Type}.
Local Abbreviation M := (@M num fragment).

(** [copy.deepcopy] of a [CellIndices]: a new object with the same
    contents. *)
Definition deepcopy_indices (l : loc) : M loc :=
  ci <- get_indices l ;;
  new_indices ci.

Definition with_cell_indices (c : Cell num fragment) (ci : loc)
  : Cell num fragment :=
  {| row := row c; column := column c; _value := _value c;
     cell_type := cell_type c; cell_indices := ci;
     _constructing_words := _constructing_words c |}.

(** [copy.deepcopy] of a [Cell]: everything the cell reaches is copied with
    it, its [CellIndices] included. *)
Definition deepcopy_cell (l : loc) : M loc :=
  c <- get_cell l ;;
  ci <- deepcopy_indices (cell_indices c) ;;
  new_cell (with_cell_indices c ci).
End Copy.

(* ================================================================== *)
(** ** [class Cell] *)

Module Cell.
Section Methods.
Context {num fragment : Type}.
Context `{Native num} `{WordConstructor.Ops num fragment}.
Local Abbreviation Cell := (Cell num fragment).
Local Abbreviation M := (@M num fragment).

Definition __init__ (row column : option index) (value : option num)
    (cell_indices : loc) (cell_type : CellType) (words : option fragment)
  : result Cell :=
  if (negb (is_None row) && is_None column)
     || (is_None row && negb (is_None column))
  then Raised (ValueError
    "The values of 'row' and 'column' parameters have to be either both not None or both None.")
  else Returned
    {| row := row; column := column; _value := value;
       cell_type := cell_type; cell_indices := cell_indices;
       _constructing_words :=
         match words with
         | Some w => w
         | None => WordConstructor.init_from_new_cell
                     row column value cell_type cell_indices
         end |}.

Definition anchored (self : Cell) : bool := negb (is_None (row self)).

Definition word (self : Cell) : result fragment :=
  if anchored self then WordConstructor.reference self
  else match cell_type self with
       | computational => Returned (_constructing_words self)
       | value_only => Returned (WordConstructor.constant self)
       end.

Definition coordinates (self : Cell) : option index * option index :=
  (row self, column self).

(** The setter of [coordinates]. *)
Definition set_coordinates (self : Cell) (coordinates : index * index) : Cell :=
  {| row := Some (fst coordinates); column := Some (snd coordinates);
     _value := _value self; cell_type := cell_type self;
     cell_indices := cell_indices self;
     _constructing_words := _constructing_words self |}.

Definition value (self : Cell) : option num := _value self.

Definition add (self other : loc) : M loc :=
  a <- get_cell self ;;
  b <- get_cell other ;;
  v <- lift (operator Add (value a) (value b)) ;;
  w <- lift (WordConstructor.add a b) ;;
  c <- lift (__init__ None None (Some v) (cell_indices b) computational (Some w)) ;;
  new_cell c.

Definition subtract (self other : loc) : M loc :=
  a <- get_cell self ;;
  b <- get_cell other ;;
  v <- lift (operator Sub (value a) (value b)) ;;
  w <- lift (WordConstructor.subtract a b) ;;
  c <- lift (__init__ None None (Some v) (cell_indices b) computational (Some w)) ;;
  new_cell c.

Definition multiply (self other : loc) : M loc :=
  a <- get_cell self ;;
  b <- get_cell other ;;
  v <- lift (operator Mul (value a) (value b)) ;;
  w <- lift (WordConstructor.multiply a b) ;;
  c <- lift (__init__ None None (Some v) (cell_indices b) computational (Some w)) ;;
  new_cell c.

Definition divide (self other : loc) : M loc :=
  a <- get_cell self ;;
  b <- get_cell other ;;
  v <- lift (operator Div (value a) (value b)) ;;
  w <- lift (WordConstructor.divide a b) ;;
  c <- lift (__init__ None None (Some v) (cell_indices b) computational (Some w)) ;;
  new_cell c.

Definition power (self other : loc) : M loc :=
  a <- get_cell self ;;
  b <- get_cell other ;;
  v <- lift (operator Pow (value a) (value b)) ;;
  w <- lift (WordConstructor.power a b) ;;
  c <- lift (__init__ None None (Some v) (cell_indices b) computational (Some w)) ;;
  new_cell c.

Definition _aggregate_fun (start_idx end_idx : index * index)
    (subset : list loc) (grammar_method : string) (method : method_np)
  : M loc :=
  values <- mapM (fun l => c <- get_cell l ;; ret (value c)) subset ;;
  v <- lift (np_reduce method values) ;;
  l0 <- lift (getitem subset (PyInt 0)) ;;
  first <- get_cell l0 ;;
  c <- lift (__init__ None None v (cell_indices first) computational
               (Some (WordConstructor.aggregation (_constructing_words first)
                        start_idx end_idx grammar_method))) ;;
  new_cell c.

Definition sum (start_idx end_idx : index * index) (subset : list loc) : M loc :=
  _aggregate_fun start_idx end_idx subset "sum" np_sum.

Definition product (start_idx end_idx : index * index) (subset : list loc) : M loc :=
  _aggregate_fun start_idx end_idx subset "product" np_prod.

Definition mean (start_idx end_idx : index * index) (subset : list loc) : M loc :=
  _aggregate_fun start_idx end_idx subset "mean" np_mean.

Definition min (start_idx end_idx : index * index) (subset : list loc) : M loc :=
  _aggregate_fun start_idx end_idx subset "minimum" np_min.

Definition max (start_idx end_idx : index * index) (subset : list loc) : M loc :=
  _aggregate_fun start_idx end_idx subset "maximum" np_max.

Definition reference (other : loc) : M loc :=
  b <- get_cell other ;;
  if negb (anchored b)
  then raise (ValueError "The referenced cell has to be anchored.")
  else
    w <- lift (WordConstructor.reference b) ;;
    c <- lift (__init__ None None (value b) (cell_indices b) computational (Some w)) ;;
    new_cell c.

Definition brackets (other : loc) : M loc :=
  b <- get_cell other ;;
  w <- lift (WordConstructor.brackets b) ;;
  c <- lift (__init__ None None (value b) (cell_indices b) computational (Some w)) ;;
  new_cell c.

Definition logarithm (other : loc) : M loc :=
  b <- get_cell other ;;
  v <- lift (np_log (value b)) ;;
  w <- lift (WordConstructor.logarithm b) ;;
  c <- lift (__init__ None None (Some v) (cell_indices b) computational (Some w)) ;;
  new_cell c.

(** The words are built with [WordConstructor.logarithm], as in the
    source. *)
Definition exponential (other : loc) : M loc :=
  b <- get_cell other ;;
  v <- lift (np_exp (value b)) ;;
  w <- lift (WordConstructor.logarithm b) ;;
  c <- lift (__init__ None None (Some v) (cell_indices b) computational (Some w)) ;;
  new_cell c.
End Methods.
End Cell.

(* ================================================================== *)
(** ** Ranges, labels and slices *)

(** [range(start, stop, step)] *)
Definition range3 (start stop step : Z) : result (list Z) :=
  if (step =? 0)%Z then Raised (ValueError "range() arg 3 must not be zero")
  else
    let n := (if (0 <? step) then (stop - start + step - 1) / step
              else (start - stop - step - 1) / (- step))%Z in
    Returned (map (fun k => start + Z.of_nat k * step)%Z (seq 0 (Z.to_nat n))).

(** [l.index(x)] on a list of labels: the first position of [x]. *)
Fixpoint list_index (l : list string) (x : string) : result Z :=
  match l with
  | [] => Raised (ValueError (String.append "'" (String.append x "' is not in list")))
  | y :: l' =>
      if String.eqb y x then Returned 0%Z
      else (i <-? list_index l' x ;; Returned (i + 1)%Z)
  end.

(** Iteration over an [int], as in [for col_idx in self.shape[1]]. *)
Definition iter_int (n : nat) : result (list Z) :=
  Raised (TypeError "'int' object is not iterable").

(** Modelled from the spec: the class [CellSlice] of the absent module
    [cell_slice], as what its constructor is given: the start and the
    inclusive end coordinates, the member cells, and the sheet. *)
Record CellSlice : Type := {
  start_idx : Z * Z;
  end_idx : Z * Z;
  cell_subset : list loc;
  driving_sheet : Spreadsheet
}.

(** The exceptions of [exn], and AttributeError, which the structural
    operations of the grid raise. *)
Inductive error : Type :=
| Python (e : exn)
| AttributeError (msg : string).

Inductive completion (A : Type) : Type :=
| Done (a : A)
| Failed (e : error).
Arguments Done {A} a.
Arguments Failed {A} e.

(* ================================================================== *)
(** ** [class Spreadsheet] *)

(** Modelled from the spec: [CellIndices.expand_size] of the absent module
    [cell_indices]: a new [CellIndices] with the rows and columns appended and
    the label sequences extended; the receiver is left as it is. *)
Definition expand_size (self : CellIndices)
    (new_number_of_rows new_number_of_columns : nat)
    (new_rows_labels new_columns_labels : list string)
    (new_rows_help_text new_columns_help_text : list string) : CellIndices :=
  {| shape := (fst (shape self) + new_number_of_rows,
               snd (shape self) + new_number_of_columns);
     rows_labels := rows_labels self ++ new_rows_labels;
     columns_labels := columns_labels self ++ new_columns_labels;
     rows_help_text := rows_help_text self ++ new_rows_help_text;
     columns_help_text := columns_help_text self ++ new_columns_help_text |}.

Module Spreadsheet.
Section Methods.
Context {num fragment : Type}.
Context `{Native num} `{WordConstructor.Ops num fragment}.
Local Abbreviation Cell := (Cell num fragment).
Local Abbreviation M := (@M num fragment).

(** The property [cell_indices]. *)
Definition cell_indices (self : Spreadsheet) : loc := _cell_indices self.

(** The property [shape]: [self.cell_indices.shape]. *)
Definition shape (self : Spreadsheet) : M (nat * nat) :=
  ci <- get_indices (cell_indices self) ;;
  ret (shape ci).

Definition with_sheet (self : Spreadsheet) (sheet : list (list loc))
  : Spreadsheet :=
  {| _cell_indices := _cell_indices self; _sheet := sheet |}.

Definition _initialise_array (self : Spreadsheet) : M (list (list loc)) :=
  sh <- shape self ;;
  mapM (fun row_idx =>
          mapM (fun col_idx =>
                  c <- lift (Cell.__init__ (Some (PyInt row_idx))
                               (Some (PyInt col_idx)) None
                               (cell_indices self) value_only None) ;;
                  new_cell c)
               (range (snd sh)))
       (range (fst sh)).

Definition __init__ (cell_indices : loc) : M Spreadsheet :=
  ci <- deepcopy_indices cell_indices ;;
  let self := {| _cell_indices := ci; _sheet := [] |} in
  sheet <- _initialise_array self ;;
  ret (with_sheet self sheet).

Definition _get_item (self : Spreadsheet) (index_integer : index * index)
  : result loc :=
  let '(_x, _y) := index_integer in
  if not_integer _x || not_integer _y
  then Raised (IndexError "Indices must be integers!")
  else
    r <-? getitem (_sheet self) (PyInt (int _x)) ;;
    getitem r (PyInt (int _y)).

(** Modelled from the spec: [self.iloc[x, y]] of the absent class [_Location]
    (module [spreadsheet_utils]): the access to a cell by integer position,
    get(r, c) in the spec, which is [_get_item]. *)
Definition iloc (self : Spreadsheet) (x y : index) : M loc :=
  lift (_get_item self (x, y)).

Definition _set_item (self : Spreadsheet) (value : T_cell_val num)
    (index_integer : index * index) : M Spreadsheet :=
  let '(_x, _y) := index_integer in
  if not_integer _x || not_integer _y
  then raise (IndexError "Indices must be integers!")
  else
    _value <-
      match value with
      | CellObject l =>
          v <- get_cell l ;;
          if Cell.anchored v
          then Cell.reference l
          else
            cp <- deepcopy_cell l ;;
            c <- get_cell cp ;;
            put_cell cp (Cell.set_coordinates c (_x, _y)) ;;;
            ret cp
      | Number n =>
          c <- lift (Cell.__init__ (Some _x) (Some _y) (Some n)
                       (cell_indices self) value_only None) ;;
          new_cell c
      end ;;
    r <- lift (getitem (_sheet self) _x) ;;
    r' <- lift (setitem r _y _value) ;;
    sheet <- lift (setitem (_sheet self) _x r') ;;
    ret (with_sheet self sheet).

(** A new free, empty cell: [Cell(cell_indices=self.cell_indices)]. *)
Definition empty_cell (self : Spreadsheet) : M loc :=
  c <- lift (Cell.__init__ None None None (cell_indices self) value_only None) ;;
  new_cell c.

(** The indices object is not written while the loops run; its shape is
    read once. *)
Definition expand_using_cell_indices (self : Spreadsheet) (cell_indices : loc)
  : M Spreadsheet :=
  shape_origin <- shape self ;;
  ci <- deepcopy_indices cell_indices ;;
  let self := {| _cell_indices := ci; _sheet := _sheet self |} in
  sh <- shape self ;;
  foldM (fun self row_idx =>
           self <-
             (if (Z.of_nat (fst shape_origin) <=? row_idx)%Z
              then
                row <- mapM (fun _ => empty_cell self) (range (snd sh)) ;;
                ret (with_sheet self (_sheet self ++ [row]))
              else
                foldM (fun self _ =>
                         c <- empty_cell self ;;
                         r <- lift (getitem (_sheet self) (PyInt row_idx)) ;;
                         sheet <- lift (setitem (_sheet self) (PyInt row_idx)
                                          (r ++ [c])) ;;
                         ret (with_sheet self sheet))
                      self (range (snd sh - snd shape_origin))) ;;
           foldM (fun _ col_idx =>
                    l <- iloc self (PyInt row_idx) (PyInt col_idx) ;;
                    c <- get_cell l ;;
                    put_cell l (with_cell_indices c (_cell_indices self)))
                 tt (range (snd sh)) ;;;
           ret self)
        self (range (fst sh)).

Definition expand (self : Spreadsheet)
    (new_number_of_rows new_number_of_columns : nat)
    (new_rows_labels new_columns_labels : list string)
    (new_rows_help_text new_columns_help_text : list string) : M Spreadsheet :=
  ci <- get_indices (cell_indices self) ;;
  grown <- new_indices (expand_size ci new_number_of_rows new_number_of_columns
                          new_rows_labels new_columns_labels
                          new_rows_help_text new_columns_help_text) ;;
  expand_using_cell_indices self grown.

Definition _get_slice (self : Spreadsheet)
    (index_integer : Z * Z * Z * Z * Z * Z) : M CellSlice :=
  let '(_x_start, _x_end, _x_step, _y_start, _y_end, _y_step) := index_integer in
  xs <- lift (range3 _x_start _x_end _x_step) ;;
  cell_subset <-
    foldM (fun cell_subset x =>
             ys <- lift (range3 _y_start _y_end _y_step) ;;
             foldM (fun cell_subset y =>
                      l <- iloc self (PyInt x) (PyInt y) ;;
                      ret (cell_subset ++ [l]))
                   cell_subset ys)
          [] xs ;;
  ret {| start_idx := (_x_start, _y_start);
         end_idx := (_x_end - 1, _y_end - 1)%Z;
         cell_subset := cell_subset;
         driving_sheet := self |}.

(** [self.index] belongs to the absent class [Serialization]: what
    [self.index.index(row_label)] returns or raises is the argument [index]
    (for a Python list of labels it is [list_index]).  The body of the loop
    calls [delete] on a cell, which [class Cell] does not have. *)
Definition delete_row (self : Spreadsheet) (index : string -> result Z)
    (row_index : option Z) (row_label : option string)
    (st : Store num fragment) : completion (unit * Store num fragment) :=
  if negb (is_None row_index) && negb (is_None row_label)
  then Failed (AttributeError
                 "Only one parameter 'row_index' or 'row_label' can be set.")
  else
    match (match row_label with
           | Some label => (i <-? index label ;; Returned (Some i))
           | None => Returned row_index
           end) with
    | Raised e => Failed (Python e)
    | Returned None => Done (tt, st)
    | Returned (Some i) =>
        match shape self st with
        | Raised e => Failed (Python e)
        | Returned (sh, st) =>
            if negb ((0 <=? i)%Z && (i <? Z.of_nat (fst sh))%Z)
            then Failed (Python (IndexError "Index is out of bounds!"))
            else
              match iter_int (snd sh) with
              | Raised e => Failed (Python e)
              | Returned [] => Done (tt, st)
              | Returned (col_idx :: _) =>
                  match iloc self (PyInt i) (PyInt col_idx) st with
                  | Raised e => Failed (Python e)
                  | Returned _ =>
                      Failed (AttributeError
                                "'Cell' object has no attribute 'delete'")
                  end
              end
        end
    end.

Definition delete_column (column_index : option Z) (column_label : option string)
  : result unit :=
  Returned tt.

Definition insert_row_before (label help_text : option string)
    (reference_index : option Z) (reference_label : option string)
  : result unit :=
  if negb (is_None reference_index) && negb (is_None reference_label)
  then Raised (IndexError
                 "Only one value 'reference_index' or 'reference_label' can be set!")
  else Returned tt.

(** [reference_index - 1] *)
Definition minus_one (reference_index : option Z) : result Z :=
  match reference_index with
  | Some i => Returned (i - 1)%Z
  | None => Raised (TypeError "unsupported operand type(s)")
  end.

(** [self.index.index], as in [delete_row], is the argument [index]. *)
Definition insert_row_after (index : string -> result Z)
    (label help_text : option string)
    (reference_index : option Z) (reference_label : option string)
  : result unit :=
  if negb (is_None reference_index) && negb (is_None reference_label)
  then Raised (IndexError
                 "Only one value 'reference_index' or 'reference_label' can be set!")
  else
    reference_index <-?
      match reference_label with
      | Some l => (i <-? index l ;; Returned (Some i))
      | None => Returned reference_index
      end ;;
    before <-? minus_one reference_index ;;
    insert_row_before label help_text (Some before) None.

Definition insert_column_before (label help_text : option string)
    (reference_index : option Z) (reference_label : option string)
  : result unit :=
  if negb (is_None reference_index) && negb (is_None reference_label)
  then Raised (IndexError
                 "Only one value 'reference_index' or 'reference_label' can be set!")
  else Returned tt.

(** [self.columns.index], of the absent class too, is the argument
    [columns]. *)
Definition insert_column_after (columns : string -> result Z)
    (label help_text : option string)
    (reference_index : option Z) (reference_label : option string)
  : result unit :=
  if negb (is_None reference_index) && negb (is_None reference_label)
  then Raised (IndexError
                 "Only one value 'reference_index' or 'reference_label' can be set!")
  else
    reference_index <-?
      match reference_label with
      | Some l => (i <-? columns l ;; Returned (Some i))
      | None => Returned reference_index
      end ;;
    before <-? minus_one reference_index ;;
    insert_column_before label help_text (Some before) None.
End Methods.
End Spreadsheet.

(* ================================================================== *)
(** ** The draft of [class Cell]

    [cell.py] at the root of the sources is an earlier draft of the class: its
    word constructor works on words, not on cells, the result of a binary
    method takes the indices of [self], and [logarithm] and [exponential] take
    a number.  The attribute [words] of the draft is the field
    [_constructing_words]. *)

Module Legacy.
(** Modelled from the spec: the module [word_constructor] of the draft is
    absent; these are the functions of [WordConstructor] the draft calls, pure
    functions on words as the spec has them. *)
Class Ops (num fragment : Type) : Type := {
  (** [WordConstructor.init_from_values(column, row, cell_indices=,
      cell_type=, value=)] *)
  init_from_values :
    option index -> option index -> loc -> CellType -> option num -> fragment;
  (** [self.words.add(other.words)] and the like *)
  add : fragment -> fragment -> result fragment;
  subtract : fragment -> fragment -> result fragment;
  multiply : fragment -> fragment -> result fragment;
  divide : fragment -> fragment -> result fragment;
  power : fragment -> fragment -> result fragment;
  (** [self.words.constant(number)] *)
  constant : fragment -> num -> fragment;
  (** [WordConstructor.brackets(other.words)] *)
  brackets : fragment -> fragment
}.

Section Methods.
Context {num fragment : Type}.
Context `{Native num} `{Ops num fragment}.
Local Abbreviation Cell := (Cell num fragment).
Local Abbreviation M := (@M num fragment).

Definition __init__ (row column : option index) (value : option num)
    (words : option fragment) (cell_type : CellType) (cell_indices : loc)
  : result Cell :=
  if (negb (is_None row) && is_None column)
     || (is_None row && negb (is_None column))
  then Raised (ValueError
    "The values of 'row' and 'column' parameters have to be either both not None or both None.")
  else Returned
    {| row := row; column := column; _value := value;
       cell_type := cell_type; cell_indices := cell_indices;
       _constructing_words :=
         match words with
         | Some w => w
         | None => init_from_values column row cell_indices cell_type value
         end |}.

Definition Cell_brackets (other : loc) : M loc :=
  b <- get_cell other ;;
  c <- lift (__init__ None None (_value b)
               (Some (brackets (_constructing_words b)))
               computational (cell_indices b)) ;;
  new_cell c.

Definition Cell_add (self other : loc) : M loc :=
  a <- get_cell self ;;
  b <- get_cell other ;;
  v <- lift (operator Add (_value a) (_value b)) ;;
  w <- lift (add (_constructing_words a) (_constructing_words b)) ;;
  c <- lift (__init__ None None (Some v) (Some w) computational (cell_indices a)) ;;
  new_cell c.

Definition Cell_subtract (self other : loc) : M loc :=
  a <- get_cell self ;;
  b <- get_cell other ;;
  v <- lift (operator Sub (_value a) (_value b)) ;;
  w <- lift (subtract (_constructing_words a) (_constructing_words b)) ;;
  c <- lift (__init__ None None (Some v) (Some w) computational (cell_indices a)) ;;
  new_cell c.

Definition Cell_multiply (self other : loc) : M loc :=
  a <- get_cell self ;;
  b <- get_cell other ;;
  v <- lift (operator Mul (_value a) (_value b)) ;;
  w <- lift (multiply (_constructing_words a) (_constructing_words b)) ;;
  c <- lift (__init__ None None (Some v) (Some w) computational (cell_indices a)) ;;
  new_cell c.

Definition Cell_divide (self other : loc) : M loc :=
  a <- get_cell self ;;
  b <- get_cell other ;;
  v <- lift (operator Div (_value a) (_value b)) ;;
  w <- lift (divide (_constructing_words a) (_constructing_words b)) ;;
  c <- lift (__init__ None None (Some v) (Some w) computational (cell_indices a)) ;;
  new_cell c.

Definition Cell_power (self other : loc) : M loc :=
  a <- get_cell self ;;
  b <- get_cell other ;;
  v <- lift (operator Pow (_value a) (_value b)) ;;
  w <- lift (power (_constructing_words a) (_constructing_words b)) ;;
  c <- lift (__init__ None None (Some v) (Some w) computational (cell_indices a)) ;;
  new_cell c.

Definition Cell_logarithm (self : loc) (number : num) : M loc :=
  a <- get_cell self ;;
  v <- lift (np_log (Some number)) ;;
  w <- lift (x <-? np_log (Some number) ;;
             Returned (constant (_constructing_words a) x)) ;;
  c <- lift (__init__ None None (Some v) (Some w) computational (cell_indices a)) ;;
  new_cell c.

(** The words are the constant of [np.log(number)], as in the source. *)
Definition Cell_exponential (self : loc) (number : num) : M loc :=
  a <- get_cell self ;;
  v <- lift (np_exp (Some number)) ;;
  w <- lift (x <-? np_log (Some number) ;;
             Returned (constant (_constructing_words a) x)) ;;
  c <- lift (__init__ None None (Some v) (Some w) computational (cell_indices a)) ;;
  new_cell c.

(** The method of the draft for an operator, and the function on words it
    calls. *)
Definition method (op : binop) : loc -> loc -> M loc :=
  match op with
  | Add => Cell_add
  | Sub => Cell_subtract
  | Mul => Cell_multiply
  | Div => Cell_divide
  | Pow => Cell_power
  end.

Definition words_of (op : binop) : fragment -> fragment -> result fragment :=
  match op with
  | Add => add
  | Sub => subtract
  | Mul => multiply
  | Div => divide
  | Pow => power
  end.
End Methods.
End Legacy.

(* ================================================================== *)
(** ** Fragments by the spec *)

Module Fragment.
Section Fragments.
Context {num : Type}.

(** Modelled from the spec: a fragment of the absent [word_constructor], by
    its structural tag: operator kind and operand fragments.  A reference is
    the coordinate of the referenced cell, never its expression. *)
Inductive fragment : Type :=
| Empty
| Constant (v : option num)
| Coordinate (row column : index)
| Operation (op : binop) (left right : fragment)
| Brackets (inner : fragment)
| Logarithm (inner : fragment)
| Exponential (inner : fragment)
| Aggregation (method : string) (start_idx end_idx : index * index).

Local Abbreviation Cell := (Cell num fragment).

(** Modelled from the spec: if no fragment is supplied, one is synthesized:
    a constant fragment for a cell with a value, a coordinate fragment for an
    anchored cell without one. *)
Definition init_from_new_cell (row column : option index)
    (value : option num) (cell_type : CellType) (cell_indices : loc)
  : fragment :=
  match value, row, column with
  | Some v, _, _ => Constant (Some v)
  | None, Some r, Some c => Coordinate r c
  | None, _, _ => Empty
  end.

(** Modelled from the spec: a reference to a non-anchored cell fails with
    InvalidOperand; a reference fragment is the coordinate of the cell. *)
Definition reference (c : Cell) : result fragment :=
  match row c, column c with
  | Some r, Some k => Returned (Coordinate r k)
  | _, _ => Raised InvalidOperand
  end.

(** Modelled from the spec: a bare value renders as its literal. *)
Definition constant (c : Cell) : fragment := Constant (_value c).

(** Modelled from the spec: the exposed-fragment rule: an anchored cell
    exposes its coordinate, a free cell its expression (Computational) or
    its literal (Value). *)
Definition exposed (c : Cell) : result fragment :=
  if Cell.anchored c then reference c
  else match cell_type c with
       | computational => Returned (_constructing_words c)
       | value_only => Returned (constant c)
       end.

(** Modelled from the spec: a binary operator joins the fragments its two
    operands expose; operands whose CellIndices differ fail with
    IncompatibleIndices. *)
Definition binary (op : binop) (first second : Cell) : result fragment :=
  if bool_decide (cell_indices first = cell_indices second)
  then
    l <-? exposed first ;;
    r <-? exposed second ;;
    Returned (Operation op l r)
  else Raised IncompatibleIndices.

(** Modelled from the spec: [brackets], [logarithm], [exponential] wrap the
    one operand fragment. *)
Definition wrap (f : fragment -> fragment) (c : Cell) : result fragment :=
  w <-? exposed c ;;
  Returned (f w).

(** Modelled from the spec: an aggregation fragment is the call of the
    method on the range from start to end. *)
Definition aggregation (self : fragment) (start_idx end_idx : index * index)
    (grammar_method : string) : fragment :=
  Aggregation grammar_method start_idx end_idx.

#[global] Instance by_spec : WordConstructor.Ops num fragment := {|
  WordConstructor.init_from_new_cell := init_from_new_cell;
  WordConstructor.add := binary Add;
  WordConstructor.subtract := binary Sub;
  WordConstructor.multiply := binary Mul;
  WordConstructor.divide := binary Div;
  WordConstructor.power := binary Pow;
  WordConstructor.reference := reference;
  WordConstructor.constant := constant;
  WordConstructor.brackets := wrap Brackets;
  WordConstructor.logarithm := wrap Logarithm;
  WordConstructor.exponential := wrap Exponential;
  WordConstructor.aggregation := aggregation
|}.
End Fragments.
Arguments fragment : clear implicits.
End Fragment.

(* ================================================================== *)
(** ** Exact arithmetic

    Rational numbers with exact operations, to run the model on concrete
    sheets; the theorems are stated for any [Native] and do not depend on
    this instance.  It agrees with Python and NumPy where the float result is
    the exact one: sums, differences, products and quotients that are not
    rounded and do not overflow, [/] by zero (ZeroDivisionError), [**] with an
    integral exponent, [np.log(1)], [np.exp(0)], the reductions of numbers,
    and the reductions of a list with a None in it.  Elsewhere it has no
    number for the float Python returns and reports [Inexact], which Python
    does not raise: a rounded result ([0.1 + 0.2]), every fractional exponent
    (also [4 ** 0.5], which is [2.0]), [np.log] but at 1 ([np.log(0)] is
    [-inf]), [np.exp] but at 0, the mean of no numbers (nan, with a warning);
    and it does not wrap around where an int64 sum does. *)

Module Exact.
Definition integral (q : Q) : bool := (Zpos (Qden (Qred q)) =? 1)%Z.

Definition arithmetic (op : binop) (x y : Q) : result Q :=
  match op with
  | Add => Returned (Qred (x + y))
  | Sub => Returned (Qred (x - y))
  | Mul => Returned (Qred (x * y))
  | Div =>
      if Qeq_bool y 0 then Raised (ZeroDivisionError "division by zero")
      else Returned (Qred (x / y))
  | Pow =>
      if integral y then
        if Qeq_bool x 0 && (Qnum y <? 0)%Z
        then Raised (ZeroDivisionError "0.0 cannot be raised to a negative power")
        else Returned (Qred (Qpower x (Qnum (Qred y))))
      else Raised (Inexact "fractional power")
  end.

Definition log (x : option Q) : result Q :=
  match x with
  | None => Raised (TypeError "loop of ufunc does not support argument 0 of type NoneType")
  | Some q => if Qeq_bool q 1 then Returned 0%Q
              else Raised (Inexact "logarithm")
  end.

Definition exp (x : option Q) : result Q :=
  match x with
  | None => Raised (TypeError "loop of ufunc does not support argument 0 of type NoneType")
  | Some q => if Qeq_bool q 0 then Returned 1%Q
              else Raised (Inexact "exponential")
  end.

Fixpoint present (l : list (option Q)) : option (list Q) :=
  match l with
  | [] => Some []
  | Some q :: l' => option_map (cons q) (present l')
  | None :: _ => None
  end.

Definition least (x y : Q) : Q := if Qle_bool x y then x else y.
Definition greatest (x y : Q) : Q := if Qle_bool x y then y else x.

(** A list with a None in it: the reduction of the one-element list [[None]]
    applies no operator and returns None (the mean divides it by the count
    and raises); with more elements the operator meets None and raises
    TypeError. *)
Definition reduce (m : method_np) (l : list (option Q)) : result (option Q) :=
  match present l with
  | None =>
      match m, l with
      | np_mean, _ => Raised (TypeError "unsupported operand type(s)")
      | _, [None] => Returned None
      | _, _ => Raised (TypeError "unsupported operand type(s)")
      end
  | Some qs =>
      match m, qs with
      | np_sum, _ => Returned (Some (Qred (fold_right Qplus 0%Q qs)))
      | np_prod, _ => Returned (Some (Qred (fold_right Qmult 1%Q qs)))
      | np_mean, [] => Raised (Inexact "mean of empty slice")
      | np_mean, _ =>
          Returned (Some (Qred (fold_right Qplus 0%Q qs
                                / inject_Z (Z.of_nat (length qs)))))
      | np_min, [] => Raised (ValueError
          "zero-size array to reduction operation minimum which has no identity")
      | np_min, q :: qs' => Returned (Some (fold_right least q qs'))
      | np_max, [] => Raised (ValueError
          "zero-size array to reduction operation maximum which has no identity")
      | np_max, q :: qs' => Returned (Some (fold_right greatest q qs'))
      end
  end.

#[global] Instance exact : Native Q := {|
  native := arithmetic;
  np_log := log;
  np_exp := exp;
  np_reduce := reduce
|}.
End Exact.

(** The concrete model: exact numbers, fragments by the spec. *)
Module Concrete.
Export Exact Fragment.
Definition fragment : Type := Fragment.fragment Q.
Definition Cell : Type := Cell Q fragment.
Definition Store : Type := Store Q fragment.
Definition empty : Store := {| cells := []; indices := [] |}.

(** A grid description of the given shape, without labels. *)
Definition plain (rows columns : nat) : CellIndices :=
  {| shape := (rows, columns); rows_labels := []; columns_labels := [];
     rows_help_text := []; columns_help_text := [] |}.
End Concrete.

(* ================================================================== *)
(** ** Vocabulary of the properties *)

Section Vocabulary.
Context {num fragment : Type}.
Context `{Native num} `{WordConstructor.Ops num fragment}.
Local Abbreviation Cell := (Cell num fragment).
Local Abbreviation Store := (Store num fragment).

(** [st'] has every object of [st], unchanged. *)
Definition extends (st st' : Store) : Prop :=
  (forall l c, cells st !! l = Some c -> cells st' !! l = Some c)
  /\ (forall l ci, indices st !! l = Some ci -> indices st' !! l = Some ci).

(** The method of [Cell] for an operator, and the function of
    [WordConstructor] it calls. *)
Definition method (op : binop) : loc -> loc -> M loc :=
  match op with
  | Add => Cell.add
  | Sub => Cell.subtract
  | Mul => Cell.multiply
  | Div => Cell.divide
  | Pow => Cell.power
  end.

Definition words_of (op : binop) : Cell -> Cell -> result fragment :=
  match op with
  | Add => WordConstructor.add
  | Sub => WordConstructor.subtract
  | Mul => WordConstructor.multiply
  | Div => WordConstructor.divide
  | Pow => WordConstructor.power
  end.

(** The free, computational cell the operations of [Cell] build. *)
Definition outcome (v : option num) (ci : loc) (w : fragment) : Cell :=
  {| row := None; column := None; _value := v;
     cell_type := computational; cell_indices := ci;
     _constructing_words := w |}.

(** The static method of [Cell] for a reduction. *)
Definition aggregate (m : method_np)
  : index * index -> index * index -> list loc -> M loc :=
  match m with
  | np_sum => Cell.sum
  | np_prod => Cell.product
  | np_mean => Cell.mean
  | np_min => Cell.min
  | np_max => Cell.max
  end.

(** The name of a reduction in the grammars. *)
Definition grammar_method (m : method_np) : string :=
  match m with
  | np_sum => "sum"
  | np_prod => "product"
  | np_mean => "mean"
  | np_min => "minimum"
  | np_max => "maximum"
  end.

(** The objects at the addresses of a list. *)
Definition objects (st : Store) (ls : list loc) (cs : list Cell) : Prop :=
  Forall2 (fun l c => cells st !! l = Some c) ls cs.

(** The address in slot (r, c) of a sheet. *)
Definition slot (sheet : list (list loc)) (r c : nat) : option loc :=
  match sheet !! r with
  | Some line => line !! c
  | None => None
  end.

(** A sheet of [rows] lines of [columns] cells each. *)
Definition rectangular (sheet : list (list loc)) (rows columns : nat) : Prop :=
  length sheet = rows /\ Forall (fun line => length line = columns) sheet.
End Vocabulary.

(** ** Vocabulary of the grid *)

Section GridVocabulary.
Context {num fragment : Type}.
Context `{Native num} `{WordConstructor.Ops num fragment}.
Local Abbreviation Cell := (Cell num fragment).
Local Abbreviation Store := (Store num fragment).

(** A well-formed grid: the indices object of [self] is live and has shape
    (rows, columns), the sheet has that shape and every slot holds a live
    cell. *)
Definition grid (st : Store) (self : Spreadsheet) (rows columns : nat) : Prop :=
  (exists d, indices st !! _cell_indices self = Some d /\ shape d = (rows, columns))
  /\ rectangular (_sheet self) rows columns
  /\ (forall r c l, slot (_sheet self) r c = Some l -> is_Some (cells st !! l)).

(** The cell [Cell(cell_indices=ci)] is: free, without a value. *)
Definition blank (ci : loc) : Cell :=
  {| row := None; column := None; _value := None; cell_type := value_only;
     cell_indices := ci;
     _constructing_words :=
       WordConstructor.init_from_new_cell None None None value_only ci |}.

(** Two states of one cell that differ at most in [cell_indices]. *)
Definition same_but_indices (c c' : Cell) : Prop :=
  row c' = row c /\ column c' = column c /\ _value c' = _value c
  /\ cell_type c' = cell_type c
  /\ _constructing_words c' = _constructing_words c.

(** What a resize to the indices object [ci] does to the store: it allocates
    blank cells and points cells at [ci]; nothing else. *)
Definition resized (ci : loc) (st st' : Store) : Prop :=
  indices st' = indices st
  /\ length (cells st) <= length (cells st')
  /\ (forall l c, cells st !! l = Some c ->
        cells st' !! l = Some c \/ cells st' !! l = Some (with_cell_indices c ci))
  /\ (forall l c, length (cells st) <= l -> cells st' !! l = Some c -> c = blank ci).

(** The cell at [l] is live and points at the indices object [ci]. *)
Definition points_at (ci : loc) (st : Store) (l : loc) : Prop :=
  exists c, cells st !! l = Some c /\ cell_indices c = ci.
End GridVocabulary.

Section ResizeLoop.
Context {num fragment : Type}.
Context `{Native num} `{WordConstructor.Ops num fragment}.
Local Abbreviation Store := (Store num fragment).

(** The row loop of [expand_using_cell_indices] after [i] iterations, on a
    grid [origin] of [rows] by [columns] cells in the store [st0]: the rows
    below [i] have [columns'] cells, all pointing at [ci], the old slots with
    the cells they had and the others with new cells; the rows from [i] on
    are as they were. *)
Definition resizing (ci : loc) (origin : Spreadsheet) (rows columns columns' : nat)
    (st0 : Store) (i : nat) (self : Spreadsheet) (st : Store) : Prop :=
  _cell_indices self = ci
  /\ resized ci st0 st
  /\ length (_sheet self) = Nat.max rows i
  /\ forall k line, _sheet self !! k = Some line ->
       (i <= k -> _sheet origin !! k = Some line)
       /\ (k < i ->
           length line = columns'
           /\ forall j l, line !! j = Some l ->
                points_at ci st l
                /\ if decide (k < rows /\ j < columns)
                   then slot (_sheet origin) k j = Some l
                   else length (cells st0) <= l).

(** One iteration of the row loop of [expand_using_cell_indices]. *)
Definition resize_row (rows columns columns' : nat) (self : Spreadsheet)
    (row_idx : Z) : M Spreadsheet :=
  self <-
    (if (Z.of_nat rows <=? row_idx)%Z
     then
       row <- mapM (fun _ => Spreadsheet.empty_cell self) (range columns') ;;
       ret (Spreadsheet.with_sheet self (_sheet self ++ [row]))
     else
       foldM (fun self _ =>
                c <- Spreadsheet.empty_cell self ;;
                r <- lift (getitem (_sheet self) (PyInt row_idx)) ;;
                sheet <- lift (setitem (_sheet self) (PyInt row_idx) (r ++ [c])) ;;
                ret (Spreadsheet.with_sheet self sheet))
             self (range (columns' - columns))) ;;
  foldM (fun _ col_idx =>
           l <- Spreadsheet.iloc self (PyInt row_idx) (PyInt col_idx) ;;
           c <- get_cell l ;;
           put_cell l (with_cell_indices c (_cell_indices self)))
        tt (range columns') ;;;
  ret self.
End ResizeLoop.

Section InitialGrid.
Context {num fragment : Type}.
Context `{WordConstructor.Ops num fragment}.

(** The cell [Cell(row_idx, col_idx, cell_indices=ci)] is: anchored at
    (r, c), without a value. *)
Definition initial (ci : loc) (r c : nat) : Cell num fragment :=
  {| row := Some (PyInt (Z.of_nat r)); column := Some (PyInt (Z.of_nat c));
     _value := None; cell_type := value_only; cell_indices := ci;
     _constructing_words :=
       WordConstructor.init_from_new_cell (Some (PyInt (Z.of_nat r)))
         (Some (PyInt (Z.of_nat c))) None value_only ci |}.

(** The caller writes [d'] into the indices object at [ci]. *)
Definition mutate (ci : loc) (d' : CellIndices) (st : Store num fragment)
  : Store num fragment :=
  {| cells := cells st; indices := <[ci := d']> (indices st) |}.
End InitialGrid.

(* ================================================================== *)
(** ** Worked sheets *)

Module Scenario.
Import Concrete.
Local Abbreviation M := (@M Q fragment).

Definition value_cell (v : Q) (ci : loc) : Cell :=
  {| row := None; column := None; _value := Some v; cell_type := value_only;
     cell_indices := ci; _constructing_words := Constant (Some v) |}.

(** [Cell(value=2, cell_indices=i)], [Cell(value=5, cell_indices=i)] and
    [Cell(0, 1, value=0, cell_indices=i)] on one indices object [i]. *)
Definition two : Cell := value_cell 2 0.
Definition five : Cell := value_cell 5 0.
Definition anchored_zero : Cell :=
  {| row := Some (PyInt 0); column := Some (PyInt 1); _value := Some 0%Q;
     cell_type := value_only; cell_indices := 0;
     _constructing_words := Constant (Some 0%Q) |}.
Definition operands : Store :=
  {| cells := [two; five; anchored_zero]; indices := [plain 1 2] |}.

Definition run {A} (m : M A) (default : A * Store) : A * Store :=
  match m empty with
  | Returned r => r
  | Raised _ => default
  end.

(** [sheet = Spreadsheet(CellIndices(2, 2))] *)
Definition built : Spreadsheet * Store :=
  Eval vm_compute in
    run (ci <- new_indices (plain 2 2) ;; Spreadsheet.__init__ ci)
        ({| _cell_indices := 0; _sheet := [] |}, empty).
Definition sheet : Spreadsheet := fst built.
Definition store : Store := snd built.

(** [sheet.iloc[0, 1] = sheet.iloc[0, 0]], then whether the cell in slot
    (0, 1) is anchored, and its coordinates. *)
Definition assign_anchored : M (bool * (option index * option index)) :=
  ci <- new_indices (plain 1 2) ;;
  sheet <- Spreadsheet.__init__ ci ;;
  a <- Spreadsheet.iloc sheet (PyInt 0) (PyInt 0) ;;
  sheet <- Spreadsheet._set_item sheet (CellObject a) (PyInt 0, PyInt 1) ;;
  l <- Spreadsheet.iloc sheet (PyInt 0) (PyInt 1) ;;
  c <- get_cell l ;;
  ret (Cell.anchored c, Cell.coordinates c).

(** [Cell.exponential(Cell(value=0, cell_indices=i))]: the value and the
    words of the result. *)
Definition exponential_of_zero : M (option Q * fragment) :=
  ci <- new_indices (plain 1 1) ;;
  zero <- new_cell (value_cell 0 ci) ;;
  l <- Cell.exponential zero ;;
  c <- get_cell l ;;
  ret (Cell.value c, _constructing_words c).

(** A grid of two rows and two columns with 2 in slot (0, 0) and 5 in slot
    (0, 1); the sum of the references to the two cells: its value and its
    words. *)
Definition sum_of_references : M (option Q * fragment) :=
  ci <- new_indices (plain 2 2) ;;
  sheet <- Spreadsheet.__init__ ci ;;
  sheet <- Spreadsheet._set_item sheet (Number 2%Q) (PyInt 0, PyInt 0) ;;
  sheet <- Spreadsheet._set_item sheet (Number 5%Q) (PyInt 0, PyInt 1) ;;
  a <- Spreadsheet.iloc sheet (PyInt 0) (PyInt 0) ;;
  b <- Spreadsheet.iloc sheet (PyInt 0) (PyInt 1) ;;
  ra <- Cell.reference a ;;
  rb <- Cell.reference b ;;
  l <- Cell.add ra rb ;;
  c <- get_cell l ;;
  ret (Cell.value c, _constructing_words c).

(** [Cell.sum((0, 0), (0, 2), [A, B, C])] for cells of values 2, 2 and 89 in
    the first row of a grid. *)
Definition sum_of_row : M (option Q * fragment) :=
  ci <- new_indices (plain 1 3) ;;
  sheet <- Spreadsheet.__init__ ci ;;
  sheet <- Spreadsheet._set_item sheet (Number 2%Q) (PyInt 0, PyInt 0) ;;
  sheet <- Spreadsheet._set_item sheet (Number 2%Q) (PyInt 0, PyInt 1) ;;
  sheet <- Spreadsheet._set_item sheet (Number 89%Q) (PyInt 0, PyInt 2) ;;
  a <- Spreadsheet.iloc sheet (PyInt 0) (PyInt 0) ;;
  b <- Spreadsheet.iloc sheet (PyInt 0) (PyInt 1) ;;
  c <- Spreadsheet.iloc sheet (PyInt 0) (PyInt 2) ;;
  l <- Cell.sum (PyInt 0, PyInt 0) (PyInt 0, PyInt 2) [a; b; c] ;;
  r <- get_cell l ;;
  ret (Cell.value r, _constructing_words r).

(** The cells in slot (0, 0) of two grids, added. *)
Definition add_across_grids : M loc :=
  ci <- new_indices (plain 1 1) ;;
  first <- Spreadsheet.__init__ ci ;;
  second <- Spreadsheet.__init__ ci ;;
  a <- Spreadsheet.iloc first (PyInt 0) (PyInt 0) ;;
  b <- Spreadsheet.iloc second (PyInt 0) (PyInt 0) ;;
  Cell.add a b.
End Scenario.

Module Strangers.
Import Concrete.

(** Two cells with values, on two indices objects. *)
Definition store : Store :=
  {| cells := [Scenario.value_cell 2 0; Scenario.value_cell 5 1];
     indices := [plain 1 1; plain 1 1] |}.

(** The grid of [Scenario], and a free cell of value 5 beside it. *)
Definition beside : Store :=
  {| cells := cells Scenario.store ++ [Scenario.value_cell 5 1];
     indices := indices Scenario.store |}.
End Strangers.

(* ================================================================== *)
(** ** More worked sheets *)

Module Draft.
Section Words.
Context {num : Type}.

(** Modelled from the spec: the word constructor of the draft, on the
    fragments of [Fragment]: a binary operator joins the two words, a
    constant is the literal of the number, brackets wrap the words.  The
    draft hands it words, not cells, and these words carry no indices: this
    word constructor cannot refuse operands of different generations. *)
#[global] Instance by_spec : Legacy.Ops num (Fragment.fragment num) := {|
  Legacy.init_from_values := fun column row cell_indices cell_type value =>
    Fragment.init_from_new_cell row column value cell_type cell_indices;
  Legacy.add := fun l r => Returned (Fragment.Operation Add l r);
  Legacy.subtract := fun l r => Returned (Fragment.Operation Sub l r);
  Legacy.multiply := fun l r => Returned (Fragment.Operation Mul l r);
  Legacy.divide := fun l r => Returned (Fragment.Operation Div l r);
  Legacy.power := fun l r => Returned (Fragment.Operation Pow l r);
  Legacy.constant := fun _ x => Fragment.Constant (Some x);
  Legacy.brackets := Fragment.Brackets
|}.
End Words.
End Draft.

Module Sample.
Import Concrete.

(** [Cell(value=1, cell_indices=i)] and a cell without a value, on one
    indices object. *)
Definition store : Store :=
  {| cells := [Scenario.value_cell 1 0;
               {| row := None; column := None; _value := None;
                  cell_type := value_only; cell_indices := 0;
                  _constructing_words := Empty |}];
     indices := [plain 1 1] |}.

(** The labels of the rows of a grid of two rows. *)
Definition index : list string := ["first"; "second"].
End Sample.

Module Symbolic.
(** Numbers as they are written: a literal, or an operation of the native
    arithmetic applied to numbers.  Nothing is evaluated, so every operation
    on numbers has a value. *)
Inductive number : Type :=
| Literal (q : Q)
| Binary (op : binop) (x y : number)
| Log (x : number)
| Exp (x : number)
| Reduce (m : method_np) (l : operands)
with operands : Type :=
| Nil
| Cons (x : number) (l : operands).

Fixpoint present (l : list (option number)) : option operands :=
  match l with
  | [] => Some Nil
  | Some n :: l' => option_map (Cons n) (present l')
  | None :: _ => None
  end.

#[global] Instance symbolic : Native number := {|
  native := fun op x y => Returned (Binary op x y);
  np_log := fun x =>
    match x with
    | Some n => Returned (Log n)
    | None => Raised (TypeError
        "loop of ufunc does not support argument 0 of type NoneType")
    end;
  np_exp := fun x =>
    match x with
    | Some n => Returned (Exp n)
    | None => Raised (TypeError
        "loop of ufunc does not support argument 0 of type NoneType")
    end;
  np_reduce := fun m l =>
    match present l with
    | Some ns => Returned (Some (Reduce m ns))
    | None => Raised (TypeError "unsupported operand type(s)")
    end
|}.

(** [Cell(value=7, cell_indices=i)] of the draft, on symbolic numbers. *)
Definition store : Store number (Fragment.fragment number) :=
  {| cells := [{| row := None; column := None;
                  _value := Some (Literal 7);
                  cell_type := value_only; cell_indices := 0;
                  _constructing_words := Fragment.Constant (Some (Literal 7)) |}];
     indices := [Concrete.plain 1 1] |}.
End Symbolic.

Module Edge.
Import Concrete.
Local Abbreviation M := (@M Q fragment).

(** [Cell(value=2, cell_indices=i) / Cell(value=0, cell_indices=i)], in the
    package and in the draft. *)
Definition divide_by_zero : M loc :=
  ci <- new_indices (plain 1 1) ;;
  a <- new_cell (Scenario.value_cell 2 ci) ;;
  b <- new_cell (Scenario.value_cell 0 ci) ;;
  Cell.divide a b.

Definition draft_divide_by_zero : M loc :=
  ci <- new_indices (plain 1 1) ;;
  a <- new_cell (Scenario.value_cell 2 ci) ;;
  b <- new_cell (Scenario.value_cell 0 ci) ;;
  Legacy.Cell_divide a b.

(** A reduction of the two cells of a new grid of one row and two columns:
    [Cell.sum((0, 0), (0, 1), [sheet.iloc[0, 0], sheet.iloc[0, 1]])]. *)
Definition reduce_new_row (m : method_np) : M loc :=
  ci <- new_indices (plain 1 2) ;;
  sheet <- Spreadsheet.__init__ ci ;;
  a <- Spreadsheet.iloc sheet (PyInt 0) (PyInt 0) ;;
  b <- Spreadsheet.iloc sheet (PyInt 0) (PyInt 1) ;;
  aggregate m (PyInt 0, PyInt 0) (PyInt 0, PyInt 1) [a; b].

(** A reduction of no cells: [Cell.sum((0, 0), (0, 0), [])]. *)
Definition reduce_nothing (m : method_np) : M loc :=
  aggregate m (PyInt 0, PyInt 0) (PyInt 0, PyInt 0) [].

(** On a grid of one row and two columns, 2 is assigned to slot (0, 0) and
    the free cell [Cell(value=5, cell_indices=sheet.cell_indices)] to slot
    (0, 1); then [sheet.iloc[0, 0] + sheet.iloc[0, 1]]. *)
Definition reuse_stored : M loc :=
  ci <- new_indices (plain 1 2) ;;
  sheet <- Spreadsheet.__init__ ci ;;
  sheet <- Spreadsheet._set_item sheet (Number 2%Q) (PyInt 0, PyInt 0) ;;
  free <- new_cell (Scenario.value_cell 5 (Spreadsheet.cell_indices sheet)) ;;
  sheet <- Spreadsheet._set_item sheet (CellObject free) (PyInt 0, PyInt 1) ;;
  a <- Spreadsheet.iloc sheet (PyInt 0) (PyInt 0) ;;
  b <- Spreadsheet.iloc sheet (PyInt 0) (PyInt 1) ;;
  Cell.add a b.
End Edge.

(* ================================================================== *)
(** * Properties *)

(** ** The store under allocation and assignment *)

Section StoreFacts.
Context {num fragment : Type}.
Local Abbreviation Cell := (Cell num fragment).
Local Abbreviation Store := (Store num fragment).

Lemma extends_refl (st : Store) : extends st st.
Proof. split; auto. Qed.

Lemma extends_trans (st1 st2 st3 : Store) :
  extends st1 st2 -> extends st2 st3 -> extends st1 st3.
Proof. intros [A1 B1] [A2 B2]; split; auto. Qed.

Lemma lookup_snoc_old {A} (l : list A) (a x : A) (i : nat) :
  l !! i = Some x -> (l ++ [a]) !! i = Some x.
Proof. intros Hi. rewrite lookup_app_l; [done | by eapply lookup_lt_Some]. Qed.

Lemma lookup_snoc_new {A} (l : list A) (a : A) :
  (l ++ [a]) !! length l = Some a.
Proof. rewrite lookup_app_r, Nat.sub_diag; [done | lia]. Qed.

Lemma lookup_fresh {A} (l : list A) : l !! length l = None.
Proof. apply lookup_ge_None_2. lia. Qed.

Lemma run_bind {A B} (m : M A) (k : A -> M B) (st : Store) :
  bind m k st
  = match m st with
    | Returned (a, st') => k a st'
    | Raised e => Raised e
    end.
Proof. reflexivity. Qed.

Lemma run_lift {A} (r : result A) (st : Store) :
  lift r st
  = match r with
    | Returned a => Returned (a, st)
    | Raised e => Raised e
    end.
Proof. reflexivity. Qed.

Lemma run_ret {A} (a : A) (st : Store) : ret a st = Returned (a, st).
Proof. reflexivity. Qed.

Lemma extends_new_cell (c : Cell) (st : Store) :
  extends st {| cells := cells st ++ [c]; indices := indices st |}.
Proof. split; simpl; auto using lookup_snoc_old. Qed.

Lemma extends_new_indices (ci : CellIndices) (st : Store) :
  extends st {| cells := cells st; indices := indices st ++ [ci] |}.
Proof. split; simpl; auto using lookup_snoc_old. Qed.
End StoreFacts.


(** Runs a method body on a store whose lookups are known. *)
Ltac run :=
  unfold bind, lift, raise, ret, get_cell, get_indices, new_cell, new_indices,
    put_cell, operator, Cell.value; simpl.

(** Closes a goal about the one cell a method has allocated. *)
Ltac allocated :=
  eexists _, _, _; split; [reflexivity|]; simpl;
  split; [apply lookup_fresh|];
  split; [apply lookup_snoc_new|];
  repeat split; simpl; auto using lookup_snoc_old.

(** ** Arithmetic on cells *)

Section Arithmetic.
Context {num fragment : Type}.
Context `{Native num} `{WordConstructor.Ops num fragment}.
Local Abbreviation Cell := (Cell num fragment).
Local Abbreviation Store := (Store num fragment).

Lemma method_unfold (op : binop) (self other : loc) (st : Store) (a b : Cell) :
  cells st !! self = Some a ->
  cells st !! other = Some b ->
  method op self other st
  = match operator op (_value a) (_value b) with
    | Raised e => Raised e
    | Returned v =>
        match words_of op a b with
        | Raised e => Raised e
        | Returned w =>
            Returned (length (cells st),
                      {| cells := cells st ++ [outcome (Some v) (cell_indices b) w];
                         indices := indices st |})
        end
    end.
Proof.
  intros Ha Hb.
  destruct op; simpl;
    unfold Cell.add, Cell.subtract, Cell.multiply, Cell.divide, Cell.power;
    run; rewrite Ha, Hb;
    destruct (_value a) as [x|], (_value b) as [y|]; simpl; try reflexivity;
    destruct (native _ x y) as [v|e]; simpl; try reflexivity;
    match goal with
    | |- context [match ?w with Returned _ => _ | Raised _ => _ end] =>
        destruct w; reflexivity
    end.
Qed.

End Arithmetic.

(** ** Arithmetic on cells, in the draft *)

Section Draft.
Context {num fragment : Type}.
Context `{Native num} `{Legacy.Ops num fragment}.
Local Abbreviation Cell := (Cell num fragment).
Local Abbreviation Store := (Store num fragment).

(** The binary methods of the draft build the same cell as those of the
    package, on the indices of [self]. *)
Lemma draft_binary_method_value (op : binop) (st : Store) (self other : loc)
    (a b : Cell) (x y v : num) (w : fragment) :
  cells st !! self = Some a ->
  cells st !! other = Some b ->
  _value a = Some x ->
  _value b = Some y ->
  native op x y = Returned v ->
  Legacy.words_of op (_constructing_words a) (_constructing_words b)
  = Returned w ->
  Legacy.method op self other st
  = Returned (length (cells st),
              {| cells := cells st ++ [outcome (Some v) (cell_indices a) w];
                 indices := indices st |}).
Proof.
  intros Ha Hb Hx Hy Hv Hw.
  destruct op; simpl in *;
    unfold Legacy.Cell_add, Legacy.Cell_subtract, Legacy.Cell_multiply,
      Legacy.Cell_divide, Legacy.Cell_power;
    run; rewrite Ha, Hb, Hx, Hy; simpl; rewrite Hv, Hw; reflexivity.
Qed.

(** [exponential] of the draft: the value is [np.exp(number)], the words are
    the constant of [np.log(number)]. *)
Lemma draft_exponential_words (st : Store) (self : loc) (a : Cell)
    (number v x : num) :
  cells st !! self = Some a ->
  np_exp (Some number) = Returned v ->
  np_log (Some number) = Returned x ->
  Legacy.Cell_exponential self number st
  = Returned (length (cells st),
              {| cells := cells st
                   ++ [outcome (Some v) (cell_indices a)
                         (Legacy.constant (_constructing_words a) x)];
                 indices := indices st |}).
Proof.
  intros Ha Hv Hx. unfold Legacy.Cell_exponential. run.
  rewrite Ha, Hv, Hx. reflexivity.
Qed.
(** A binary method of the draft computes the value, then the words from the
    words of the operands, then the cell, on the indices of [self]. *)
Lemma draft_method_unfold (op : binop) (self other : loc) (st : Store)
    (a b : Cell) :
  cells st !! self = Some a ->
  cells st !! other = Some b ->
  Legacy.method op self other st
  = match operator op (_value a) (_value b) with
    | Raised e => Raised e
    | Returned v =>
        match Legacy.words_of op (_constructing_words a)
                (_constructing_words b) with
        | Raised e => Raised e
        | Returned w =>
            Returned (length (cells st),
                      {| cells := cells st ++ [outcome (Some v) (cell_indices a) w];
                         indices := indices st |})
        end
    end.
Proof.
  intros Ha Hb.
  destruct op; simpl;
    unfold Legacy.Cell_add, Legacy.Cell_subtract, Legacy.Cell_multiply,
      Legacy.Cell_divide, Legacy.Cell_power;
    run; rewrite Ha, Hb;
    destruct (_value a) as [x|], (_value b) as [y|]; simpl; try reflexivity;
    destruct (native _ x y) as [v|e]; simpl; try reflexivity;
    match goal with
    | |- context [match ?w with Returned _ => _ | Raised _ => _ end] =>
        destruct w; reflexivity
    end.
Qed.
End Draft.

(** ** The binary methods, in the package and in the draft *)

Section BinaryMethods.
Context {num fragment : Type}.
Context `{Native num} `{WordConstructor.Ops num fragment}
        `{Legacy.Ops num fragment}.
Local Abbreviation Cell := (Cell num fragment).
Local Abbreviation Store := (Store num fragment).

(** Whatever the word constructor does, an operand without a value makes a
    binary method raise TypeError: the value is computed before the words
    are built. *)
Lemma operand_without_value (op : binop) (st : Store) (self other : loc)
    (a b : Cell) :
  cells st !! self = Some a ->
  cells st !! other = Some b ->
  Cell.value a = None \/ Cell.value b = None ->
  method op self other st = Raised (TypeError "unsupported operand type(s)")
  /\ Legacy.method op self other st
     = Raised (TypeError "unsupported operand type(s)").
Proof.
  intros Ha Hb Hnone.
  rewrite (method_unfold op self other st a b Ha Hb).
  rewrite (draft_method_unfold op self other st a b Ha Hb).
  unfold Cell.value, operator in *.
  destruct Hnone as [-> | ->]; [done|]. by destruct (_value a).
Qed.

(** C1, as the code has it.  For cells [a] and [b] whose values are present,
    each of [add], [subtract], [multiply], [divide], [power], of the package
    and of the draft: when the native operation on the two values raises
    (as [/] does at a zero divisor), the method raises that exception and
    returns no cell; when the native operation has a value and the word
    constructor returns the words, the method returns a new cell, that is
    Free and Computational and whose value is the native arithmetic on the
    two values, and no object of the store, the operands among them, is
    modified; when the word constructor raises, the method raises its
    exception.  The cell of the package is on the indices of [other], the
    cell of the draft on the indices of [self]. *)
Theorem binary_method_value (op : binop) (st : Store) (self other : loc)
    (a b : Cell) (x y : num) :
  cells st !! self = Some a ->
  cells st !! other = Some b ->
  Cell.value a = Some x ->
  Cell.value b = Some y ->
  (forall e : exn,
     native op x y = Raised e ->
     method op self other st = Raised e
     /\ Legacy.method op self other st = Raised e)
  /\ (forall (v : num) (w : fragment),
        native op x y = Returned v ->
        words_of op a b = Returned w ->
        exists (l : loc) (c : Cell) (st' : Store),
          method op self other st = Returned (l, st')
          /\ cells st !! l = None
          /\ cells st' !! l = Some c
          /\ Cell.anchored c = false
          /\ cell_type c = computational
          /\ Cell.value c = Some v
          /\ _constructing_words c = w
          /\ cell_indices c = cell_indices b
          /\ cells st' !! self = Some a
          /\ cells st' !! other = Some b
          /\ extends st st')
  /\ (forall (v : num) (e : exn),
        native op x y = Returned v ->
        words_of op a b = Raised e ->
        method op self other st = Raised e)
  /\ (forall (v : num) (w : fragment),
        native op x y = Returned v ->
        Legacy.words_of op (_constructing_words a) (_constructing_words b)
        = Returned w ->
        exists (l : loc) (c : Cell) (st' : Store),
          Legacy.method op self other st = Returned (l, st')
          /\ cells st !! l = None
          /\ cells st' !! l = Some c
          /\ Cell.anchored c = false
          /\ cell_type c = computational
          /\ Cell.value c = Some v
          /\ _constructing_words c = w
          /\ cell_indices c = cell_indices a
          /\ cells st' !! self = Some a
          /\ cells st' !! other = Some b
          /\ extends st st')
  /\ (forall (v : num) (e : exn),
        native op x y = Returned v ->
        Legacy.words_of op (_constructing_words a) (_constructing_words b)
        = Raised e ->
        Legacy.method op self other st = Raised e).
Proof.
  intros Ha Hb Hx Hy. unfold Cell.value in Hx, Hy.
  rewrite (method_unfold op self other st a b Ha Hb).
  rewrite (draft_method_unfold op self other st a b Ha Hb).
  unfold operator. rewrite Hx, Hy.
  split; [|split; [|split; [|split]]].
  - intros e ->. done.
  - intros v w -> ->. allocated.
  - intros v e -> ->. done.
  - intros v w -> ->. allocated.
  - intros v e -> ->. done.
Qed.
End BinaryMethods.

(** ** References *)

Section References.
Context {num fragment : Type}.
Context `{Native num} `{WordConstructor.Ops num fragment}.
Local Abbreviation Cell := (Cell num fragment).
Local Abbreviation Store := (Store num fragment).

(** C8. [Cell.reference] of a cell that is not anchored raises the ValueError
    of the source (InvalidOperand in the spec's taxonomy) and produces no
    cell.  Of an anchored cell it returns a new Computational cell with the
    value of the referenced cell, whose words are the reference fragment of
    the word constructor for that cell, and not the words of the cell. *)
Theorem reference_of_cell (st : Store) (other : loc) (b : Cell) :
  cells st !! other = Some b ->
  (Cell.anchored b = false ->
   Cell.reference other st
   = Raised (ValueError "The referenced cell has to be anchored."))
  /\ (Cell.anchored b = true ->
      forall w : fragment,
        WordConstructor.reference b = Returned w ->
        exists (l : loc) (c : Cell) (st' : Store),
          Cell.reference other st = Returned (l, st')
          /\ cells st !! l = None
          /\ cells st' !! l = Some c
          /\ cell_type c = computational
          /\ Cell.value c = Cell.value b
          /\ _constructing_words c = w
          /\ extends st st').
Proof.
  intros Hb. unfold Cell.reference. run. rewrite Hb. split.
  - intros ->. reflexivity.
  - intros -> w ->. simpl.
    allocated.
Qed.

(** What [Cell.exponential] builds: the value is [np.exp] of the value of the
    operand, the words are those of [WordConstructor.logarithm]. *)
Lemma exponential_unfold (st : Store) (other : loc) (b : Cell)
    (v : num) (w : fragment) :
  cells st !! other = Some b ->
  np_exp (Cell.value b) = Returned v ->
  WordConstructor.logarithm b = Returned w ->
  Cell.exponential other st
  = Returned (length (cells st),
              {| cells := cells st ++ [outcome (Some v) (cell_indices b) w];
                 indices := indices st |}).
Proof.
  intros Hb Hv Hw. unfold Cell.exponential. run.
  unfold Cell.value in Hv. rewrite Hb, Hv, Hw. reflexivity.
Qed.

(** What [Cell.logarithm] builds. *)
Lemma logarithm_unfold (st : Store) (other : loc) (b : Cell)
    (v : num) (w : fragment) :
  cells st !! other = Some b ->
  np_log (Cell.value b) = Returned v ->
  WordConstructor.logarithm b = Returned w ->
  Cell.logarithm other st
  = Returned (length (cells st),
              {| cells := cells st ++ [outcome (Some v) (cell_indices b) w];
                 indices := indices st |}).
Proof.
  intros Hb Hv Hw. unfold Cell.logarithm. run.
  unfold Cell.value in Hv. rewrite Hb, Hv, Hw. reflexivity.
Qed.
End References.

(** ** Reductions *)

Section Reductions.
Context {num fragment : Type}.
Context `{Native num} `{WordConstructor.Ops num fragment}.
Local Abbreviation Cell := (Cell num fragment).
Local Abbreviation Store := (Store num fragment).

Lemma values_of_subset (st : Store) (ls : list loc) (cs : list Cell) :
  objects st ls cs ->
  mapM (fun l => c <- get_cell l ;; ret (Cell.value c)) ls st
  = Returned (map Cell.value cs, st).
Proof.
  induction 1 as [|l c ls cs Hl _ IH]; [reflexivity|].
  simpl. rewrite !run_bind. unfold get_cell at 1.
  rewrite Hl. unfold ret at 1. rewrite run_bind, IH. reflexivity.
Qed.

Lemma aggregate_unfold (m : method_np) (start_idx end_idx : index * index)
    (subset : list loc) :
  aggregate m start_idx end_idx subset
  = Cell._aggregate_fun start_idx end_idx subset (grammar_method m) m.
Proof. destruct m; reflexivity. Qed.

(** C3, as the code has it.  For every start and end index, each of [sum],
    [product], [mean], [min], [max] fails on the empty subset: with the
    exception of the reduction when NumPy refuses the empty list, and
    otherwise with the IndexError of [subset[0]]; there is no one error of
    the empty subset.  On a subset that is not empty the method raises the
    exception of the reduction when the reduction of the members' values
    raises (as it does for members without a value), and where the
    reduction has a value it returns a new cell with that value. *)
Theorem aggregate_of_subset (m : method_np) (start_idx end_idx : index * index)
    (st : Store) :
  aggregate m start_idx end_idx [] st
  = Raised (match np_reduce m [] with
            | Raised e => e
            | Returned _ => IndexError "list index out of range"
            end)
  /\ forall (l0 : loc) (ls : list loc) (c0 : Cell) (cs : list Cell),
      objects st (l0 :: ls) (c0 :: cs) ->
      (forall e : exn,
         np_reduce m (map Cell.value (c0 :: cs)) = Raised e ->
         aggregate m start_idx end_idx (l0 :: ls) st = Raised e)
      /\ (forall v : option num,
            np_reduce m (map Cell.value (c0 :: cs)) = Returned v ->
            exists (l : loc) (c : Cell) (st' : Store),
              aggregate m start_idx end_idx (l0 :: ls) st = Returned (l, st')
              /\ cells st !! l = None
              /\ cells st' !! l = Some c
              /\ Cell.value c = v
              /\ c = outcome v (cell_indices c0)
                       (WordConstructor.aggregation (_constructing_words c0)
                          start_idx end_idx (grammar_method m))
              /\ extends st st').
Proof.
  rewrite !aggregate_unfold. unfold Cell._aggregate_fun. split.
  - unfold bind, lift, ret. simpl.
    destruct (np_reduce m []); reflexivity.
  - intros l0 ls c0 cs Hobj.
    rewrite aggregate_unfold. unfold Cell._aggregate_fun.
    rewrite run_bind, (values_of_subset st _ _ Hobj).
    rewrite run_bind, run_lift.
    split.
    + intros e ->. reflexivity.
    + intros v ->.
      inversion Hobj as [|? ? ? ? Hl0 _]; subst.
      run. rewrite Hl0. simpl.
      allocated.
Qed.
End Reductions.

(** ** Python subscripts *)

Section Subscripts.
Context {A : Type}.

Lemma position_front (n k : nat) :
  k < n -> position n (Z.of_nat k) = Some k.
Proof.
  intros Hk. unfold position.
  replace (0 <=? Z.of_nat k)%Z with true by (symmetry; apply Z.leb_le; lia).
  replace (Z.of_nat k <? Z.of_nat n)%Z with true by (symmetry; apply Z.ltb_lt; lia).
  simpl. by rewrite Nat2Z.id.
Qed.

Lemma position_in_range (n : nat) (i : Z) :
  (- Z.of_nat n <= i < Z.of_nat n)%Z ->
  position n i = Some (Z.to_nat (i mod Z.of_nat n)) /\ Z.to_nat (i mod Z.of_nat n) < n.
Proof.
  intros Hi. unfold position.
  destruct (Z.leb_spec 0 i) as [H0|H0]; simpl.
  - replace (i <? Z.of_nat n)%Z with true by (symmetry; apply Z.ltb_lt; lia).
    rewrite Z.mod_small by lia. split; [done | lia].
  - replace (- Z.of_nat n <=? i)%Z with true by (symmetry; apply Z.leb_le; lia).
    replace (i <? 0)%Z with true by (symmetry; apply Z.ltb_lt; lia). simpl.
    replace (i mod Z.of_nat n)%Z with (Z.of_nat n + i)%Z; [split; [done | lia]|].
    apply (Z.mod_unique_pos _ _ (-1)); lia.
Qed.

Lemma position_out_of_range (n : nat) (i : Z) :
  ~ (- Z.of_nat n <= i < Z.of_nat n)%Z -> position n i = None.
Proof.
  intros Hi. unfold position.
  destruct (Z.leb_spec 0 i), (Z.ltb_spec i (Z.of_nat n)),
    (Z.leb_spec (- Z.of_nat n) i), (Z.ltb_spec i 0); simpl; try done; lia.
Qed.

Lemma getitem_front (l : list A) (k : nat) (a : A) :
  l !! k = Some a -> getitem l (PyInt (Z.of_nat k)) = Returned a.
Proof.
  intros Hk. unfold getitem.
  rewrite position_front by (by eapply lookup_lt_Some). by rewrite Hk.
Qed.

Lemma getitem_in_range (l : list A) (i : Z) :
  (- Z.of_nat (length l) <= i < Z.of_nat (length l))%Z ->
  exists a, l !! Z.to_nat (i mod Z.of_nat (length l)) = Some a
            /\ getitem l (PyInt i) = Returned a.
Proof.
  intros Hi. destruct (position_in_range _ _ Hi) as [Hp Hlt].
  destruct (lookup_lt_is_Some_2 l _ Hlt) as [a Ha].
  exists a. split; [done|]. unfold getitem. by rewrite Hp, Ha.
Qed.

Lemma getitem_out_of_range (l : list A) (i : Z) :
  ~ (- Z.of_nat (length l) <= i < Z.of_nat (length l))%Z ->
  getitem l (PyInt i) = Raised (IndexError "list index out of range").
Proof. intros Hi. unfold getitem. by rewrite position_out_of_range. Qed.

Lemma setitem_front (l : list A) (k : nat) (a : A) :
  k < length l -> setitem l (PyInt (Z.of_nat k)) a = Returned (<[k := a]> l).
Proof. intros Hk. unfold setitem. by rewrite position_front. Qed.
End Subscripts.

Lemma not_integer_int (z : Z) : not_integer (PyInt z) = false.
Proof.
  unfold not_integer. apply negb_false_iff, Qle_bool_iff. cbn [to_Q int].
  assert (E : (inject_Z z - inject_Z z == 0)%Q) by ring.
  rewrite E. unfold Qle. simpl. lia.
Qed.

(** ** Access to the grid *)

Section Access.
Context {num fragment : Type}.
Context `{Native num} `{WordConstructor.Ops num fragment}.

Lemma rectangular_line (sheet : list (list loc)) (rows columns k : nat)
    (line : list loc) :
  rectangular sheet rows columns -> sheet !! k = Some line ->
  length line = columns.
Proof.
  intros [_ Hall] Hk. rewrite Forall_forall in Hall.
  apply Hall. by eapply list_elem_of_lookup_2.
Qed.

(** C7, as the code has it.  On a grid of [rows] lines of [columns] cells:
    a coordinate that differs from its integer part by more than 0.000001
    raises IndexError; otherwise the integer parts are taken as list
    subscripts, so that a pair in [-rows, rows) x [-columns, columns) returns
    the cell of that slot, negative subscripts counting from the end, and any
    other pair raises IndexError.  Integer coordinates in
    [0, rows) x [0, columns) return the cell stored at (r, c). *)
Theorem get_item_of_grid (self : Spreadsheet) (rows columns : nat) (x y : index) :
  rectangular (_sheet self) rows columns ->
  (not_integer x = true \/ not_integer y = true ->
   Spreadsheet._get_item self (x, y)
   = Raised (IndexError "Indices must be integers!"))
  /\ (not_integer x = false -> not_integer y = false ->
      (- Z.of_nat rows <= int x < Z.of_nat rows)%Z ->
      (- Z.of_nat columns <= int y < Z.of_nat columns)%Z ->
      exists l : loc,
        slot (_sheet self) (Z.to_nat (int x mod Z.of_nat rows))
          (Z.to_nat (int y mod Z.of_nat columns)) = Some l
        /\ Spreadsheet._get_item self (x, y) = Returned l)
  /\ (not_integer x = false -> not_integer y = false ->
      ~ ((- Z.of_nat rows <= int x < Z.of_nat rows)%Z
         /\ (- Z.of_nat columns <= int y < Z.of_nat columns)%Z) ->
      Spreadsheet._get_item self (x, y)
      = Raised (IndexError "list index out of range"))
  /\ (forall r c : nat, r < rows -> c < columns ->
      exists l : loc,
        slot (_sheet self) r c = Some l
        /\ Spreadsheet._get_item self (PyInt (Z.of_nat r), PyInt (Z.of_nat c))
           = Returned l).
Proof.
  intros Hrect. pose proof Hrect as [Hrows _].
  assert (Hin : forall x y : index,
    not_integer x = false -> not_integer y = false ->
    (- Z.of_nat rows <= int x < Z.of_nat rows)%Z ->
    (- Z.of_nat columns <= int y < Z.of_nat columns)%Z ->
    exists l : loc,
      slot (_sheet self) (Z.to_nat (int x mod Z.of_nat rows))
        (Z.to_nat (int y mod Z.of_nat columns)) = Some l
      /\ Spreadsheet._get_item self (x, y) = Returned l).
  { clear x y. intros x y Hx Hy Hr Hc. unfold Spreadsheet._get_item.
    rewrite Hx, Hy. simpl. rewrite <- Hrows in Hr.
    destruct (getitem_in_range _ _ Hr) as (line & Hline & ->). simpl.
    rewrite Hrows in Hline.
    pose proof (rectangular_line _ _ _ _ _ Hrect Hline) as Hlen.
    rewrite <- Hlen in Hc.
    destruct (getitem_in_range _ _ Hc) as (l & Hl & ->).
    rewrite Hlen in Hl. exists l. split; [|done].
    unfold slot. by rewrite Hline. }
  repeat split.
  - intros Hxy. unfold Spreadsheet._get_item.
    destruct Hxy as [-> | ->]; [done|]. by rewrite orb_true_r.
  - apply Hin.
  - intros Hx Hy Hout. unfold Spreadsheet._get_item. rewrite Hx, Hy. simpl.
    destruct (decide (- Z.of_nat rows <= int x < Z.of_nat rows)%Z) as [Hr|Hr].
    + rewrite <- Hrows in Hr.
      destruct (getitem_in_range _ _ Hr) as (line & Hline & ->). simpl.
      rewrite Hrows in Hline.
      pose proof (rectangular_line _ _ _ _ _ Hrect Hline) as Hlen.
      apply getitem_out_of_range. rewrite Hlen. rewrite Hrows in Hr. tauto.
    + rewrite <- Hrows in Hr. by rewrite (getitem_out_of_range _ _ Hr).
  - intros r c Hr Hc.
    destruct (Hin (PyInt (Z.of_nat r)) (PyInt (Z.of_nat c))) as (l & Hl & Hget);
      try apply not_integer_int; simpl; try lia.
    exists l. split; [|done].
    simpl in Hl. by rewrite !Z.mod_small, !Nat2Z.id in Hl by lia.
Qed.
End Access.

(** ** Assignment to the grid *)

Section Assignment.
Context {num fragment : Type}.
Context `{Native num} `{WordConstructor.Ops num fragment}.
Local Abbreviation Cell := (Cell num fragment).
Local Abbreviation Store := (Store num fragment).

Lemma slot_insert (sheet : list (list loc)) (r c : nat) (line : list loc)
    (l : loc) :
  sheet !! r = Some line -> c < length line ->
  slot (<[r := <[c := l]> line]> sheet) r c = Some l.
Proof.
  intros Hr Hc. unfold slot.
  rewrite list_lookup_insert_eq by (by eapply lookup_lt_Some).
  by rewrite list_lookup_insert_eq.
Qed.

(** Runs the last statement of [_set_item], [self._sheet[_x][_y] = _value]. *)
Ltac store_in_slot Hline Hc :=
  rewrite (getitem_front _ _ _ Hline); simpl;
  rewrite (setitem_front _ _ _ Hc); simpl;
  rewrite setitem_front by (by eapply lookup_lt_Some); simpl.

(** [_set_item] with an anchored cell: the slot receives the free cell that
    [Cell.reference] builds; its coordinates are not set. *)
Lemma set_item_anchored_run (self : Spreadsheet) (st : Store) (r c : nat)
    (line : list loc) (a : loc) (b : Cell) (w : fragment) :
  _sheet self !! r = Some line ->
  c < length line ->
  cells st !! a = Some b ->
  Cell.anchored b = true ->
  WordConstructor.reference b = Returned w ->
  Spreadsheet._set_item self (CellObject a)
    (PyInt (Z.of_nat r), PyInt (Z.of_nat c)) st
  = Returned
      (Spreadsheet.with_sheet self
         (<[r := <[c := length (cells st)]> line]> (_sheet self)),
       {| cells := cells st ++ [outcome (_value b) (cell_indices b) w];
          indices := indices st |})
  /\ Cell.reference a st
     = Returned
         (length (cells st),
          {| cells := cells st ++ [outcome (_value b) (cell_indices b) w];
             indices := indices st |}).
Proof.
  intros Hline Hc Hb Hanch Hw. unfold Spreadsheet._set_item.
  rewrite !not_integer_int. cbn [orb].
  rewrite run_bind, run_bind. unfold get_cell at 1. rewrite Hb, Hanch.
  unfold Cell.reference. run. rewrite Hb, Hanch, Hw. simpl.
  store_in_slot Hline Hc. by split.
Qed.

(** C5. At a position (r, c) of the grid: a number stores a new anchored
    Value cell at (r, c) holding the number; an anchored cell stores the cell
    [Cell.reference] builds for it, whose words are the reference fragment; a
    free cell stores a copy that is anchored at (r, c), and the object the
    caller passed is as before. *)
Theorem set_item_stores (self : Spreadsheet) (st : Store) (r c : nat)
    (line : list loc) :
  _sheet self !! r = Some line ->
  c < length line ->
  (forall n : num,
     exists (l : loc) (cell : Cell) (self' : Spreadsheet) (st' : Store),
       Spreadsheet._set_item self (Number n)
         (PyInt (Z.of_nat r), PyInt (Z.of_nat c)) st = Returned (self', st')
       /\ slot (_sheet self') r c = Some l
       /\ cells st !! l = None
       /\ cells st' !! l = Some cell
       /\ Cell.anchored cell = true
       /\ Cell.coordinates cell
          = (Some (PyInt (Z.of_nat r)), Some (PyInt (Z.of_nat c)))
       /\ cell_type cell = value_only
       /\ Cell.value cell = Some n
       /\ extends st st')
  /\ (forall (a : loc) (b : Cell) (w : fragment),
        cells st !! a = Some b ->
        Cell.anchored b = true ->
        WordConstructor.reference b = Returned w ->
        exists (l : loc) (cell : Cell) (self' : Spreadsheet) (st' : Store),
          Spreadsheet._set_item self (CellObject a)
            (PyInt (Z.of_nat r), PyInt (Z.of_nat c)) st = Returned (self', st')
          /\ Cell.reference a st = Returned (l, st')
          /\ slot (_sheet self') r c = Some l
          /\ cells st' !! l = Some cell
          /\ _constructing_words cell = w
          /\ cell_type cell = computational
          /\ Cell.value cell = Cell.value b)
  /\ (forall (a : loc) (b : Cell) (ci : CellIndices),
        cells st !! a = Some b ->
        Cell.anchored b = false ->
        indices st !! cell_indices b = Some ci ->
        exists (l : loc) (cell : Cell) (self' : Spreadsheet) (st' : Store),
          Spreadsheet._set_item self (CellObject a)
            (PyInt (Z.of_nat r), PyInt (Z.of_nat c)) st = Returned (self', st')
          /\ slot (_sheet self') r c = Some l
          /\ cells st !! l = None
          /\ cells st' !! l = Some cell
          /\ Cell.anchored cell = true
          /\ Cell.coordinates cell
             = (Some (PyInt (Z.of_nat r)), Some (PyInt (Z.of_nat c)))
          /\ Cell.value cell = Cell.value b
          /\ cell_type cell = cell_type b
          /\ _constructing_words cell = _constructing_words b
          /\ cells st' !! a = Some b
          /\ extends st st').
Proof.
  intros Hline Hc. repeat split.
  - intros n. unfold Spreadsheet._set_item. rewrite !not_integer_int.
    cbn [orb]. run. store_in_slot Hline Hc.
    eexists _, _, _, _. split; [reflexivity|]. simpl.
    split; [by apply slot_insert|].
    split; [apply lookup_fresh|].
    split; [apply lookup_snoc_new|].
    repeat split; simpl; auto using lookup_snoc_old.
  - intros a b w Hb Hanch Hw.
    destruct (set_item_anchored_run self st r c line a b w Hline Hc Hb Hanch Hw)
      as [Eset Eref].
    eexists _, _, _, _. split; [exact Eset|]. simpl.
    split; [exact Eref|].
    split; [by apply slot_insert|].
    split; [apply lookup_snoc_new|]. done.
  - intros a b ci Hb Hfree Hci. unfold Spreadsheet._set_item.
    rewrite !not_integer_int. cbn [orb].
    rewrite run_bind, run_bind. unfold get_cell at 1. rewrite Hb, Hfree.
    unfold deepcopy_cell, deepcopy_indices. run. rewrite Hb, Hci. simpl.
    rewrite lookup_snoc_new. simpl.
    store_in_slot Hline Hc.
    eexists _, _, _, _. split; [reflexivity|]. simpl.
    split; [by apply slot_insert|].
    split; [apply lookup_fresh|].
    split.
    { rewrite list_lookup_insert_eq; [reflexivity|]. rewrite length_app. simpl. lia. }
    assert (Ha : a < length (cells st)) by (by eapply lookup_lt_Some).
    repeat split; simpl; auto using lookup_snoc_old.
    + rewrite list_lookup_insert_ne by lia. by apply lookup_snoc_old.
    + intros l c0 Hl.
      assert (l < length (cells st)) by (by eapply lookup_lt_Some).
      rewrite list_lookup_insert_ne by lia. by apply lookup_snoc_old.
Qed.
End Assignment.

(** ** Loops *)

Section Loops.
Context {num fragment : Type}.
Local Abbreviation Store := (Store num fragment).
Local Abbreviation M := (@M num fragment).

Lemma range_lookup (n i : nat) (a : Z) :
  range n !! i = Some a -> a = Z.of_nat i /\ i < n.
Proof.
  unfold range. rewrite list_lookup_fmap. intros Hi.
  destruct (seq 0 n !! i) as [k|] eqn:Hk; [|done].
  apply lookup_seq in Hk as [-> Hlt]. simpl in Hi. by inversion Hi.
Qed.

Lemma range_length (n : nat) : length (range n) = n.
Proof. unfold range. by rewrite length_map, length_seq. Qed.

(** A [for] loop that threads a state keeps an invariant of the number of
    iterations made. *)
Lemma foldM_invariant {A S} (f : S -> A -> M S) (l : list A) :
  forall (I : nat -> S -> Store -> Prop),
    (forall i a s st, l !! i = Some a -> I i s st ->
       exists s' st', f s a st = Returned (s', st') /\ I (Datatypes.S i) s' st') ->
    forall s st, I 0 s st ->
      exists s' st', foldM f s l st = Returned (s', st') /\ I (length l) s' st'.
Proof.
  induction l as [|a l IH]; intros I Hstep s st H0.
  - exists s, st. by split.
  - destruct (Hstep 0 a s st eq_refl H0) as (s1 & st1 & E1 & H1).
    destruct (IH (fun i => I (Datatypes.S i))
                (fun i a' s' st' Hi => Hstep (Datatypes.S i) a' s' st' Hi)
                s1 st1 H1) as (s2 & st2 & E2 & H2).
    exists s2, st2. split; [|done].
    simpl. rewrite run_bind, E1. exact E2.
Qed.

(** A loop that collects one result per iteration. *)
Lemma mapM_invariant {A B} (f : A -> M B) (l : list A) :
  forall (I : nat -> list B -> Store -> Prop),
    (forall i a bs st, l !! i = Some a -> length bs = i -> I i bs st ->
       exists b st', f a st = Returned (b, st') /\ I (Datatypes.S i) (bs ++ [b]) st') ->
    forall st, I 0 [] st ->
      exists bs st', mapM f l st = Returned (bs, st')
                     /\ length bs = length l /\ I (length l) bs st'.
Proof.
  induction l as [|a l IH]; intros I Hstep st H0.
  - exists [], st. by repeat split.
  - destruct (Hstep 0 a [] st eq_refl eq_refl H0) as (b & st1 & E1 & H1).
    destruct (IH (fun i bs => I (Datatypes.S i) (b :: bs))) with (st := st1)
      as (bs & st2 & E2 & Hlen & H2).
    + intros i a' bs' st' Hi Hlen' HI.
      apply (Hstep (Datatypes.S i) a' (b :: bs') st' Hi); [simpl; lia | done].
    + exact H1.
    + exists (b :: bs), st2. split; [|split; [simpl; lia | done]].
      simpl. rewrite run_bind, E1, run_bind, E2. reflexivity.
Qed.
End Loops.

(** ** Resizing the grid *)

Section Resize.
Context {num fragment : Type}.
Context `{Native num} `{WordConstructor.Ops num fragment}.
Local Abbreviation Cell := (Cell num fragment).
Local Abbreviation Store := (Store num fragment).
Local Abbreviation M := (@M num fragment).

Variable ci : loc.

Lemma resized_refl (st : Store) : resized ci st st.
Proof.
  repeat split; auto. intros l c Hl Hc.
  apply lookup_lt_Some in Hc. lia.
Qed.

Lemma resized_trans (st1 st2 st3 : Store) :
  resized ci st1 st2 -> resized ci st2 st3 -> resized ci st1 st3.
Proof.
  intros (I1 & L1 & O1 & N1) (I2 & L2 & O2 & N2). repeat split.
  - congruence.
  - lia.
  - intros l c Hl. destruct (O1 l c Hl) as [H1|H1];
      destruct (O2 l _ H1) as [H2|H2]; auto.
  - intros l c Hl Hc.
    destruct (cells st2 !! l) as [c2|] eqn:H2.
    + pose proof (N1 l c2 Hl H2) as ->.
      destruct (O2 l _ H2) as [H3|H3]; rewrite H3 in Hc; by inversion Hc.
    + apply (N2 l c); [|done]. by apply lookup_ge_None_1.
Qed.

Lemma resized_alloc (st : Store) :
  resized ci st {| cells := cells st ++ [blank ci]; indices := indices st |}.
Proof.
  repeat split; simpl.
  - rewrite length_app. lia.
  - intros l c Hl. left. by apply lookup_snoc_old.
  - intros l c Hl Hc.
    assert (l < length (cells st ++ [blank ci])) by (by eapply lookup_lt_Some).
    rewrite length_app in *. simpl in *.
    replace l with (length (cells st)) in Hc by lia.
    rewrite lookup_snoc_new in Hc. by inversion Hc.
Qed.

Lemma resized_put (st : Store) (l : loc) (c : Cell) :
  cells st !! l = Some c ->
  resized ci st {| cells := <[l := with_cell_indices c ci]> (cells st);
                   indices := indices st |}.
Proof.
  intros Hl. repeat split; simpl.
  - by rewrite length_insert.
  - intros l' c' Hl'. destruct (decide (l' = l)) as [->|Hne].
    + right. rewrite list_lookup_insert_eq by (by eapply lookup_lt_Some).
      rewrite Hl in Hl'. by inversion Hl'.
    + left. by rewrite list_lookup_insert_ne.
  - intros l' c' Hge Hc'. apply lookup_lt_Some in Hc'.
    rewrite length_insert in Hc'. lia.
Qed.

Lemma resized_live (st st' : Store) (l : loc) :
  resized ci st st' -> is_Some (cells st !! l) -> is_Some (cells st' !! l).
Proof.
  intros (_ & _ & O & _) [c Hc]. destruct (O l c Hc) as [E|E]; by rewrite E.
Qed.

Lemma resized_points_at (st st' : Store) (l : loc) :
  resized ci st st' -> points_at ci st l -> points_at ci st' l.
Proof.
  intros (_ & _ & O & _) (c & Hc & Hci).
  destruct (O l c Hc) as [E|E]; eexists; (split; [exact E|]); done.
Qed.

Lemma resized_same_but_indices (st st' : Store) (l : loc) (c : Cell) :
  resized ci st st' -> cells st !! l = Some c ->
  exists c', cells st' !! l = Some c' /\ same_but_indices c c'.
Proof.
  intros (_ & _ & O & _) Hc.
  destruct (O l c Hc) as [E|E]; eexists; (split; [exact E|]); by repeat split.
Qed.

Lemma empty_cell_run (self : Spreadsheet) (st : Store) :
  _cell_indices self = ci ->
  Spreadsheet.empty_cell self st
  = Returned (length (cells st),
              {| cells := cells st ++ [blank ci]; indices := indices st |}).
Proof. intros <-. reflexivity. Qed.

(** The loop that builds a wholly new row. *)
Lemma new_row (self : Spreadsheet) (k : nat) (st : Store) :
  _cell_indices self = ci ->
  exists (line : list loc) (st' : Store),
    mapM (fun _ : Z => Spreadsheet.empty_cell self) (range k) st
    = Returned (line, st')
    /\ length line = k
    /\ resized ci st st'
    /\ (forall j l, line !! j = Some l ->
          length (cells st) <= l < length (cells st')).
Proof.
  intros Hci.
  destruct (mapM_invariant (fun _ : Z => Spreadsheet.empty_cell self) (range k)
    (fun _ bs st' => resized ci st st'
       /\ forall j l, bs !! j = Some l ->
            length (cells st) <= l < length (cells st'))) with (st := st)
    as (line & st' & E & Hlen & Hres & Hnew).
  - intros i a bs st1 _ _ [Hres Hnew].
    rewrite (empty_cell_run _ _ Hci). eexists _, _. split; [reflexivity|].
    pose proof Hres as (_ & Hle & _). split.
    + eapply resized_trans; [exact Hres | apply resized_alloc].
    + simpl. intros j l Hj. rewrite length_app. simpl.
      apply lookup_app_Some in Hj as [Hj | [_ Hj]].
      * specialize (Hnew j l Hj). lia.
      * apply list_lookup_singleton_Some in Hj as [_ <-]. lia.
  - split; [apply resized_refl | intros j l Hj; by rewrite lookup_nil in Hj].
  - exists line, st'. rewrite range_length in Hlen. auto.
Qed.
(** The loop that appends the new columns to an old row [r]. *)
Lemma grow_row (self : Spreadsheet) (r k : nat) (line : list loc) (st : Store) :
  _cell_indices self = ci ->
  _sheet self !! r = Some line ->
  exists (extra : list loc) (st' : Store),
    foldM (fun (self : Spreadsheet) (_ : Z) =>
             c <- Spreadsheet.empty_cell self ;;
             r0 <- lift (getitem (_sheet self) (PyInt (Z.of_nat r))) ;;
             sheet <- lift (setitem (_sheet self) (PyInt (Z.of_nat r)) (r0 ++ [c])) ;;
             ret (Spreadsheet.with_sheet self sheet))
          self (range k) st
    = Returned ({| _cell_indices := ci;
                   _sheet := <[r := line ++ extra]> (_sheet self) |}, st')
    /\ length extra = k
    /\ resized ci st st'
    /\ (forall j l, extra !! j = Some l ->
          length (cells st) <= l < length (cells st')).
Proof.
  intros Hci Hline.
  destruct (foldM_invariant
    (fun (self : Spreadsheet) (_ : Z) =>
       c <- Spreadsheet.empty_cell self ;;
       r0 <- lift (getitem (_sheet self) (PyInt (Z.of_nat r))) ;;
       sheet <- lift (setitem (_sheet self) (PyInt (Z.of_nat r)) (r0 ++ [c])) ;;
       ret (Spreadsheet.with_sheet self sheet))
    (range k)
    (fun i s st' =>
       exists extra,
         s = {| _cell_indices := ci;
                _sheet := <[r := line ++ extra]> (_sheet self) |}
         /\ length extra = i
         /\ resized ci st st'
         /\ forall j l, extra !! j = Some l ->
              length (cells st) <= l < length (cells st'))) with (s := self) (st := st)
    as (s' & st' & E & extra & -> & Hlen & Hres & Hnew).
  - intros i a s st1 _ (extra & -> & Hlen & Hres & Hnew).
    assert (Hr : r < length (_sheet self)) by (by eapply lookup_lt_Some).
    rewrite run_bind, empty_cell_run by reflexivity.
    rewrite run_bind, run_lift. cbn [_sheet].
    rewrite (getitem_front _ r (line ++ extra))
      by (by rewrite list_lookup_insert_eq).
    rewrite run_bind, run_lift, setitem_front by (by rewrite length_insert).
    rewrite run_ret. eexists _, _. split; [reflexivity|].
    exists (extra ++ [length (cells st1)]).
    pose proof Hres as (_ & Hle & _).
    split; [|split; [|split]].
    + unfold Spreadsheet.with_sheet. simpl.
      by rewrite list_insert_insert_eq, app_assoc.
    + rewrite length_app. simpl. lia.
    + eapply resized_trans; [exact Hres | apply resized_alloc].
    + simpl. intros j l Hj. rewrite length_app. simpl.
      apply lookup_app_Some in Hj as [Hj | [_ Hj]].
      * specialize (Hnew j l Hj). lia.
      * apply list_lookup_singleton_Some in Hj as [_ <-]. lia.
  - exists []. split; [|split; [done | split; [apply resized_refl|]]].
    + rewrite app_nil_r, list_insert_id by done. destruct self. simpl in *.
      by subst.
    + intros j l Hj. by rewrite lookup_nil in Hj.
  - rewrite range_length in *. exists extra, st'. auto.
Qed.

(** The loop that points the cells of row [r] at the indices object. *)
Lemma refresh_row (self : Spreadsheet) (r : nat) (line : list loc) (st : Store) :
  _cell_indices self = ci ->
  _sheet self !! r = Some line ->
  (forall j l, line !! j = Some l -> is_Some (cells st !! l)) ->
  exists st' : Store,
    foldM (fun (_ : unit) (col_idx : Z) =>
             l <- Spreadsheet.iloc self (PyInt (Z.of_nat r)) (PyInt col_idx) ;;
             c <- get_cell l ;;
             put_cell l (with_cell_indices c (_cell_indices self)))
          tt (range (length line)) st
    = Returned (tt, st')
    /\ resized ci st st'
    /\ forall j l, line !! j = Some l -> points_at ci st' l.
Proof.
  intros Hci Hline Hlive.
  destruct (foldM_invariant
    (fun (_ : unit) (col_idx : Z) =>
       l <- Spreadsheet.iloc self (PyInt (Z.of_nat r)) (PyInt col_idx) ;;
       c <- get_cell l ;;
       put_cell l (with_cell_indices c (_cell_indices self)))
    (range (length line))
    (fun i _ st' =>
       resized ci st st'
       /\ forall j l, j < i -> line !! j = Some l -> points_at ci st' l))
    with (s := tt) (st := st) as ([] & st' & E & Hres & Hpts).
  - intros i a [] st1 Hi [Hres Hpts].
    apply range_lookup in Hi as [-> Hi].
    destruct (lookup_lt_is_Some_2 line i Hi) as [l Hl].
    destruct (resized_live _ _ l Hres (Hlive _ _ Hl)) as [c Hc].
    rewrite run_bind. unfold Spreadsheet.iloc, Spreadsheet._get_item.
    rewrite !not_integer_int. cbn [orb int].
    rewrite (getitem_front _ _ _ Hline). cbn [rbind].
    rewrite (getitem_front _ _ _ Hl), run_lift.
    rewrite run_bind. unfold get_cell at 1. rewrite Hc.
    unfold put_cell. eexists tt, _. split; [reflexivity|].
    rewrite Hci.
    assert (Hstep : resized ci st1
      {| cells := <[l := with_cell_indices c ci]> (cells st1);
         indices := indices st1 |}) by (by apply resized_put).
    split; [by eapply resized_trans|].
    intros j l' Hj Hl'. destruct (decide (j = i)) as [->|Hne].
    + rewrite Hl in Hl'. inversion Hl'; subst l'.
      exists (with_cell_indices c ci). split; [|reflexivity]. simpl.
      apply list_lookup_insert_eq. by eapply lookup_lt_Some.
    + eapply resized_points_at; [exact Hstep|]. apply (Hpts j); [lia | done].
  - split; [apply resized_refl | intros; lia].
  - exists st'. rewrite range_length in Hpts. split; [done|]. split; [done|].
    intros j l Hl. apply (Hpts j); [by eapply lookup_lt_Some | done].
Qed.
Lemma resize_row_step (origin : Spreadsheet) (st0 : Store)
    (rows columns columns' i : nat) (self : Spreadsheet) (st : Store) :
  rectangular (_sheet origin) rows columns ->
  (forall r c l, slot (_sheet origin) r c = Some l -> is_Some (cells st0 !! l)) ->
  columns <= columns' ->
  resizing ci origin rows columns columns' st0 i self st ->
  exists (self' : Spreadsheet) (st' : Store),
    resize_row rows columns columns' self (Z.of_nat i) st = Returned (self', st')
    /\ resizing ci origin rows columns columns' st0 (S i) self' st'.
Proof.
  intros Hrect Hlive Hcols (Hci & Hres & Hlen & Hrows).
  unfold resize_row. rewrite run_bind.
  destruct (Z.leb_spec (Z.of_nat rows) (Z.of_nat i)) as [Hnew|Hold].
  - (* a wholly new row *)
    assert (Hi : length (_sheet self) = i) by lia.
    destruct (new_row self columns' st Hci) as (line & st1 & E1 & Hl1 & Hres1 & Hfresh).
    rewrite run_bind, E1, run_ret.
    destruct (refresh_row (Spreadsheet.with_sheet self (_sheet self ++ [line]))
                i line st1) as (st2 & E2 & Hres2 & Hpts); [done | | |].
    { simpl. rewrite <- Hi. apply lookup_snoc_new. }
    { intros j l Hj. apply lookup_lt_is_Some. by apply (Hfresh j). }
    rewrite Hl1 in E2. rewrite run_bind, E2, run_ret.
    eexists _, _. split; [reflexivity|].
    split; [done|]. split; [eauto using resized_trans|].
    split; [simpl; rewrite length_app; simpl; lia|].
    simpl. intros k line' Hk.
    apply lookup_app_Some in Hk as [Hk | [Hge Hk]].
    + assert (k < i) by (rewrite <- Hi; by eapply lookup_lt_Some).
      split; [lia|]. intros _.
      destruct (Hrows k line' Hk) as [_ Hdone].
      destruct Hdone as [Hlen' Hcells]; [done|]. split; [done|].
      intros j l Hj. destruct (Hcells j l Hj) as [Hp Hwhere].
      split; [|done]. eauto using resized_points_at, resized_trans.
    + apply list_lookup_singleton_Some in Hk as [Hk <-].
      assert (k = i) by lia. subst k.
      split; [lia|]. intros _. split; [done|].
      intros j l Hj. split; [by apply (Hpts j)|].
      rewrite decide_False by lia.
      destruct Hres as (_ & Hle & _). specialize (Hfresh j l Hj). lia.
  - (* an old row, with new columns *)
    assert (Hi : i < length (_sheet self)) by lia.
    destruct (lookup_lt_is_Some_2 _ _ Hi) as [line Hline].
    destruct (Hrows i line Hline) as [Horig _].
    specialize (Horig (Nat.le_refl i)).
    pose proof (rectangular_line _ _ _ _ _ Hrect Horig) as Hlen0.
    destruct (grow_row self i (columns' - columns) line st Hci Hline)
      as (extra & st1 & E1 & Hl1 & Hres1 & Hfresh).
    rewrite E1.
    destruct (refresh_row
                {| _cell_indices := ci; _sheet := <[i := line ++ extra]> (_sheet self) |}
                i (line ++ extra) st1) as (st2 & E2 & Hres2 & Hpts); [done | | |].
    { simpl. by apply list_lookup_insert_eq. }
    { intros j l Hj. apply lookup_app_Some in Hj as [Hj | [_ Hj]].
      - apply (resized_live st0); [eauto using resized_trans|].
        apply (Hlive i j). unfold slot. by rewrite Horig.
      - apply lookup_lt_is_Some. by apply (Hfresh (j - length line)). }
    assert (Hl2 : length (line ++ extra) = columns')
      by (rewrite length_app; lia).
    rewrite Hl2 in E2. rewrite run_bind, E2, run_ret.
    eexists _, _. split; [reflexivity|].
    split; [done|]. split; [eauto using resized_trans|].
    split; [simpl; rewrite length_insert; lia|].
    simpl. intros k line' Hk.
    destruct (decide (k = i)) as [->|Hne].
    + rewrite list_lookup_insert_eq in Hk by done. inversion Hk; subst line'.
      split; [lia|]. intros _. split; [done|].
      intros j l Hj. split; [by apply (Hpts j)|].
      apply lookup_app_Some in Hj as [Hj | [Hge Hj]].
      * rewrite decide_True
          by (split; [lia | rewrite <- Hlen0; by eapply lookup_lt_Some]).
        unfold slot. by rewrite Horig.
      * rewrite decide_False by lia.
        destruct Hres as (_ & Hle & _). specialize (Hfresh _ l Hj). lia.
    + rewrite list_lookup_insert_ne in Hk by done.
      destruct (Hrows k line' Hk) as [Hrest Hdone].
      split; [intros; apply Hrest; lia|]. intros Hlt.
      destruct Hdone as [Hlen' Hcells]; [lia|]. split; [done|].
      intros j l Hj. destruct (Hcells j l Hj) as [Hp Hwhere].
      split; [|done]. eauto using resized_points_at, resized_trans.
Qed.
(** [expand_using_cell_indices] on a well-formed grid, given an indices
    object that is at least as large: it returns, and the row loop has run
    over all the rows of the new shape. *)
Lemma expand_using_cell_indices_run (self : Spreadsheet) (st : Store)
    (rows columns rows' columns' : nat) (new : loc) (d : CellIndices) :
  grid st self rows columns ->
  indices st !! new = Some d ->
  shape d = (rows', columns') ->
  columns <= columns' ->
  ci = length (indices st) ->
  exists (self' : Spreadsheet) (st' : Store),
    Spreadsheet.expand_using_cell_indices self new st = Returned (self', st')
    /\ resizing ci self rows columns columns'
         {| cells := cells st; indices := indices st ++ [d] |} rows' self' st'.
Proof.
  intros ((d0 & Hd0 & Hshape0) & Hrect & Hlive) Hnew Hshape Hcols Hci.
  unfold Spreadsheet.expand_using_cell_indices.
  rewrite run_bind. unfold Spreadsheet.shape at 1, Spreadsheet.cell_indices.
  rewrite run_bind. unfold get_indices at 1. rewrite Hd0, run_ret, Hshape0.
  rewrite run_bind. unfold deepcopy_indices.
  rewrite run_bind. unfold get_indices at 1. rewrite Hnew.
  unfold new_indices at 1. rewrite <- Hci.
  rewrite run_bind. unfold Spreadsheet.shape at 1, Spreadsheet.cell_indices.
  rewrite run_bind. unfold get_indices at 1. cbn [_cell_indices indices].
  rewrite Hci, lookup_snoc_new, <- Hci, run_ret, Hshape. cbn [fst snd].
  set (st1 := {| cells := cells st; indices := indices st ++ [d] |}).
  destruct (foldM_invariant (resize_row rows columns columns') (range rows')
    (resizing ci self rows columns columns' st1))
    with (s := {| _cell_indices := ci; _sheet := _sheet self |}) (st := st1)
    as (self' & st' & E & Hdone).
  - intros i a s st2 Hi Hinv. apply range_lookup in Hi as [-> _].
    by apply resize_row_step.
  - split; [done|]. split; [apply resized_refl|].
    destruct Hrect as [Hlen _]. split; [simpl; lia|].
    simpl. intros k line Hk. split; [done | lia].
  - rewrite range_length in Hdone. exists self', st'. split; [exact E | done].
Qed.

(** What the row loop leaves when it has run over [rows'] rows. *)
Lemma resizing_done (origin : Spreadsheet) (st0 : Store)
    (rows columns rows' columns' : nat) (self : Spreadsheet) (st : Store) :
  rows <= rows' -> columns <= columns' ->
  resizing ci origin rows columns columns' st0 rows' self st ->
  _cell_indices self = ci
  /\ indices st = indices st0
  /\ rectangular (_sheet self) rows' columns'
  /\ (forall r c, r < rows -> c < columns ->
        is_Some (slot (_sheet self) r c)
        /\ slot (_sheet origin) r c = slot (_sheet self) r c)
  /\ (forall l c0, cells st0 !! l = Some c0 ->
        exists c1, cells st !! l = Some c1 /\ same_but_indices c0 c1)
  /\ (forall r c, r < rows' -> c < columns' -> rows <= r \/ columns <= c ->
        exists l, slot (_sheet self) r c = Some l
                  /\ cells st0 !! l = None
                  /\ cells st !! l = Some (blank ci))
  /\ (forall r c l, slot (_sheet self) r c = Some l -> points_at ci st l).
Proof.
  intros Hrows Hcols (Hci & Hres & Hlen & Hinv).
  assert (Hlen' : length (_sheet self) = rows') by lia.
  assert (Hslot : forall r c, r < rows' -> c < columns' ->
    exists line l, _sheet self !! r = Some line /\ line !! c = Some l
      /\ points_at ci st l
      /\ if decide (r < rows /\ c < columns)
         then slot (_sheet origin) r c = Some l
         else length (cells st0) <= l).
  { intros r c Hr Hc.
    destruct (lookup_lt_is_Some_2 (_sheet self) r) as [line Hline]; [lia|].
    destruct (Hinv r line Hline) as [_ Hdone].
    destruct Hdone as [Hl Hcells]; [done|].
    destruct (lookup_lt_is_Some_2 line c) as [l Hlc]; [lia|].
    exists line, l. destruct (Hcells c l Hlc). auto. }
  split; [done|]. split; [by destruct Hres|].
  split; [|split; [|split; [|split]]].
  - split; [done|]. apply Forall_forall. intros line Hin.
    apply list_elem_of_lookup in Hin as [k Hk].
    destruct (Hinv k line Hk) as [_ Hdone]. apply Hdone.
    rewrite <- Hlen'. by eapply lookup_lt_Some.
  - intros r c Hr Hc.
    destruct (Hslot r c) as (line & l & Hline & Hl & _ & Hwhere); [lia | lia |].
    rewrite decide_True in Hwhere by done.
    unfold slot at 1 3. rewrite Hline, Hl. by split.
  - intros l c0. by apply resized_same_but_indices.
  - intros r c Hr Hc Hout.
    destruct (Hslot r c Hr Hc) as (line & l & Hline & Hl & Hp & Hwhere).
    rewrite decide_False in Hwhere by lia.
    exists l. split; [unfold slot; by rewrite Hline|].
    split; [by apply lookup_ge_None_2|].
    destruct Hp as (cell & Hcell & _).
    destruct Hres as (_ & _ & _ & Hblank).
    by rewrite (Hblank l cell Hwhere Hcell) in Hcell.
  - intros r c l Hl. unfold slot in Hl.
    destruct (_sheet self !! r) as [line|] eqn:Hline; [|done].
    destruct (Hinv r line Hline) as [_ Hdone].
    destruct Hdone as [_ Hcells];
      [rewrite <- Hlen'; by eapply lookup_lt_Some|].
    by destruct (Hcells c l Hl).
Qed.
End Resize.

(** ** Construction and expansion of the grid *)

Section Grid.
Context {num fragment : Type}.
Context `{Native num} `{WordConstructor.Ops num fragment}.
Local Abbreviation Cell := (Cell num fragment).
Local Abbreviation Store := (Store num fragment).
Local Abbreviation M := (@M num fragment).

(** The inner loop of [_initialise_array]: one row of anchored cells. *)
Lemma initial_row (ci : loc) (r columns : nat) (st : Store) :
  exists (line : list loc) (st' : Store),
    mapM (fun col_idx =>
            c <- lift (Cell.__init__ (Some (PyInt (Z.of_nat r)))
                         (Some (PyInt col_idx)) None ci value_only None) ;;
            new_cell c)
         (range columns) st
    = Returned (line, st')
    /\ length line = columns
    /\ indices st' = indices st
    /\ extends st st'
    /\ forall j l, line !! j = Some l ->
         length (cells st) <= l /\ cells st' !! l = Some (initial ci r j).
Proof.
  destruct (mapM_invariant
    (fun col_idx =>
       c <- lift (Cell.__init__ (Some (PyInt (Z.of_nat r)))
                    (Some (PyInt col_idx)) None ci value_only None) ;;
       new_cell c)
    (range columns)
    (fun _ bs st' =>
       indices st' = indices st /\ extends st st'
       /\ forall j l, bs !! j = Some l ->
            length (cells st) <= l /\ cells st' !! l = Some (initial ci r j)))
    with (st := st) as (line & st' & E & Hlen & Hind & Hext & Hcells).
  - intros i a bs st1 Hi Hbs (Hind & Hext & Hcells).
    apply range_lookup in Hi as [-> _].
    eexists _, _. split; [reflexivity|]. simpl.
    split; [done|]. split; [eauto using extends_trans, extends_new_cell|].
    assert (Hle : length (cells st) <= length (cells st1)).
    { destruct (decide (length (cells st) <= length (cells st1))); [done|].
      destruct Hext as [Hc _].
      destruct (lookup_lt_is_Some_2 (cells st) (length (cells st1))) as [c Hc'];
        [lia|].
      apply Hc, lookup_lt_Some in Hc'. lia. }
    intros j l Hj. apply lookup_app_Some in Hj as [Hj | [Hge Hj]].
    + destruct (Hcells j l Hj). split; [done|]. by apply lookup_snoc_old.
    + apply list_lookup_singleton_Some in Hj as [Hj <-].
      replace j with (length bs) by lia. rewrite Hbs.
      split; [done | apply lookup_snoc_new].
  - split; [done|]. split; [apply extends_refl|].
    intros j l Hj. by rewrite lookup_nil in Hj.
  - rewrite range_length in Hlen. exists line, st'. auto.
Qed.

(** [_initialise_array] returns a sheet of the shape of the indices object,
    made of new cells, the one in slot (r, c) anchored at (r, c). *)
Lemma initialise_array_run (self : Spreadsheet) (st : Store) (d : CellIndices) :
  indices st !! _cell_indices self = Some d ->
  exists (sheet : list (list loc)) (st' : Store),
    Spreadsheet._initialise_array self st = Returned (sheet, st')
    /\ indices st' = indices st
    /\ extends st st'
    /\ rectangular sheet (fst (shape d)) (snd (shape d))
    /\ forall r c l, slot sheet r c = Some l ->
         length (cells st) <= l
         /\ cells st' !! l = Some (initial (_cell_indices self) r c).
Proof.
  intros Hd. unfold Spreadsheet._initialise_array.
  rewrite run_bind. unfold Spreadsheet.shape, Spreadsheet.cell_indices.
  rewrite run_bind. unfold get_indices at 1. rewrite Hd, run_ret.
  destruct (mapM_invariant
    (fun row_idx =>
       mapM (fun col_idx =>
               c <- lift (Cell.__init__ (Some (PyInt row_idx))
                            (Some (PyInt col_idx)) None
                            (_cell_indices self) value_only None) ;;
               new_cell c)
            (range (snd (shape d))))
    (range (fst (shape d)))
    (fun _ lines st' =>
       indices st' = indices st /\ extends st st'
       /\ forall r line, lines !! r = Some line ->
            length line = snd (shape d)
            /\ forall c l, line !! c = Some l ->
                 length (cells st) <= l
                 /\ cells st' !! l = Some (initial (_cell_indices self) r c)))
    with (st := st) as (sheet & st' & E & Hlen & Hind & Hext & Hrows).
  - intros i a lines st1 Hi Hlines (Hind & Hext & Hrows).
    apply range_lookup in Hi as [-> _].
    destruct (initial_row (_cell_indices self) i (snd (shape d)) st1)
      as (line & st2 & E & Hl & Hind2 & Hext2 & Hcells).
    exists line, st2. split; [exact E|].
    split; [congruence|]. split; [eauto using extends_trans|].
    assert (Hle : length (cells st) <= length (cells st1)).
    { destruct (decide (length (cells st) <= length (cells st1))); [done|].
      destruct Hext as [Hc _].
      destruct (lookup_lt_is_Some_2 (cells st) (length (cells st1))) as [c Hc'];
        [lia|].
      apply Hc, lookup_lt_Some in Hc'. lia. }
    intros r line' Hr. apply lookup_app_Some in Hr as [Hr | [Hge Hr]].
    + destruct (Hrows r line' Hr) as [Hl' Hcells']. split; [done|].
      intros c l Hc. destruct (Hcells' c l Hc) as [Hfresh Hcell].
      split; [done|]. by apply Hext2.
    + apply list_lookup_singleton_Some in Hr as [Hr <-].
      replace r with (length lines) by lia. rewrite Hlines.
      split; [done|]. intros c l Hc.
      destruct (Hcells c l Hc). split; [lia | done].
  - split; [done|]. split; [apply extends_refl|].
    intros r line Hr. by rewrite lookup_nil in Hr.
  - rewrite range_length in Hlen. exists sheet, st'.
    split; [exact E|]. split; [done|]. split; [done|]. split.
    + split; [done|]. apply Forall_forall. intros line Hin.
      apply list_elem_of_lookup in Hin as [k Hk]. by apply (Hrows k).
    + intros r c l Hl. unfold slot in Hl.
      destruct (sheet !! r) as [line|] eqn:Hline; [|done].
      by apply (Hrows r line Hline).
Qed.
(** The constructor builds a well-formed grid of the shape it is given. *)
Lemma constructor_run (st : Store) (ci : loc) (d : CellIndices) :
  indices st !! ci = Some d ->
  exists (sheet : list (list loc)) (st' : Store),
    Spreadsheet.__init__ ci st
    = Returned ({| _cell_indices := length (indices st); _sheet := sheet |}, st')
    /\ indices st' = indices st ++ [d]
    /\ grid st' {| _cell_indices := length (indices st); _sheet := sheet |}
         (fst (shape d)) (snd (shape d))
    /\ forall r c l, slot sheet r c = Some l ->
         cells st !! l = None
         /\ cells st' !! l = Some (initial (length (indices st)) r c).
Proof.
  intros Hd. unfold Spreadsheet.__init__, deepcopy_indices.
  rewrite run_bind, run_bind. unfold get_indices at 1. rewrite Hd.
  unfold new_indices at 1. rewrite run_bind.
  set (st1 := {| cells := cells st; indices := indices st ++ [d] |}).
  destruct (initialise_array_run
              {| _cell_indices := length (indices st); _sheet := [] |} st1 d)
    as (sheet & st' & E & Hind & Hext & Hrect & Hcells);
    [apply lookup_snoc_new|].
  rewrite E, run_ret. exists sheet, st'. split; [reflexivity|].
  split; [done|]. split; [|].
  - split; [|split; [done|]].
    + exists d. split; [|by destruct (shape d)].
      simpl. rewrite Hind. apply lookup_snoc_new.
    + intros r c l Hl. destruct (Hcells r c l Hl) as [_ ->]. done.
  - intros r c l Hl. destruct (Hcells r c l Hl) as [Hfresh Hcell].
    split; [by apply lookup_ge_None_2 | done].
Qed.

(** C9. On a well-formed grid of [rows] by [columns] cells, [expand] by [n]
    rows and [m] columns returns; the shape is then (rows + n, columns + m);
    the old slots hold the objects they held, and every object that existed
    keeps its value, position, type and words; the new slots hold new cells,
    free and without a value; every cell of the sheet points at the indices
    object of the grid. *)
Theorem expand_grows_grid (self : Spreadsheet) (st : Store)
    (rows columns n m : nat)
    (new_rows_labels new_columns_labels : list string)
    (new_rows_help_text new_columns_help_text : list string) :
  grid st self rows columns ->
  exists (self' : Spreadsheet) (st' : Store),
    Spreadsheet.expand self n m new_rows_labels new_columns_labels
      new_rows_help_text new_columns_help_text st = Returned (self', st')
    /\ Spreadsheet.shape self' st' = Returned ((rows + n, columns + m), st')
    /\ rectangular (_sheet self') (rows + n) (columns + m)
    /\ (forall r c, r < rows -> c < columns ->
          is_Some (slot (_sheet self) r c)
          /\ slot (_sheet self') r c = slot (_sheet self) r c)
    /\ (forall l c0, cells st !! l = Some c0 ->
          exists c1, cells st' !! l = Some c1
                     /\ Cell.value c1 = Cell.value c0
                     /\ same_but_indices c0 c1)
    /\ (forall r c, r < rows + n -> c < columns + m ->
          rows <= r \/ columns <= c ->
          exists l cell,
            slot (_sheet self') r c = Some l
            /\ cells st !! l = None
            /\ cells st' !! l = Some cell
            /\ cell = blank (_cell_indices self')
            /\ Cell.value cell = None
            /\ Cell.anchored cell = false)
    /\ (forall r c l, slot (_sheet self') r c = Some l ->
          exists cell, cells st' !! l = Some cell
                       /\ cell_indices cell = Spreadsheet.cell_indices self').
Proof.
  intros Hgrid. pose proof Hgrid as ((d0 & Hd0 & Hshape0) & Hrect & Hlive).
  unfold Spreadsheet.expand, Spreadsheet.cell_indices.
  rewrite run_bind. unfold get_indices at 1. rewrite Hd0.
  rewrite run_bind. unfold new_indices at 1.
  set (g := expand_size d0 n m new_rows_labels new_columns_labels
              new_rows_help_text new_columns_help_text).
  set (st1 := {| cells := cells st; indices := indices st ++ [g] |}).
  assert (Hg : shape g = (rows + n, columns + m))
    by (unfold g, expand_size; simpl; by rewrite Hshape0).
  destruct (expand_using_cell_indices_run (length (indices st1)) self st1
              rows columns (rows + n) (columns + m) (length (indices st)) g)
    as (self' & st' & E & Hloop); [| apply lookup_snoc_new | done | lia | done |].
  { split; [|split; [done | exact Hlive]].
    exists d0. split; [by apply lookup_snoc_old | done]. }
  destruct (resizing_done _ _ _ _ _ _ _ _ _ (Nat.le_add_r rows n)
              (Nat.le_add_r columns m) Hloop)
    as (Hci & Hind & Hrect' & Hold & Hframe & Hnew & Hpts).
  exists self', st'. split; [exact E|].
  split; [|split; [done|split; [|split; [|split]]]].
  - unfold Spreadsheet.shape, Spreadsheet.cell_indices.
    rewrite run_bind. unfold get_indices. rewrite Hind, Hci. simpl.
    by rewrite lookup_snoc_new, run_ret, Hg.
  - intros r c Hr Hc. destruct (Hold r c Hr Hc) as [Hsome Heq].
    rewrite Heq. by split.
  - intros l c0 Hl. destruct (Hframe l c0 Hl) as (c1 & Hc1 & Hsame).
    exists c1. split; [done|]. split; [|done].
    unfold Cell.value. by destruct Hsame as (_ & _ & -> & _).
  - intros r c Hr Hc Hout.
    destruct (Hnew r c Hr Hc Hout) as (l & Hslot & Hfresh & Hcell).
    exists l, (blank (_cell_indices self')). rewrite Hci. by repeat split.
  - intros r c l Hl. destruct (Hpts r c l Hl) as (cell & Hcell & Hcell_ci).
    exists cell. split; [done|]. unfold Spreadsheet.cell_indices. congruence.
Qed.

Lemma mutate_elsewhere (st : Store) (ci l : loc) (d d' : CellIndices) :
  l <> ci -> indices st !! l = Some d ->
  indices (mutate ci d' st) !! l = Some d.
Proof. intros Hne Hl. unfold mutate. simpl. by rewrite list_lookup_insert_ne. Qed.

(** C10. The constructor stores a copy of the indices object it is given: a
    new object with the same contents, that the cells of the sheet point at;
    whatever the caller writes into the object it passed, the indices object
    and the shape of the sheet are as before.  The same holds of
    [expand_using_cell_indices], on a well-formed grid given an indices object
    with at least as many columns. *)
Theorem grid_owns_its_indices (st : Store) (ci : loc) (d : CellIndices) :
  indices st !! ci = Some d ->
  (exists (self : Spreadsheet) (st' : Store),
     Spreadsheet.__init__ ci st = Returned (self, st')
     /\ Spreadsheet.cell_indices self <> ci
     /\ indices st !! Spreadsheet.cell_indices self = None
     /\ indices st' !! Spreadsheet.cell_indices self = Some d
     /\ (forall r c l, slot (_sheet self) r c = Some l ->
           points_at (Spreadsheet.cell_indices self) st' l)
     /\ forall d' : CellIndices,
          indices (mutate ci d' st') !! Spreadsheet.cell_indices self = Some d
          /\ Spreadsheet.shape self (mutate ci d' st')
             = Returned (shape d, mutate ci d' st'))
  /\ (forall (self : Spreadsheet) (rows columns : nat),
        grid st self rows columns ->
        columns <= snd (shape d) ->
        exists (self' : Spreadsheet) (st' : Store),
          Spreadsheet.expand_using_cell_indices self ci st = Returned (self', st')
          /\ Spreadsheet.cell_indices self' <> ci
          /\ indices st !! Spreadsheet.cell_indices self' = None
          /\ indices st' !! Spreadsheet.cell_indices self' = Some d
          /\ forall d' : CellIndices,
               indices (mutate ci d' st') !! Spreadsheet.cell_indices self'
               = Some d
               /\ Spreadsheet.shape self' (mutate ci d' st')
                  = Returned (shape d, mutate ci d' st')).
Proof.
  intros Hd. assert (Hlt : ci < length (indices st)) by (by eapply lookup_lt_Some).
  assert (Hshape : forall (self : Spreadsheet) (st' : Store) (d' : CellIndices),
    _cell_indices self <> ci ->
    indices st' !! _cell_indices self = Some d ->
    indices (mutate ci d' st') !! Spreadsheet.cell_indices self = Some d
    /\ Spreadsheet.shape self (mutate ci d' st')
       = Returned (shape d, mutate ci d' st')).
  { intros self st' d' Hne Hself.
    pose proof (mutate_elsewhere st' ci _ d d' Hne Hself) as Hm.
    split; [done|]. unfold Spreadsheet.shape, Spreadsheet.cell_indices.
    rewrite run_bind. unfold get_indices. by rewrite Hm. }
  split.
  - destruct (constructor_run st ci d Hd) as (sheet & st' & E & Hind & Hgrid & Hcells).
    eexists _, st'. split; [exact E|].
    unfold Spreadsheet.cell_indices. simpl.
    assert (Hcopy : indices st' !! length (indices st) = Some d)
      by (rewrite Hind; apply lookup_snoc_new).
    split; [lia|]. split; [apply lookup_fresh|]. split; [done|]. split.
    + intros r c l Hl. destruct (Hcells r c l Hl) as [_ Hcell].
      eexists. split; [exact Hcell | reflexivity].
    + intros d'. apply (Hshape {| _cell_indices := length (indices st);
                                  _sheet := sheet |}); simpl; [lia | done].
  - intros self rows columns Hgrid Hcols.
    destruct (expand_using_cell_indices_run (length (indices st)) self st
                rows columns (fst (shape d)) (snd (shape d)) ci d)
      as (self' & st' & E & Hci & Hres & _);
      [done | done | by destruct (shape d) | done | done |].
    exists self', st'. split; [exact E|].
    unfold Spreadsheet.cell_indices. rewrite Hci.
    assert (Hcopy : indices st' !! length (indices st) = Some d).
    { destruct Hres as (-> & _). simpl. apply lookup_snoc_new. }
    split; [lia|]. split; [apply lookup_fresh|]. split; [done|].
    intros d'. rewrite <- Hci. apply Hshape; rewrite Hci; [lia | done].
Qed.
End Grid.

(** ** Operands of different generations *)

Section Generations.
Context {num : Type} `{Native num}.
Local Abbreviation fragment := (Fragment.fragment num).
Local Abbreviation Cell := (Cell num fragment).
Local Abbreviation Store := (Store num fragment).

(** By the spec the word constructor refuses operands of different
    generations, whatever the operator. *)
Lemma words_of_different_generations (op : binop) (a b : Cell) :
  cell_indices a <> cell_indices b ->
  words_of op a b = Raised IncompatibleIndices.
Proof.
  intros Hne. destruct op; simpl; unfold Fragment.binary;
    by rewrite bool_decide_eq_false_2.
Qed.

(** The fragment a cell exposes to the word constructor of the spec is the
    property [word] of the cell. *)
Lemma exposed_is_word (c : Cell) : Fragment.exposed c = Cell.word c.
Proof. reflexivity. Qed.

(** By the spec a reference fragment is the coordinate of the cell, and not
    the words the cell was built with. *)
Lemma reference_is_coordinate (b : Cell) (r c : index) :
  row b = Some r -> column b = Some c ->
  WordConstructor.reference b = Returned (Fragment.Coordinate r c).
Proof. intros Hr Hc. simpl. unfold Fragment.reference. by rewrite Hr, Hc. Qed.

(** By the spec the fragments of [logarithm] and [exponential] differ. *)
Lemma logarithm_is_not_exponential (b : Cell) (w : fragment) :
  WordConstructor.logarithm b = Returned w ->
  WordConstructor.exponential b <> Returned w.
Proof.
  simpl. unfold Fragment.wrap. destruct (Fragment.exposed b); simpl; congruence.
Qed.

End Generations.

Section GenerationsOfBoth.
Context {num : Type} `{Native num}.
Local Abbreviation fragment := (Fragment.fragment num).
Context {draft : Legacy.Ops num fragment}.
Local Abbreviation Cell := (Cell num fragment).
Local Abbreviation Store := (Store num fragment).

(** C4, as the code has it.  [Cell.add] and the like compare no indices; the
    value is computed before the words are built.  For cells [a] and [b]
    whose indices objects are distinct, each of [add], [subtract],
    [multiply], [divide], [power] of the package fails and returns no
    result: with the exception of the value computation when that raises
    (TypeError when a value is None, else the exception of the native
    operation), and otherwise with IncompatibleIndices, which the word
    constructor of the spec raises.  The draft hands its word constructor
    the words of the two cells only: it raises the exception of the value
    computation, else what the word constructor raises on the two words, and
    where that returns the words it returns a cell on the indices of
    [self]. *)
Theorem different_generations_fail (op : binop) (st : Store) (self other : loc)
    (a b : Cell) :
  cells st !! self = Some a ->
  cells st !! other = Some b ->
  cell_indices a <> cell_indices b ->
  method op self other st
  = Raised (match operator op (_value a) (_value b) with
            | Raised e => e
            | Returned _ => IncompatibleIndices
            end)
  /\ (Cell.value a = None \/ Cell.value b = None ->
      method op self other st
      = Raised (TypeError "unsupported operand type(s)")
      /\ @Legacy.method _ _ _ draft op self other st
         = Raised (TypeError "unsupported operand type(s)"))
  /\ (forall (x y : num) (e : exn),
        Cell.value a = Some x ->
        Cell.value b = Some y ->
        native op x y = Raised e ->
        method op self other st = Raised e
        /\ @Legacy.method _ _ _ draft op self other st = Raised e)
  /\ (forall x y v : num,
        Cell.value a = Some x ->
        Cell.value b = Some y ->
        native op x y = Returned v ->
        method op self other st = Raised IncompatibleIndices
        /\ @Legacy.method _ _ _ draft op self other st
           = match @Legacy.words_of _ _ draft op (_constructing_words a)
                     (_constructing_words b) with
             | Raised e => Raised e
             | Returned w =>
                 Returned (length (cells st),
                           {| cells := cells st
                                ++ [outcome (Some v) (cell_indices a) w];
                              indices := indices st |})
             end).
Proof.
  intros Ha Hb Hne.
  rewrite (method_unfold op self other st a b Ha Hb).
  rewrite (draft_method_unfold op self other st a b Ha Hb).
  rewrite (words_of_different_generations op a b Hne).
  unfold Cell.value, operator.
  split; [|split; [|split]].
  - by destruct (_value a), (_value b); try destruct (native op _ _).
  - intros [-> | ->]; [done|]. by destruct (_value a).
  - intros x y e -> -> ->. done.
  - intros x y v -> -> ->. done.
Qed.
End GenerationsOfBoth.

(** ** The worked sheets *)

Section Worked.
Import Concrete.

(** The sum of the references to two cells of values 2 and 5 has value 7, and
    its words join the coordinates of the cells. *)
Example sum_of_references_is_seven :
  match Scenario.sum_of_references empty with
  | Returned (r, _) =>
      r = (Some 7%Q,
           Operation Add (Coordinate (PyInt 0) (PyInt 0))
             (Coordinate (PyInt 0) (PyInt 1)))
  | Raised _ => False
  end.
Proof. vm_compute. reflexivity. Qed.

(** The sum over cells of values 2, 2 and 89 has value 93, and its words are
    the aggregation over the range, not the three values. *)
Example sum_of_row_is_93 :
  match Scenario.sum_of_row empty with
  | Returned (r, _) =>
      r = (Some 93%Q, Aggregation "sum" (PyInt 0, PyInt 0) (PyInt 0, PyInt 2))
  | Raised _ => False
  end.
Proof. vm_compute. reflexivity. Qed.

(** C2 at [sheet.iloc[0, 1] = sheet.iloc[0, 0]] on a new grid of one row and
    two columns: the cell stored in slot (0, 1) is not anchored, it has no
    row and no column. *)
Example stored_reference_is_free :
  match Scenario.assign_anchored empty with
  | Returned (r, _) => r = (false, (None, None))
  | Raised _ => False
  end.
Proof. vm_compute. reflexivity. Qed.

(** C6 at a cell of value 0: [Cell.exponential] returns a cell of value 1
    whose words are the logarithm fragment of the operand; the exponential
    fragment of the operand is another one. *)
Example exponential_has_logarithm_words :
  match Scenario.exponential_of_zero empty with
  | Returned (r, _) => r = (Some 1%Q, Logarithm (Constant (Some 0%Q)))
  | Raised _ => False
  end
  /\ WordConstructor.exponential (Scenario.value_cell 0 0)
     = Returned (Exponential (Constant (Some 0%Q))).
Proof. split; vm_compute; reflexivity. Qed.

(** C1 fails at a zero divisor: the values 2 and 0 are both present, and
    [divide] raises ZeroDivisionError and returns no cell, in the package and
    in the draft. *)
Example divide_by_zero_raises :
  Edge.divide_by_zero empty = Raised (ZeroDivisionError "division by zero")
  /\ Edge.draft_divide_by_zero empty
     = Raised (ZeroDivisionError "division by zero").
Proof. split; vm_compute; reflexivity. Qed.

(** C3 fails on the two cells of a new grid, a subset that is not empty: the
    cells have no value and [Cell.sum] raises TypeError and returns no cell.
    On the empty subset [Cell.sum] raises the IndexError of [subset[0]] and
    [Cell.min] the ValueError of [np.min]: two kinds of exception. *)
Example reduction_beyond_the_claim :
  Edge.reduce_new_row np_sum empty
  = Raised (TypeError "unsupported operand type(s)")
  /\ Edge.reduce_nothing np_sum empty
     = Raised (IndexError "list index out of range")
  /\ Edge.reduce_nothing np_min empty
     = Raised (ValueError
         "zero-size array to reduction operation minimum which has no identity").
Proof. repeat split; vm_compute; reflexivity. Qed.

(** By the rule of the spec a cell can fail against its own grid: the copy
    [_set_item] stores for a free cell has its own indices object, so adding
    it to the cell of another slot of the same grid raises
    IncompatibleIndices. *)
Example stored_copy_fails_against_its_grid :
  Edge.reuse_stored empty = Raised IncompatibleIndices.
Proof. vm_compute. reflexivity. Qed.

(** C4 fails for cells without a value: adding the cells in slot (0, 0) of two
    new grids raises TypeError, and not IncompatibleIndices. *)
Example add_across_grids_raises_TypeError :
  Scenario.add_across_grids empty
  = Raised (TypeError "unsupported operand type(s)")
  /\ TypeError "unsupported operand type(s)" <> IncompatibleIndices.
Proof. split; [vm_compute; reflexivity | discriminate]. Qed.

(** C7 fails on a grid of two rows and two columns: the coordinates (-1, -1)
    return the cell of slot (1, 1), and the coordinate 1 + 2^-21, that is not
    an integer, returns the cell of slot (1, 0). *)
Example get_item_beyond_the_claim :
  Spreadsheet._get_item Scenario.sheet (PyInt (-1), PyInt (-1)) = Returned 3
  /\ slot (_sheet Scenario.sheet) 1 1 = Some 3
  /\ Spreadsheet._get_item Scenario.sheet
       (PyFloat (2097153 # 2097152), PyInt 0) = Returned 2
  /\ slot (_sheet Scenario.sheet) 1 0 = Some 2.
Proof. repeat split; vm_compute; reflexivity. Qed.
End Worked.

(** ** The properties at the worked sheets *)

Section Witnesses.
Import Concrete.

Lemma scenario_rectangular : rectangular (_sheet Scenario.sheet) 2 2.
Proof. split; [reflexivity | repeat constructor]. Defined.

Lemma scenario_grid (st : Store) :
  indices st = indices Scenario.store ->
  (forall l, l < 4 -> is_Some (cells st !! l)) ->
  grid st Scenario.sheet 2 2.
Proof.
  intros Hind Hlive. split; [|split; [exact scenario_rectangular|]].
  - exists (plain 2 2). rewrite Hind. split; reflexivity.
  - intros r c l Hl. apply Hlive.
    destruct r as [|[|r]]; [| |discriminate Hl];
      (destruct c as [|[|c]]; [| |discriminate Hl]);
      vm_compute in Hl; inversion Hl; lia.
Defined.

Lemma scenario_live (l : loc) :
  l < 4 -> is_Some (cells Scenario.store !! l).
Proof.
  intros Hl. destruct l as [|[|[|[|l]]]]; [| | | |lia]; eexists; reflexivity.
Defined.

Lemma binary_method_value_witness :
  (exists (l : loc) (c : Cell) (st' : Store),
     method Add 0 1 Scenario.operands = Returned (l, st')
     /\ cells st' !! l = Some c
     /\ Cell.anchored c = false
     /\ cell_type c = computational
     /\ Cell.value c = Some 7%Q)
  /\ (exists (l : loc) (c : Cell) (st' : Store),
        Legacy.method Add 0 1 Scenario.operands = Returned (l, st')
        /\ cells st' !! l = Some c
        /\ Cell.anchored c = false
        /\ cell_type c = computational
        /\ Cell.value c = Some 7%Q)
  /\ method Div 0 2 Scenario.operands
     = Raised (ZeroDivisionError "division by zero")
  /\ Legacy.method Div 0 2 Scenario.operands
     = Raised (ZeroDivisionError "division by zero").
Proof.
  destruct (binary_method_value Add Scenario.operands 0 1
              Scenario.two Scenario.five 2%Q 5%Q)
    as (_ & Wpackage & _ & Wdraft & _); try reflexivity.
  destruct (binary_method_value Div Scenario.operands 0 2
              Scenario.two Scenario.anchored_zero 2%Q 0%Q)
    as (Wraised & _); try reflexivity.
  split; [|split].
  - destruct (Wpackage 7%Q
                (Operation Add (Constant (Some 2%Q)) (Constant (Some 5%Q))))
      as (l & c & st' & E & _ & Hc & Hfree & Htype & Hv & _); try reflexivity.
    exists l, c, st'. auto.
  - destruct (Wdraft 7%Q
                (Operation Add (Constant (Some 2%Q)) (Constant (Some 5%Q))))
      as (l & c & st' & E & _ & Hc & Hfree & Htype & Hv & _); try reflexivity.
    exists l, c, st'. auto.
  - apply Wraised. reflexivity.
Defined.

Lemma reference_of_cell_witness :
  Cell.reference 0 Scenario.operands
  = Raised (ValueError "The referenced cell has to be anchored.")
  /\ exists (l : loc) (c : Cell) (st' : Store),
       Cell.reference 2 Scenario.operands = Returned (l, st')
       /\ cells st' !! l = Some c
       /\ Cell.value c = Some 0%Q
       /\ _constructing_words c = Coordinate (PyInt 0) (PyInt 1).
Proof.
  split.
  - destruct (reference_of_cell Scenario.operands 0 Scenario.two) as [W _];
      [reflexivity|].
    exact (W eq_refl).
  - destruct (reference_of_cell Scenario.operands 2 Scenario.anchored_zero)
      as [_ W]; [reflexivity|].
    destruct (W eq_refl (Coordinate (PyInt 0) (PyInt 1)) eq_refl)
      as (l & c & st' & E & _ & Hc & _ & Hv & Hw & _).
    exists l, c, st'. auto.
Defined.

Lemma aggregate_of_subset_witness :
  aggregate np_sum (PyInt 0, PyInt 0) (PyInt 0, PyInt 2) [] Scenario.operands
  = Raised (IndexError "list index out of range")
  /\ (exists (l : loc) (c : Cell) (st' : Store),
        aggregate np_sum (PyInt 0, PyInt 0) (PyInt 0, PyInt 2) [0; 1; 2]
          Scenario.operands = Returned (l, st')
        /\ cells st' !! l = Some c
        /\ Cell.value c = Some 7%Q)
  /\ aggregate np_sum (PyInt 0, PyInt 0) (PyInt 0, PyInt 1) [0; 1]
       Scenario.store
     = Raised (TypeError "unsupported operand type(s)").
Proof.
  split; [|split].
  - destruct (aggregate_of_subset np_sum (PyInt 0, PyInt 0) (PyInt 0, PyInt 2)
                Scenario.operands) as [Hempty _].
    exact Hempty.
  - destruct (aggregate_of_subset np_sum (PyInt 0, PyInt 0) (PyInt 0, PyInt 2)
                Scenario.operands) as [_ Hsome].
    destruct (Hsome 0 [1; 2] Scenario.two
                [Scenario.five; Scenario.anchored_zero]) as [_ Hvalue];
      [repeat constructor|].
    destruct (Hvalue (Some 7%Q)) as (l & c & st' & E & _ & Hc & Hv & _);
      [reflexivity|].
    exists l, c, st'. auto.
  - destruct (aggregate_of_subset np_sum (PyInt 0, PyInt 0) (PyInt 0, PyInt 1)
                Scenario.store) as [_ Hsome].
    destruct (Hsome 0 [1] (initial 1 0 0) [initial 1 0 1]) as [Hraised _];
      [repeat constructor|].
    apply Hraised. reflexivity.
Defined.

Lemma different_generations_fail_witness :
  method Add 0 1 Strangers.store = Raised IncompatibleIndices
  /\ exists st' : Store,
       Legacy.method Add 0 1 Strangers.store = Returned (2, st').
Proof.
  destruct (different_generations_fail Add Strangers.store 0 1
              (Scenario.value_cell 2 0) (Scenario.value_cell 5 1))
    as (_ & _ & _ & W); [reflexivity | reflexivity | discriminate |].
  destruct (W 2%Q 5%Q 7%Q) as [Wpackage Wdraft]; try reflexivity.
  split; [exact Wpackage|].
  eexists. exact Wdraft.
Defined.

Lemma get_item_of_grid_witness :
  Spreadsheet._get_item Scenario.sheet (PyFloat (1 # 2), PyInt 0)
  = Raised (IndexError "Indices must be integers!")
  /\ Spreadsheet._get_item Scenario.sheet (PyInt 2, PyInt 0)
     = Raised (IndexError "list index out of range")
  /\ exists l : loc,
       slot (_sheet Scenario.sheet) 1 0 = Some l
       /\ Spreadsheet._get_item Scenario.sheet (PyInt 1, PyInt 0) = Returned l.
Proof.
  split; [|split].
  - destruct (get_item_of_grid Scenario.sheet 2 2 (PyFloat (1 # 2)) (PyInt 0)
                scenario_rectangular) as (W & _).
    apply W. left. reflexivity.
  - destruct (get_item_of_grid Scenario.sheet 2 2 (PyInt 2) (PyInt 0)
                scenario_rectangular) as (_ & _ & W & _).
    apply W; [reflexivity | reflexivity |]. simpl. lia.
  - destruct (get_item_of_grid Scenario.sheet 2 2 (PyInt 0) (PyInt 0)
                scenario_rectangular) as (_ & _ & _ & W).
    apply (W 1 0); lia.
Defined.

Lemma set_item_stores_witness :
  (exists (l : loc) (cell : Cell) (self' : Spreadsheet) (st' : Store),
     Spreadsheet._set_item Scenario.sheet (Number 5%Q) (PyInt 0, PyInt 1)
       Strangers.beside = Returned (self', st')
     /\ slot (_sheet self') 0 1 = Some l
     /\ cells st' !! l = Some cell
     /\ Cell.anchored cell = true
     /\ Cell.value cell = Some 5%Q)
  /\ (exists (l : loc) (cell : Cell) (self' : Spreadsheet) (st' : Store),
        Spreadsheet._set_item Scenario.sheet (CellObject 0) (PyInt 0, PyInt 1)
          Strangers.beside = Returned (self', st')
        /\ slot (_sheet self') 0 1 = Some l
        /\ cells st' !! l = Some cell
        /\ _constructing_words cell = Coordinate (PyInt 0) (PyInt 0))
  /\ (exists (l : loc) (cell : Cell) (self' : Spreadsheet) (st' : Store),
        Spreadsheet._set_item Scenario.sheet (CellObject 4) (PyInt 0, PyInt 1)
          Strangers.beside = Returned (self', st')
        /\ slot (_sheet self') 0 1 = Some l
        /\ cells st' !! l = Some cell
        /\ Cell.anchored cell = true
        /\ cells st' !! 4 = Some (Scenario.value_cell 5 1)).
Proof.
  destruct (set_item_stores Scenario.sheet Strangers.beside 0 1 [0; 1])
    as (Hnumber & Hanchored & Hfree); [reflexivity | simpl; lia |].
  split; [|split].
  - destruct (Hnumber 5%Q)
      as (l & cell & self' & st' & E & Hslot & _ & Hcell & Hanch & _ & _ & Hv & _).
    exists l, cell, self', st'. auto.
  - destruct (Hanchored 0 (initial 1 0 0) (Coordinate (PyInt 0) (PyInt 0)))
      as (l & cell & self' & st' & E & _ & Hslot & Hcell & Hw & _);
      [reflexivity | reflexivity | reflexivity |].
    exists l, cell, self', st'. auto.
  - destruct (Hfree 4 (Scenario.value_cell 5 1) (plain 2 2))
      as (l & cell & self' & st' & E & Hslot & _ & Hcell & Hanch & _ & _ & _ & _
          & Hkept & _); [reflexivity | reflexivity | reflexivity |].
    exists l, cell, self', st'. auto.
Defined.

Lemma expand_grows_grid_witness :
  exists (self' : Spreadsheet) (st' : Store),
    Spreadsheet.expand Scenario.sheet 1 1 [] [] [] [] Scenario.store
    = Returned (self', st')
    /\ Spreadsheet.shape self' st' = Returned ((3, 3), st')
    /\ rectangular (_sheet self') 3 3.
Proof.
  destruct (expand_grows_grid Scenario.sheet Scenario.store 2 2 1 1 [] [] [] [])
    as (self' & st' & E & Hshape & Hrect & _);
    [exact (scenario_grid Scenario.store eq_refl scenario_live)|].
  exists self', st'. auto.
Defined.

Lemma grid_owns_its_indices_witness :
  (exists (self : Spreadsheet) (st' : Store),
     Spreadsheet.__init__ 0 Scenario.store = Returned (self, st')
     /\ Spreadsheet.cell_indices self <> 0
     /\ Spreadsheet.shape self (mutate 0 (plain 7 7) st')
        = Returned ((2, 2), mutate 0 (plain 7 7) st'))
  /\ (exists (self' : Spreadsheet) (st' : Store),
        Spreadsheet.expand_using_cell_indices Scenario.sheet 0 Scenario.store
        = Returned (self', st')
        /\ Spreadsheet.cell_indices self' <> 0).
Proof.
  destruct (grid_owns_its_indices Scenario.store 0 (plain 2 2))
    as [Hinit Hexpand]; [reflexivity|].
  split.
  - destruct Hinit as (self & st' & E & Hne & _ & _ & _ & Hmut).
    exists self, st'. split; [exact E|]. split; [exact Hne|].
    exact (proj2 (Hmut (plain 7 7))).
  - destruct (Hexpand Scenario.sheet 2 2)
      as (self' & st' & E & Hne & _);
      [exact (scenario_grid Scenario.store eq_refl scenario_live)
      | simpl; lia |].
    exists self', st'. auto.
Defined.
End Witnesses.

(* ================================================================== *)
(** * Further properties of the cells *)

Section Construction.
Context {num fragment : Type}.
Context `{Native num} `{WordConstructor.Ops num fragment}.
Local Abbreviation Cell := (Cell num fragment).
Local Abbreviation Store := (Store num fragment).

(** X1. [Cell.__init__] accepts a position that is wholly set or wholly
    unset, and then builds a cell with the attributes it is given, anchored
    exactly when the row is set, keeping the words it is handed; a position of
    which one half only is set raises ValueError. *)
Theorem init_rejects_partial_position (r k : option index)
    (v : option num) (ci : loc) (t : CellType) (words : option fragment) :
  (is_None r = is_None k ->
   exists c : Cell,
     Cell.__init__ r k v ci t words = Returned c
     /\ Cell.coordinates c = (r, k)
     /\ Cell.value c = v
     /\ cell_type c = t
     /\ cell_indices c = ci
     /\ Cell.anchored c = negb (is_None r)
     /\ (forall w, words = Some w -> _constructing_words c = w))
  /\ (is_None r <> is_None k ->
      Cell.__init__ r k v ci t words
      = Raised (ValueError
          "The values of 'row' and 'column' parameters have to be either both not None or both None.")).
Proof.
  unfold Cell.__init__. split.
  - intros Heq. destruct r, k; try discriminate; simpl;
      (eexists; split; [reflexivity|]);
      repeat split; simpl; intros w ->; reflexivity.
  - intros Hne. destruct r, k; simpl in *; congruence.
Qed.

(** X2. [Cell.brackets] applied twice keeps the value: the result is a new
    free, computational cell with the value and the indices of the operand,
    also when the operand has no value, and the operand is as before. *)
Theorem brackets_twice_keeps_value (st : Store) (other : loc) (b : Cell)
    (w1 w2 : fragment) :
  cells st !! other = Some b ->
  WordConstructor.brackets b = Returned w1 ->
  WordConstructor.brackets (outcome (_value b) (cell_indices b) w1)
  = Returned w2 ->
  exists (l : loc) (st' : Store),
    (inner <- Cell.brackets other ;; Cell.brackets inner) st = Returned (l, st')
    /\ cells st !! l = None
    /\ cells st' !! l = Some (outcome (_value b) (cell_indices b) w2)
    /\ Cell.value (outcome (_value b) (cell_indices b) w2) = Cell.value b
    /\ cells st' !! other = Some b
    /\ extends st st'.
Proof.
  intros Hb Hw1 Hw2. unfold outcome in *. unfold Cell.brackets. run.
  rewrite Hb, Hw1. simpl. rewrite lookup_snoc_new. simpl. rewrite Hw2. simpl.
  eexists _, _. split; [reflexivity|]. simpl.
  assert (Hlt : other < length (cells st)) by (by eapply lookup_lt_Some).
  split; [apply lookup_ge_None_2; rewrite length_app; simpl; lia|].
  split; [apply lookup_snoc_new|].
  split; [reflexivity|].
  split; [by do 2 apply lookup_snoc_old|].
  split; simpl; intros; [by do 2 apply lookup_snoc_old | done].
Qed.

End Construction.

(* ================================================================== *)
(** * Further properties of the grid *)

Section Slots.
Context {A : Type}.

Lemma getitem_nat (l : list A) (k : nat) :
  getitem l (PyInt (Z.of_nat k))
  = match l !! k with
    | Some a => Returned a
    | None => Raised (IndexError "list index out of range")
    end.
Proof.
  destruct (l !! k) as [a|] eqn:Hk; [by apply getitem_front|].
  apply getitem_out_of_range. apply lookup_ge_None_1 in Hk. lia.
Qed.

Lemma getitem_Returned (l : list A) (i : index) (a : A) :
  getitem l i = Returned a ->
  exists (z : Z) (k : nat),
    i = PyInt z /\ position (length l) z = Some k /\ l !! k = Some a.
Proof.
  unfold getitem. destruct i as [z|q]; [|discriminate].
  destruct (position (length l) z) as [k|] eqn:Hk; [|discriminate].
  destruct (l !! k) as [a'|] eqn:Ha; [|discriminate].
  intros [= ->]. eauto.
Qed.

Lemma position_lt (n : nat) (z : Z) (k : nat) :
  position n z = Some k -> k < n.
Proof.
  unfold position.
  destruct (Z.leb_spec 0 z), (Z.ltb_spec z (Z.of_nat n)),
    (Z.leb_spec (- Z.of_nat n) z), (Z.ltb_spec z 0); simpl;
    intros [= <-]; lia.
Qed.

Lemma setitem_Returned (l l' : list A) (i : index) (a : A) :
  setitem l i a = Returned l' ->
  exists (z : Z) (k : nat),
    i = PyInt z /\ position (length l) z = Some k /\ k < length l
    /\ l' = <[k := a]> l.
Proof.
  unfold setitem. destruct i as [z|q]; [|discriminate].
  destruct (position (length l) z) as [k|] eqn:Hk; [|discriminate].
  intros [= <-]. exists z, k. eauto using position_lt.
Qed.

Lemma setitem_in_range (l : list A) (i : Z) (a : A) :
  (- Z.of_nat (length l) <= i < Z.of_nat (length l))%Z ->
  setitem l (PyInt i) a
  = Returned (<[Z.to_nat (i mod Z.of_nat (length l)) := a]> l).
Proof.
  intros Hi. unfold setitem. by destruct (position_in_range _ _ Hi) as [-> _].
Qed.

Lemma setitem_out_of_range (l : list A) (i : Z) (a : A) :
  ~ (- Z.of_nat (length l) <= i < Z.of_nat (length l))%Z ->
  setitem l (PyInt i) a
  = Raised (IndexError "list assignment index out of range").
Proof. intros Hi. unfold setitem. by rewrite position_out_of_range. Qed.
End Slots.

Section MoreAssignment.
Context {num fragment : Type}.
Context `{Native num} `{WordConstructor.Ops num fragment}.
Local Abbreviation Cell := (Cell num fragment).
Local Abbreviation Store := (Store num fragment).

(** [_get_item] at natural coordinates reads the slot. *)
Lemma get_item_nat (self : Spreadsheet) (r c : nat) :
  Spreadsheet._get_item self (PyInt (Z.of_nat r), PyInt (Z.of_nat c))
  = match slot (_sheet self) r c with
    | Some l => Returned l
    | None => Raised (IndexError "list index out of range")
    end.
Proof.
  unfold Spreadsheet._get_item, slot. rewrite !not_integer_int. cbn [orb int].
  rewrite getitem_nat. destruct (_sheet self !! r) as [line|]; [|done].
  cbn [rbind]. apply getitem_nat.
Qed.

Lemma slot_insert_other (sheet : list (list loc)) (r c r' c' : nat)
    (line : list loc) (l : loc) :
  sheet !! r = Some line -> (r', c') <> (r, c) ->
  slot (<[r := <[c := l]> line]> sheet) r' c' = slot sheet r' c'.
Proof.
  intros Hline Hne. unfold slot. destruct (decide (r' = r)) as [->|Hr].
  - rewrite list_lookup_insert_eq by (by eapply lookup_lt_Some).
    rewrite Hline. apply list_lookup_insert_ne. congruence.
  - by rewrite list_lookup_insert_ne.
Qed.

Lemma rectangular_insert (sheet : list (list loc)) (rows columns r c : nat)
    (line : list loc) (l : loc) :
  rectangular sheet rows columns -> sheet !! r = Some line ->
  rectangular (<[r := <[c := l]> line]> sheet) rows columns.
Proof.
  intros [Hlen Hall] Hline. split; [by rewrite length_insert|].
  apply Forall_insert; [done|]. rewrite length_insert.
  rewrite Forall_forall in Hall. apply Hall. by eapply list_elem_of_lookup_2.
Qed.

(** The cell [Cell(_x, _y, value=n, cell_indices=ci)]. *)
Lemma set_item_number_run (self : Spreadsheet) (st : Store)
    (rows columns : nat) (i j : Z) (n : num) :
  rectangular (_sheet self) rows columns ->
  (- Z.of_nat rows <= i < Z.of_nat rows)%Z ->
  (- Z.of_nat columns <= j < Z.of_nat columns)%Z ->
  exists (line : list loc) (cell : Cell),
    _sheet self !! Z.to_nat (i mod Z.of_nat rows) = Some line
    /\ Z.to_nat (j mod Z.of_nat columns) < length line
    /\ Cell.__init__ (Some (PyInt i)) (Some (PyInt j)) (Some n)
         (_cell_indices self) value_only None = Returned cell
    /\ Spreadsheet._set_item self (Number n) (PyInt i, PyInt j) st
       = Returned
           (Spreadsheet.with_sheet self
              (<[Z.to_nat (i mod Z.of_nat rows) :=
                   <[Z.to_nat (j mod Z.of_nat columns) := length (cells st)]> line]>
                 (_sheet self)),
            {| cells := cells st ++ [cell]; indices := indices st |}).
Proof.
  intros Hrect Hi Hj. pose proof Hrect as [Hrows _].
  rewrite <- Hrows in Hi.
  destruct (getitem_in_range _ _ Hi) as (line & Hline & Hget).
  pose proof (setitem_in_range (_sheet self) i) as Hset_row.
  rewrite Hrows in Hline, Hi.
  pose proof (rectangular_line _ _ _ _ _ Hrect Hline) as Hlen.
  exists line. eexists. split; [exact Hline|].
  split; [rewrite Hlen; apply position_in_range; lia|].
  split; [reflexivity|].
  unfold Spreadsheet._set_item. rewrite !not_integer_int. cbn [orb]. run.
  rewrite Hget. simpl. rewrite setitem_in_range by (rewrite Hlen; lia). simpl.
  rewrite Hset_row by (rewrite Hrows; lia). simpl.
  by rewrite Hrows, Hlen.
Qed.

(** [_get_item] at integers inside the grid reads the slot they denote. *)
Lemma get_item_in_range (self : Spreadsheet) (rows columns : nat) (i j : Z) :
  rectangular (_sheet self) rows columns ->
  (- Z.of_nat rows <= i < Z.of_nat rows)%Z ->
  (- Z.of_nat columns <= j < Z.of_nat columns)%Z ->
  exists l : loc,
    slot (_sheet self) (Z.to_nat (i mod Z.of_nat rows))
      (Z.to_nat (j mod Z.of_nat columns)) = Some l
    /\ Spreadsheet._get_item self (PyInt i, PyInt j) = Returned l.
Proof.
  intros Hrect Hi Hj. pose proof Hrect as [Hrows _].
  unfold Spreadsheet._get_item. rewrite !not_integer_int. cbn [orb int].
  rewrite <- Hrows in Hi.
  destruct (getitem_in_range _ _ Hi) as (line & Hline & ->). cbn [rbind].
  rewrite Hrows in Hline.
  pose proof (rectangular_line _ _ _ _ _ Hrect Hline) as Hlen.
  rewrite <- Hlen in Hj.
  destruct (getitem_in_range _ _ Hj) as (l & Hl & ->).
  rewrite Hlen in Hl. exists l. split; [|done]. unfold slot. by rewrite Hline.
Qed.

(** X4. Assignment of a number and access round-trip: after
    [_set_item(n, (i, j))] at coordinates inside the grid, negative ones
    counting from the end, [_get_item((i, j))] returns the new cell, whose
    value is [n]; every other slot holds the cell it held; the sheet keeps its
    shape and the store its objects. *)
Theorem set_then_get (self : Spreadsheet) (st : Store) (rows columns : nat)
    (i j : Z) (n : num) :
  rectangular (_sheet self) rows columns ->
  (- Z.of_nat rows <= i < Z.of_nat rows)%Z ->
  (- Z.of_nat columns <= j < Z.of_nat columns)%Z ->
  exists (l : loc) (cell : Cell) (self' : Spreadsheet) (st' : Store),
    Spreadsheet._set_item self (Number n) (PyInt i, PyInt j) st
    = Returned (self', st')
    /\ Spreadsheet._get_item self' (PyInt i, PyInt j) = Returned l
    /\ cells st !! l = None
    /\ cells st' !! l = Some cell
    /\ Cell.value cell = Some n
    /\ (forall r c : nat,
          (r, c) <> (Z.to_nat (i mod Z.of_nat rows),
                     Z.to_nat (j mod Z.of_nat columns)) ->
          Spreadsheet._get_item self' (PyInt (Z.of_nat r), PyInt (Z.of_nat c))
          = Spreadsheet._get_item self (PyInt (Z.of_nat r), PyInt (Z.of_nat c)))
    /\ rectangular (_sheet self') rows columns
    /\ Spreadsheet.cell_indices self' = Spreadsheet.cell_indices self
    /\ extends st st'.
Proof.
  intros Hrect Hi Hj.
  destruct (set_item_number_run self st rows columns i j n Hrect Hi Hj)
    as (line & cell & Hline & Hc & Hcell & Eset).
  eexists _, cell, _, _. split; [exact Eset|].
  assert (Hrect' : rectangular
    (<[Z.to_nat (i mod Z.of_nat rows) :=
         <[Z.to_nat (j mod Z.of_nat columns) := length (cells st)]> line]>
       (_sheet self)) rows columns) by (by apply rectangular_insert).
  split.
  { destruct (get_item_in_range (Spreadsheet.with_sheet self _)
                rows columns i j Hrect' Hi Hj) as (l & Hl & ->).
    unfold Spreadsheet.with_sheet in Hl. simpl in Hl.
    rewrite (slot_insert _ _ _ _ _ Hline Hc) in Hl.
    injection Hl as <-. reflexivity. }
  split; [apply lookup_fresh|]. split; [apply lookup_snoc_new|].
  split; [unfold Cell.__init__ in Hcell; simpl in Hcell; by inversion Hcell|].
  split.
  { intros r c Hne. rewrite !get_item_nat. simpl.
    by rewrite (slot_insert_other _ _ _ _ _ _ _ Hline Hne). }
  split; [done|]. split; [reflexivity|]. apply extends_new_cell.
Qed.

(** X5. [_set_item] takes negative coordinates: the number is stored in the
    slot counted from the end, and the row and the column of the new cell are
    the coordinates as they were given, so that for a negative coordinate the
    position the cell records is not the slot it is stored in. *)
Theorem set_item_keeps_given_coordinates (self : Spreadsheet) (st : Store)
    (rows columns : nat) (i j : Z) (n : num) :
  rectangular (_sheet self) rows columns ->
  (- Z.of_nat rows <= i < Z.of_nat rows)%Z ->
  (- Z.of_nat columns <= j < Z.of_nat columns)%Z ->
  exists (l : loc) (cell : Cell) (self' : Spreadsheet) (st' : Store),
    Spreadsheet._set_item self (Number n) (PyInt i, PyInt j) st
    = Returned (self', st')
    /\ slot (_sheet self') (Z.to_nat (i mod Z.of_nat rows))
         (Z.to_nat (j mod Z.of_nat columns)) = Some l
    /\ cells st' !! l = Some cell
    /\ Cell.coordinates cell = (Some (PyInt i), Some (PyInt j))
    /\ Cell.anchored cell = true
    /\ cell_type cell = value_only
    /\ cell_indices cell = Spreadsheet.cell_indices self.
Proof.
  intros Hrect Hi Hj.
  destruct (set_item_number_run self st rows columns i j n Hrect Hi Hj)
    as (line & cell & Hline & Hc & Hcell & Eset).
  eexists _, cell, _, _. split; [exact Eset|]. simpl.
  split; [by apply slot_insert|]. split; [apply lookup_snoc_new|].
  unfold Cell.__init__ in Hcell. simpl in Hcell. inversion Hcell. by repeat split.
Qed.

(** X6. What [_set_item] refuses, for a number: a coordinate that is not an
    integer within the tolerance raises IndexError, whatever is assigned; a
    float within the tolerance, which [_get_item] accepts, raises TypeError,
    because the coordinate itself is the list subscript; an integer outside
    the rows raises IndexError, and one outside the columns of its row
    raises IndexError as well. *)
Theorem set_item_refuses (self : Spreadsheet) (st : Store) (rows columns : nat)
    (x y : index) :
  rectangular (_sheet self) rows columns ->
  (forall value : T_cell_val num,
     not_integer x = true \/ not_integer y = true ->
     Spreadsheet._set_item self value (x, y) st
     = Raised (IndexError "Indices must be integers!"))
  /\ (forall (n : num) (q : Q),
        x = PyFloat q -> not_integer x = false -> not_integer y = false ->
        Spreadsheet._set_item self (Number n) (x, y) st
        = Raised (TypeError "list indices must be integers or slices, not float"))
  /\ (forall (n : num) (i : Z) (q : Q),
        x = PyInt i -> (- Z.of_nat rows <= i < Z.of_nat rows)%Z ->
        y = PyFloat q -> not_integer y = false ->
        Spreadsheet._set_item self (Number n) (x, y) st
        = Raised (TypeError "list indices must be integers or slices, not float"))
  /\ (forall (n : num) (i : Z),
        x = PyInt i -> ~ (- Z.of_nat rows <= i < Z.of_nat rows)%Z ->
        not_integer y = false ->
        Spreadsheet._set_item self (Number n) (x, y) st
        = Raised (IndexError "list index out of range"))
  /\ (forall (n : num) (i j : Z),
        x = PyInt i -> (- Z.of_nat rows <= i < Z.of_nat rows)%Z ->
        y = PyInt j -> ~ (- Z.of_nat columns <= j < Z.of_nat columns)%Z ->
        Spreadsheet._set_item self (Number n) (x, y) st
        = Raised (IndexError "list assignment index out of range")).
Proof.
  intros Hrect. pose proof Hrect as [Hrows _].
  split; [|split; [|split; [|split]]].
  - intros value Hxy. unfold Spreadsheet._set_item.
    destruct Hxy as [-> | ->]; [done|]. by rewrite orb_true_r.
  - intros n q -> Hx Hy. unfold Spreadsheet._set_item. rewrite Hx, Hy.
    cbn [orb]. run. reflexivity.
  - intros n i q -> Hi -> Hy. unfold Spreadsheet._set_item.
    rewrite not_integer_int, Hy. cbn [orb]. run.
    rewrite <- Hrows in Hi.
    destruct (getitem_in_range _ _ Hi) as (line & _ & ->). reflexivity.
  - intros n i -> Hi Hy. unfold Spreadsheet._set_item.
    rewrite not_integer_int, Hy. cbn [orb]. run.
    rewrite <- Hrows in Hi. by rewrite (getitem_out_of_range _ _ Hi).
  - intros n i j -> Hi -> Hj. unfold Spreadsheet._set_item.
    rewrite !not_integer_int. cbn [orb]. run.
    rewrite <- Hrows in Hi.
    destruct (getitem_in_range _ _ Hi) as (line & Hline & ->). simpl.
    rewrite Hrows in Hline.
    pose proof (rectangular_line _ _ _ _ _ Hrect Hline) as Hlen.
    rewrite setitem_out_of_range by (by rewrite Hlen). reflexivity.
Qed.
End MoreAssignment.

Section Invariant.
Context {num fragment : Type}.
Context `{Native num} `{WordConstructor.Ops num fragment}.
Local Abbreviation Cell := (Cell num fragment).
Local Abbreviation Store := (Store num fragment).

(** [_set_item] with a free cell: the slot receives a copy of the cell with
    the coordinates set, on a copy of the indices object of the cell. *)
Lemma set_item_free_run (self : Spreadsheet) (st : Store) (r c : nat)
    (line : list loc) (a : loc) (b : Cell) (d : CellIndices) :
  _sheet self !! r = Some line ->
  c < length line ->
  cells st !! a = Some b ->
  Cell.anchored b = false ->
  indices st !! cell_indices b = Some d ->
  Spreadsheet._set_item self (CellObject a)
    (PyInt (Z.of_nat r), PyInt (Z.of_nat c)) st
  = Returned
      (Spreadsheet.with_sheet self
         (<[r := <[c := length (cells st)]> line]> (_sheet self)),
       {| cells := cells st
            ++ [Cell.set_coordinates
                  (with_cell_indices b (length (indices st)))
                  (PyInt (Z.of_nat r), PyInt (Z.of_nat c))];
          indices := indices st ++ [d] |}).
Proof.
  intros Hline Hc Hb Hfree Hd. unfold Spreadsheet._set_item.
  rewrite !not_integer_int. cbn [orb].
  rewrite run_bind, run_bind. unfold get_cell at 1. rewrite Hb, Hfree.
  unfold deepcopy_cell, deepcopy_indices. run. rewrite Hb, Hd. simpl.
  rewrite lookup_snoc_new. simpl.
  rewrite (getitem_front _ _ _ Hline). simpl.
  rewrite (setitem_front _ _ _ Hc). simpl.
  rewrite setitem_front by (by eapply lookup_lt_Some). simpl.
  do 3 f_equal.
  rewrite insert_app_r_alt, Nat.sub_diag by lia. reflexivity.
Qed.

(** What a call of [_set_item] that returns has done. *)
Lemma set_item_inversion (self self' : Spreadsheet) (st st' : Store)
    (value : T_cell_val num) (x y : index) :
  Spreadsheet._set_item self value (x, y) st = Returned (self', st') ->
  exists (l : loc) (line : list loc) (k kc : nat),
    extends st st'
    /\ is_Some (cells st' !! l)
    /\ _sheet self !! k = Some line
    /\ kc < length line
    /\ self' = Spreadsheet.with_sheet self
                 (<[k := <[kc := l]> line]> (_sheet self)).
Proof.
  unfold Spreadsheet._set_item.
  destruct (not_integer x || not_integer y); [discriminate|].
  rewrite run_bind.
  match goal with
  | |- match ?t with Returned _ => _ | Raised _ => _ end = _ -> _ =>
      destruct t as [[l st1]|e] eqn:E; [|discriminate]
  end.
  rewrite run_bind, run_lift.
  destruct (getitem (_sheet self) x) as [line|] eqn:G; [|discriminate].
  rewrite run_bind, run_lift.
  destruct (setitem line y l) as [line'|] eqn:S1; [|discriminate].
  rewrite run_bind, run_lift.
  destruct (setitem (_sheet self) x line') as [sheet'|] eqn:S2; [|discriminate].
  rewrite run_ret. intros [= <- <-].
  apply getitem_Returned in G as (z & k & -> & Hk & Hline).
  apply setitem_Returned in S1 as (zc & kc & -> & _ & Hkc & ->).
  apply setitem_Returned in S2 as (z' & k' & Hz & Hk' & _ & ->).
  injection Hz as <-. rewrite Hk in Hk'. injection Hk' as <-.
  exists l, line, k, kc.
  assert (Hstored : extends st st1 /\ is_Some (cells st1 !! l)).
  { destruct value as [n|a].
    - unfold bind, lift, new_cell, Cell.__init__ in E. simpl in E.
      injection E as <- <-. split; [apply extends_new_cell|].
      simpl. rewrite lookup_snoc_new. eauto.
    - unfold bind, get_cell in E.
      destruct (cells st !! a) as [b|] eqn:Hb; [|discriminate].
      destruct (Cell.anchored b) eqn:Hanch.
      + unfold Cell.reference, bind, get_cell, lift, new_cell, raise in E.
        rewrite Hb, Hanch in E. simpl in E.
        destruct (WordConstructor.reference b); [|discriminate].
        simpl in E. injection E as <- <-. split; [apply extends_new_cell|].
        simpl. rewrite lookup_snoc_new. eauto.
      + unfold deepcopy_cell, deepcopy_indices, bind, get_cell, get_indices,
          new_indices, new_cell, put_cell, ret in E.
        rewrite Hb in E.
        destruct (indices st !! cell_indices b) as [d|]; [|discriminate].
        simpl in E. rewrite lookup_snoc_new in E. injection E as <- <-.
        split; [split|]; simpl.
        * intros l0 c0 Hl0.
          assert (l0 < length (cells st)) by (by eapply lookup_lt_Some).
          rewrite list_lookup_insert_ne by lia. by apply lookup_snoc_old.
        * intros l0 d0 Hl0. by apply lookup_snoc_old.
        * rewrite list_lookup_insert_eq by (rewrite length_app; simpl; lia).
          eauto. }
  destruct Hstored as [Hext Hlive].
  split; [done|]. split; [done|]. split; [done|]. by split.
Qed.

(** X7. [_set_item] keeps the grid well formed: whatever is assigned, a
    number or a cell, and wherever, when the call returns the sheet has the
    shape it had, every slot holds a live cell, and no object that was in the
    store has changed. *)
Theorem set_item_keeps_grid (self self' : Spreadsheet) (st st' : Store)
    (rows columns : nat) (value : T_cell_val num) (x y : index) :
  grid st self rows columns ->
  Spreadsheet._set_item self value (x, y) st = Returned (self', st') ->
  grid st' self' rows columns
  /\ Spreadsheet.shape self' st' = Returned ((rows, columns), st')
  /\ extends st st'.
Proof.
  intros ((d & Hd & Hshape) & Hrect & Hlive) Hset.
  apply set_item_inversion in Hset
    as (l & line & k & kc & Hext & Hl & Hline & Hkc & ->).
  pose proof Hext as [Hcells Hind].
  assert (Hd' : indices st' !! _cell_indices self = Some d) by auto.
  split; [|split; [|done]].
  - split; [exists d; by split|].
    split; [by apply rectangular_insert|].
    simpl. intros r c l' Hl'.
    destruct (decide ((r, c) = (k, kc))) as [[= -> ->]|Hne].
    + rewrite (slot_insert _ _ _ _ _ Hline Hkc) in Hl'. by injection Hl' as <-.
    + rewrite (slot_insert_other _ _ _ _ _ _ _ Hline Hne) in Hl'.
      destruct (Hlive r c l' Hl') as [c0 Hc0]. exists c0. auto.
  - unfold Spreadsheet.shape, Spreadsheet.cell_indices.
    rewrite run_bind. unfold get_indices. simpl. by rewrite Hd', run_ret, Hshape.
Qed.

(** X8. The copy [_set_item] stores for a free cell does not share the
    indices of the grid: it points at a new indices object, a copy of the one
    the free cell points at, that is neither the object of the grid nor the
    object of the free cell. *)
Theorem stored_copy_has_own_indices (self : Spreadsheet) (st : Store)
    (r c : nat) (line : list loc) (a : loc) (b : Cell) (d d0 : CellIndices) :
  _sheet self !! r = Some line ->
  c < length line ->
  cells st !! a = Some b ->
  Cell.anchored b = false ->
  indices st !! cell_indices b = Some d ->
  indices st !! Spreadsheet.cell_indices self = Some d0 ->
  exists (l : loc) (cell : Cell) (self' : Spreadsheet) (st' : Store),
    Spreadsheet._set_item self (CellObject a)
      (PyInt (Z.of_nat r), PyInt (Z.of_nat c)) st = Returned (self', st')
    /\ slot (_sheet self') r c = Some l
    /\ cells st' !! l = Some cell
    /\ indices st !! cell_indices cell = None
    /\ indices st' !! cell_indices cell = Some d
    /\ cell_indices cell <> Spreadsheet.cell_indices self'
    /\ cell_indices cell <> cell_indices b
    /\ indices st' !! cell_indices b = Some d.
Proof.
  intros Hline Hc Hb Hfree Hd Hd0.
  rewrite (set_item_free_run self st r c line a b d Hline Hc Hb Hfree Hd).
  eexists _, _, _, _. split; [reflexivity|]. simpl.
  split; [by apply slot_insert|]. split; [apply lookup_snoc_new|]. simpl.
  apply lookup_lt_Some in Hd0 as Hlt0. apply lookup_lt_Some in Hd as Hlt.
  unfold Spreadsheet.cell_indices in *. simpl.
  split; [apply lookup_fresh|]. split; [apply lookup_snoc_new|].
  split; [lia|]. split; [lia|]. by apply lookup_snoc_old.
Qed.

(** X9. Assignment does not chain references: when the cell of a slot that
    was assigned an anchored cell [a] is assigned to a second slot, the second
    slot receives a copy of the stored cell, anchored at the second slot, with
    the words of the reference to [a], and not a reference to the first
    slot. *)
Theorem assignment_does_not_chain (self : Spreadsheet) (st : Store)
    (rows columns r c r2 c2 : nat) (a : loc) (b : Cell)
    (w : fragment) (d : CellIndices) :
  rectangular (_sheet self) rows columns ->
  r < rows -> c < columns -> r2 < rows -> c2 < columns ->
  cells st !! a = Some b ->
  Cell.anchored b = true ->
  WordConstructor.reference b = Returned w ->
  indices st !! cell_indices b = Some d ->
  exists (cell : Cell) (st' : Store),
    (first <- Spreadsheet._set_item self (CellObject a)
                (PyInt (Z.of_nat r), PyInt (Z.of_nat c)) ;;
     stored <- Spreadsheet.iloc first (PyInt (Z.of_nat r)) (PyInt (Z.of_nat c)) ;;
     second <- Spreadsheet._set_item first (CellObject stored)
                 (PyInt (Z.of_nat r2), PyInt (Z.of_nat c2)) ;;
     l <- Spreadsheet.iloc second (PyInt (Z.of_nat r2)) (PyInt (Z.of_nat c2)) ;;
     get_cell l) st = Returned (cell, st')
    /\ Cell.coordinates cell
       = (Some (PyInt (Z.of_nat r2)), Some (PyInt (Z.of_nat c2)))
    /\ _constructing_words cell = w
    /\ cell_type cell = computational
    /\ Cell.value cell = Cell.value b.
Proof.
  intros Hrect Hr Hc0 Hr2 Hc20 Hb Hanch Hw Hd.
  pose proof Hrect as [Hrows _].
  destruct (lookup_lt_is_Some_2 (_sheet self) r) as [line Hline]; [lia|].
  pose proof (rectangular_line _ _ _ _ _ Hrect Hline) as Hlen.
  assert (Hc : c < length line) by lia.
  pose proof (rectangular_insert _ _ _ r c line (length (cells st)) Hrect Hline)
    as Hrect1. pose proof Hrect1 as [Hrows1 _].
  destruct (lookup_lt_is_Some_2
              (<[r := <[c := length (cells st)]> line]> (_sheet self)) r2)
    as [line2 Hline2]; [lia|].
  pose proof (rectangular_line _ _ _ _ _ Hrect1 Hline2) as Hlen2.
  assert (Hc2 : c2 < length line2) by lia.
  destruct (set_item_anchored_run self st r c line a b w Hline Hc Hb Hanch Hw)
    as [E1 _].
  set (first := Spreadsheet.with_sheet self
                  (<[r := <[c := length (cells st)]> line]> (_sheet self))) in *.
  set (st1 := {| cells := cells st ++ [outcome (_value b) (cell_indices b) w];
                 indices := indices st |}) in *.
  assert (E2 : Spreadsheet.iloc first (PyInt (Z.of_nat r)) (PyInt (Z.of_nat c)) st1
               = Returned (length (cells st), st1)).
  { unfold Spreadsheet.iloc. rewrite run_lift, get_item_nat.
    unfold first, Spreadsheet.with_sheet. cbn [_sheet].
    by rewrite (slot_insert _ _ _ _ _ Hline Hc). }
  pose proof (set_item_free_run first st1 r2 c2 line2 (length (cells st))
                (outcome (_value b) (cell_indices b) w) d Hline2 Hc2
                (lookup_snoc_new _ _) eq_refl Hd) as E3.
  set (second := Spreadsheet.with_sheet first
                   (<[r2 := <[c2 := length (cells st1)]> line2]> (_sheet first)))
    in *.
  set (copy := Cell.set_coordinates
                 (with_cell_indices (outcome (_value b) (cell_indices b) w)
                    (length (indices st1)))
                 (PyInt (Z.of_nat r2), PyInt (Z.of_nat c2))) in *.
  set (st2 := {| cells := cells st1 ++ [copy]; indices := indices st1 ++ [d] |})
    in *.
  assert (E4 : Spreadsheet.iloc second (PyInt (Z.of_nat r2)) (PyInt (Z.of_nat c2))
                 st2 = Returned (length (cells st1), st2)).
  { unfold Spreadsheet.iloc. rewrite run_lift, get_item_nat.
    unfold second, Spreadsheet.with_sheet. cbn [_sheet].
    by rewrite (slot_insert _ _ _ _ _ Hline2 Hc2). }
  exists copy, st2. split; [|by repeat split].
  rewrite run_bind, E1, run_bind, E2, run_bind, E3, run_bind, E4.
  unfold get_cell, st2. cbn [cells]. by rewrite lookup_snoc_new.
Qed.
End Invariant.

Section MoreGrid.
Context {num fragment : Type}.
Context `{Native num} `{WordConstructor.Ops num fragment}.
Local Abbreviation Cell := (Cell num fragment).
Local Abbreviation Store := (Store num fragment).

Lemma rectangular_slot (sheet : list (list loc)) (rows columns r c : nat) :
  rectangular sheet rows columns -> r < rows -> c < columns ->
  is_Some (slot sheet r c).
Proof.
  intros Hrect Hr Hc. pose proof Hrect as [Hrows _].
  destruct (lookup_lt_is_Some_2 sheet r) as [line Hline]; [lia|].
  pose proof (rectangular_line _ _ _ _ _ Hrect Hline) as Hlen.
  unfold slot. rewrite Hline. apply lookup_lt_is_Some_2. lia.
Qed.

(** X10. The constructor builds a well-formed grid of the shape of the
    indices object it is given: every slot (r, c) holds a new cell that is
    anchored at (r, c), of type Value and without a value, and that points at
    the indices object of the grid; the objects that were in the store are
    unchanged. *)
Theorem constructor_builds_anchored_grid (st : Store) (ci : loc)
    (d : CellIndices) :
  indices st !! ci = Some d ->
  exists (self : Spreadsheet) (st' : Store),
    Spreadsheet.__init__ ci st = Returned (self, st')
    /\ grid st' self (fst (shape d)) (snd (shape d))
    /\ (forall r c, r < fst (shape d) -> c < snd (shape d) ->
          exists (l : loc) (cell : Cell),
            slot (_sheet self) r c = Some l
            /\ cells st !! l = None
            /\ cells st' !! l = Some cell
            /\ Cell.coordinates cell
               = (Some (PyInt (Z.of_nat r)), Some (PyInt (Z.of_nat c)))
            /\ Cell.anchored cell = true
            /\ Cell.value cell = None
            /\ cell_type cell = value_only
            /\ cell_indices cell = Spreadsheet.cell_indices self)
    /\ extends st st'.
Proof.
  intros Hd. unfold Spreadsheet.__init__, deepcopy_indices.
  rewrite run_bind, run_bind. unfold get_indices at 1. rewrite Hd.
  unfold new_indices at 1. rewrite run_bind.
  set (st1 := {| cells := cells st; indices := indices st ++ [d] |}).
  destruct (initialise_array_run
              {| _cell_indices := length (indices st); _sheet := [] |} st1 d)
    as (sheet & st' & E & Hind & Hext & Hrect & Hcells);
    [apply lookup_snoc_new|].
  rewrite E, run_ret. eexists _, st'. split; [reflexivity|].
  unfold Spreadsheet.with_sheet. simpl in *.
  split; [|split].
  - split; [|split; [done|]].
    + exists d. split; [|by destruct (shape d)].
      simpl. rewrite Hind. apply lookup_snoc_new.
    + simpl. intros r c l Hl. destruct (Hcells r c l Hl) as [_ ->]. done.
  - intros r c Hr Hc.
    destruct (rectangular_slot _ _ _ r c Hrect Hr Hc) as [l Hl].
    destruct (Hcells r c l Hl) as [Hfresh Hcell].
    exists l, (initial (length (indices st)) r c).
    split; [done|]. split; [by apply lookup_ge_None_2|]. by repeat split.
  - eapply extends_trans; [|exact Hext]. apply extends_new_indices.
Qed.

(** [expand] on a well-formed grid returns, and the row loop has run over
    the rows of the grown shape. *)
Lemma expand_run (self : Spreadsheet) (st : Store) (rows columns n m : nat)
    (rl cl rh ch : list string) (d0 : CellIndices) :
  grid st self rows columns ->
  indices st !! _cell_indices self = Some d0 ->
  exists (self' : Spreadsheet) (st' : Store),
    Spreadsheet.expand self n m rl cl rh ch st = Returned (self', st')
    /\ resizing (S (length (indices st))) self rows columns (columns + m)
         {| cells := cells st;
            indices := (indices st ++ [expand_size d0 n m rl cl rh ch])
                       ++ [expand_size d0 n m rl cl rh ch] |}
         (rows + n) self' st'.
Proof.
  intros Hgrid Hd0. pose proof Hgrid as ((d1 & Hd1 & Hshape0) & Hrect & Hlive).
  rewrite Hd0 in Hd1. injection Hd1 as <-.
  unfold Spreadsheet.expand, Spreadsheet.cell_indices.
  rewrite run_bind. unfold get_indices at 1. rewrite Hd0.
  rewrite run_bind. unfold new_indices at 1.
  set (g := expand_size d0 n m rl cl rh ch).
  set (st1 := {| cells := cells st; indices := indices st ++ [g] |}).
  assert (Hg : shape g = (rows + n, columns + m))
    by (unfold g, expand_size; simpl; by rewrite Hshape0).
  destruct (expand_using_cell_indices_run (S (length (indices st))) self st1
              rows columns (rows + n) (columns + m) (length (indices st)) g)
    as (self' & st' & E & Hloop);
    [| apply lookup_snoc_new | done | lia | simpl; rewrite length_app; simpl; lia |].
  { split; [|split; [done | exact Hlive]].
    exists d0. split; [by apply lookup_snoc_old | done]. }
  exists self', st'. by split.
Qed.

(** What [expand] leaves: a well-formed grid of the grown shape, with the old
    slots and the old objects. *)
Lemma expand_run_grid (self : Spreadsheet) (st : Store) (rows columns n m : nat)
    (rl cl rh ch : list string) :
  grid st self rows columns ->
  exists (self' : Spreadsheet) (st' : Store),
    Spreadsheet.expand self n m rl cl rh ch st = Returned (self', st')
    /\ grid st' self' (rows + n) (columns + m)
    /\ (forall r c, r < rows -> c < columns ->
          slot (_sheet self') r c = slot (_sheet self) r c)
    /\ (forall l c0, cells st !! l = Some c0 ->
          exists c1, cells st' !! l = Some c1 /\ same_but_indices c0 c1).
Proof.
  intros Hgrid. pose proof Hgrid as ((d0 & Hd0 & Hshape0) & _).
  destruct (expand_run self st rows columns n m rl cl rh ch d0 Hgrid Hd0)
    as (self' & st' & E & Hloop).
  destruct (resizing_done _ _ _ _ _ _ _ _ _ (Nat.le_add_r rows n)
              (Nat.le_add_r columns m) Hloop)
    as (Hci & Hind & Hrect' & Hold & Hframe & _ & Hpts).
  exists self', st'. split; [exact E|]. split; [|split; [|exact Hframe]].
  - split; [|split; [done|]].
    + exists (expand_size d0 n m rl cl rh ch). rewrite Hind, Hci. simpl.
      split.
      * replace (S (length (indices st)))
          with (length (indices st ++ [expand_size d0 n m rl cl rh ch]))
          by (rewrite length_app; simpl; lia).
        apply lookup_snoc_new.
      * unfold expand_size. simpl. by rewrite Hshape0.
    + intros r c l Hl. destruct (Hpts r c l Hl) as (cell & -> & _). done.
  - intros r c Hr Hc. by destruct (Hold r c Hr Hc) as [_ <-].
Qed.

Lemma same_but_indices_trans (c0 c1 c2 : Cell) :
  same_but_indices c0 c1 -> same_but_indices c1 c2 -> same_but_indices c0 c2.
Proof.
  intros (A1 & A2 & A3 & A4 & A5) (B1 & B2 & B3 & B4 & B5).
  repeat split; congruence.
Qed.

(** X11. [expand] composes: on a well-formed grid two expansions in a row
    both return, the grid is well formed after each, the final shape adds up
    the rows and the columns, the old slots still hold the objects they held,
    and every object that was in the store has kept its position, value,
    type and words. *)
Theorem expand_composes (self : Spreadsheet) (st : Store)
    (rows columns n1 m1 n2 m2 : nat) (rl1 cl1 rh1 ch1 rl2 cl2 rh2 ch2 : list string) :
  grid st self rows columns ->
  exists (self1 self2 : Spreadsheet) (st1 st2 : Store),
    Spreadsheet.expand self n1 m1 rl1 cl1 rh1 ch1 st = Returned (self1, st1)
    /\ grid st1 self1 (rows + n1) (columns + m1)
    /\ Spreadsheet.expand self1 n2 m2 rl2 cl2 rh2 ch2 st1 = Returned (self2, st2)
    /\ grid st2 self2 (rows + n1 + n2) (columns + m1 + m2)
    /\ (forall r c, r < rows -> c < columns ->
          slot (_sheet self2) r c = slot (_sheet self) r c)
    /\ (forall l c0, cells st !! l = Some c0 ->
          exists c2, cells st2 !! l = Some c2 /\ same_but_indices c0 c2).
Proof.
  intros Hgrid.
  destruct (expand_run_grid self st rows columns n1 m1 rl1 cl1 rh1 ch1 Hgrid)
    as (self1 & st1 & E1 & Hgrid1 & Hold1 & Hframe1).
  destruct (expand_run_grid self1 st1 (rows + n1) (columns + m1) n2 m2
              rl2 cl2 rh2 ch2 Hgrid1)
    as (self2 & st2 & E2 & Hgrid2 & Hold2 & Hframe2).
  exists self1, self2, st1, st2.
  split; [exact E1|]. split; [exact Hgrid1|]. split; [exact E2|].
  split; [exact Hgrid2|]. split.
  - intros r c Hr Hc. rewrite Hold2 by lia. by apply Hold1.
  - intros l c0 Hl. destruct (Hframe1 l c0 Hl) as (c1 & Hc1 & Hs1).
    destruct (Hframe2 l c1 Hc1) as (c2 & Hc2 & Hs2).
    exists c2. eauto using same_but_indices_trans.
Qed.

(** X12. [expand_using_cell_indices] only grows the sheet: given an indices
    object with fewer rows (and at least as many columns) it returns and the
    shape becomes the smaller one, but the sheet keeps all its rows, and the
    rows beyond the new shape are as they were. *)
Theorem expand_never_removes_rows (self : Spreadsheet) (st : Store)
    (rows columns rows' columns' : nat) (new : loc) (d : CellIndices) :
  grid st self rows columns ->
  indices st !! new = Some d ->
  shape d = (rows', columns') ->
  columns <= columns' ->
  exists (self' : Spreadsheet) (st' : Store),
    Spreadsheet.expand_using_cell_indices self new st = Returned (self', st')
    /\ Spreadsheet.shape self' st' = Returned ((rows', columns'), st')
    /\ length (_sheet self') = Nat.max rows rows'
    /\ (forall k, rows' <= k -> _sheet self' !! k = _sheet self !! k).
Proof.
  intros Hgrid Hnew Hshape Hcols.
  destruct (expand_using_cell_indices_run (length (indices st)) self st
              rows columns rows' columns' new d Hgrid Hnew Hshape Hcols eq_refl)
    as (self' & st' & E & Hci & Hres & Hlen & Hrows).
  destruct Hgrid as (_ & [Hlen0 _] & _).
  exists self', st'. split; [exact E|]. split; [|split; [exact Hlen|]].
  - unfold Spreadsheet.shape, Spreadsheet.cell_indices.
    rewrite run_bind. unfold get_indices. destruct Hres as (-> & _).
    rewrite Hci. simpl. by rewrite lookup_snoc_new, run_ret, Hshape.
  - intros k Hk. destruct (_sheet self' !! k) as [line|] eqn:Hline.
    + destruct (Hrows k line Hline) as [Horig _]. symmetry. by apply Horig.
    + symmetry. apply lookup_ge_None_2. apply lookup_ge_None_1 in Hline. lia.
Qed.
End MoreGrid.

(** ** Slices and structural operations *)

Section Structure.
Context {num fragment : Type}.
Context `{Native num} `{WordConstructor.Ops num fragment}.
Local Abbreviation Cell := (Cell num fragment).
Local Abbreviation Store := (Store num fragment).

Lemma get_item_nonneg (self : Spreadsheet) (x y : Z) :
  (0 <= x)%Z -> (0 <= y)%Z ->
  Spreadsheet._get_item self (PyInt x, PyInt y)
  = match slot (_sheet self) (Z.to_nat x) (Z.to_nat y) with
    | Some l => Returned l
    | None => Raised (IndexError "list index out of range")
    end.
Proof.
  intros Hx Hy. pose proof (get_item_nat self (Z.to_nat x) (Z.to_nat y)) as E.
  by rewrite !Z2Nat.id in E by lia.
Qed.

(** The inner loop of [_get_slice]: the cells of one row, in the order of the
    columns. *)
Lemma slice_row (self : Spreadsheet) (rows columns : nat) (x : Z)
    (ys : list Z) (st : Store) :
  rectangular (_sheet self) rows columns ->
  (0 <= x < Z.of_nat rows)%Z ->
  Forall (fun y => (0 <= y < Z.of_nat columns)%Z) ys ->
  forall acc : list loc,
  exists ls : list loc,
    map Some ls
    = map (fun y => slot (_sheet self) (Z.to_nat x) (Z.to_nat y)) ys
    /\ foldM (fun cell_subset y =>
               l <- Spreadsheet.iloc self (PyInt x) (PyInt y) ;;
               ret (cell_subset ++ [l]))
            acc ys st
       = Returned (acc ++ ls, st).
Proof.
  intros Hrect Hx. induction 1 as [|y ys Hy _ IH]; intros acc.
  - exists []. split; [done|]. simpl. by rewrite app_nil_r.
  - destruct (rectangular_slot _ _ _ (Z.to_nat x) (Z.to_nat y) Hrect)
      as [l Hl]; [lia | lia |].
    destruct (IH (acc ++ [l])) as (ls & Hls & E).
    exists (l :: ls). split; [simpl; by rewrite Hl, Hls|].
    simpl. rewrite run_bind, run_bind. unfold Spreadsheet.iloc at 1.
    rewrite run_lift, get_item_nonneg, Hl by lia.
    rewrite run_ret, E. by rewrite <- app_assoc.
Qed.

(** The outer loop of [_get_slice]: row after row. *)
Lemma slice_rows (self : Spreadsheet) (rows columns : nat)
    (y_start y_end y_step : Z) (xs ys : list Z) (st : Store) :
  rectangular (_sheet self) rows columns ->
  range3 y_start y_end y_step = Returned ys ->
  Forall (fun y => (0 <= y < Z.of_nat columns)%Z) ys ->
  Forall (fun x => (0 <= x < Z.of_nat rows)%Z) xs ->
  forall acc : list loc,
  exists ls : list loc,
    map Some ls
    = concat (map (fun x =>
                     map (fun y => slot (_sheet self) (Z.to_nat x) (Z.to_nat y))
                         ys) xs)
    /\ foldM (fun cell_subset x =>
               ys <- lift (range3 y_start y_end y_step) ;;
               foldM (fun cell_subset y =>
                        l <- Spreadsheet.iloc self (PyInt x) (PyInt y) ;;
                        ret (cell_subset ++ [l]))
                     cell_subset ys)
            acc xs st
       = Returned (acc ++ ls, st).
Proof.
  intros Hrect Hrange Hys. induction 1 as [|x xs Hx _ IH]; intros acc.
  - exists []. split; [done|]. simpl. by rewrite app_nil_r.
  - destruct (slice_row self rows columns x ys st Hrect Hx Hys acc)
      as (row & Hrow & Erow).
    destruct (IH (acc ++ row)) as (ls & Hls & E).
    exists (row ++ ls). split; [simpl; by rewrite map_app, Hrow, Hls|].
    simpl. rewrite run_bind, run_bind, run_lift. rewrite Hrange at 1. rewrite Erow.
    rewrite E.
    by rewrite <- app_assoc.
Qed.

(** X13. [_get_slice] collects the cells of the rows and columns of its two
    ranges in row-major order: row after row, and inside a row column after
    column; the slice records the start coordinates and the end coordinates
    less one, and neither the sheet nor the store is changed. *)
Theorem get_slice_row_major (self : Spreadsheet) (st : Store)
    (rows columns : nat) (x_start x_end x_step y_start y_end y_step : Z)
    (xs ys : list Z) :
  rectangular (_sheet self) rows columns ->
  range3 x_start x_end x_step = Returned xs ->
  range3 y_start y_end y_step = Returned ys ->
  Forall (fun x => (0 <= x < Z.of_nat rows)%Z) xs ->
  Forall (fun y => (0 <= y < Z.of_nat columns)%Z) ys ->
  exists subset : list loc,
    Spreadsheet._get_slice self
      (x_start, x_end, x_step, y_start, y_end, y_step) st
    = Returned ({| start_idx := (x_start, y_start);
                   end_idx := (x_end - 1, y_end - 1)%Z;
                   cell_subset := subset;
                   driving_sheet := self |}, st)
    /\ map Some subset
       = concat (map (fun x =>
                        map (fun y => slot (_sheet self) (Z.to_nat x) (Z.to_nat y))
                            ys) xs)
    /\ length subset = length xs * length ys.
Proof.
  intros Hrect Hxs Hys Hin_x Hin_y.
  destruct (slice_rows self rows columns y_start y_end y_step xs ys st
              Hrect Hys Hin_y Hin_x []) as (subset & Hsubset & E).
  exists subset. split; [|split; [exact Hsubset|]].
  - unfold Spreadsheet._get_slice. rewrite run_bind, run_lift, Hxs.
    rewrite run_bind, E. reflexivity.
  - rewrite <- (length_map Some subset), Hsubset.
    clear. induction xs as [|x xs IH]; [done|].
    simpl. by rewrite length_app, length_map, IH.
Qed.

(** X14. [delete_row] deletes nothing.  With both selectors it raises
    AttributeError; with a row index outside the rows IndexError; with a row
    index inside the rows TypeError, because the loop over the columns
    iterates over the integer [self.shape[1]]; a label behaves as the
    position its lookup returns, and raises what its lookup raises.  The only
    call that returns is the one with no selector, and it leaves the store as
    it was. *)
Theorem delete_row_deletes_nothing (self : Spreadsheet)
    (index : string -> result Z) (st : Store) (rows columns : nat)
    (d : CellIndices) :
  indices st !! Spreadsheet.cell_indices self = Some d ->
  shape d = (rows, columns) ->
  (forall (i : Z) (label : string),
     Spreadsheet.delete_row self index (Some i) (Some label) st
     = Failed (AttributeError
                 "Only one parameter 'row_index' or 'row_label' can be set."))
  /\ (forall i : Z,
        (0 <= i < Z.of_nat rows)%Z ->
        Spreadsheet.delete_row self index (Some i) None st
        = Failed (Python (TypeError "'int' object is not iterable")))
  /\ (forall i : Z,
        ~ (0 <= i < Z.of_nat rows)%Z ->
        Spreadsheet.delete_row self index (Some i) None st
        = Failed (Python (IndexError "Index is out of bounds!")))
  /\ (forall (label : string) (i : Z),
        index label = Returned i ->
        Spreadsheet.delete_row self index None (Some label) st
        = Spreadsheet.delete_row self index (Some i) None st)
  /\ (forall (label : string) (e : exn),
        index label = Raised e ->
        Spreadsheet.delete_row self index None (Some label) st
        = Failed (Python e))
  /\ (forall (row_index : option Z) (row_label : option string)
             (r : unit * Store),
        Spreadsheet.delete_row self index row_index row_label st = Done r ->
        row_index = None /\ row_label = None /\ r = (tt, st)).
Proof.
  intros Hd Hshape.
  assert (Hshape_run : Spreadsheet.shape self st = Returned ((rows, columns), st)).
  { unfold Spreadsheet.shape. rewrite run_bind. unfold get_indices.
    by rewrite Hd, run_ret, Hshape. }
  assert (Hindex : forall i : Z,
    Spreadsheet.delete_row self index (Some i) None st
    = if ((0 <=? i)%Z && (i <? Z.of_nat rows)%Z)%bool
      then Failed (Python (TypeError "'int' object is not iterable"))
      else Failed (Python (IndexError "Index is out of bounds!"))).
  { intros i. unfold Spreadsheet.delete_row. simpl. rewrite Hshape_run. simpl.
    by destruct ((0 <=? i)%Z && (i <? Z.of_nat rows)%Z)%bool. }
  split; [done|]. split; [|split; [|split; [|split]]].
  - intros i Hi. rewrite Hindex.
    replace (0 <=? i)%Z with true by (symmetry; apply Z.leb_le; lia).
    by replace (i <? Z.of_nat rows)%Z with true by (symmetry; apply Z.ltb_lt; lia).
  - intros i Hi. rewrite Hindex.
    destruct (Z.leb_spec 0 i), (Z.ltb_spec i (Z.of_nat rows)); simpl; try done.
    lia.
  - intros label i Hlabel. unfold Spreadsheet.delete_row. simpl.
    by rewrite Hlabel.
  - intros label e Hlabel. unfold Spreadsheet.delete_row. simpl.
    by rewrite Hlabel.
  - intros row_index row_label r Hdone.
    destruct row_index as [i|], row_label as [label|].
    + discriminate Hdone.
    + rewrite Hindex in Hdone.
      by destruct ((0 <=? i)%Z && (i <? Z.of_nat rows)%Z)%bool.
    + unfold Spreadsheet.delete_row in Hdone. simpl in Hdone.
      destruct (index label) as [i|e] eqn:Hlabel; simpl in Hdone;
        [|discriminate].
      change (Spreadsheet.delete_row self index (Some i) None st = Done r)
        in Hdone.
      rewrite Hindex in Hdone.
      by destruct ((0 <=? i)%Z && (i <? Z.of_nat rows)%Z)%bool.
    + unfold Spreadsheet.delete_row in Hdone. simpl in Hdone.
      by injection Hdone as <-.
Qed.
End Structure.

Section Insertion.

(** X15. [insert_row_after] and [insert_column_after] need exactly one
    reference: with both a reference index and a reference label they raise
    IndexError, with neither TypeError (from [reference_index - 1] on None),
    with a label whose lookup raises the exception of the lookup; with an
    index, or with a label that is found, they return, and nothing is
    inserted. *)
Theorem insert_after_needs_one_reference (index : string -> result Z)
    (label help_text : option string) :
  (forall (i : Z) (l : string),
     Spreadsheet.insert_row_after index label help_text (Some i) (Some l)
     = Raised (IndexError
         "Only one value 'reference_index' or 'reference_label' can be set!")
     /\ Spreadsheet.insert_column_after index label help_text (Some i) (Some l)
        = Raised (IndexError
            "Only one value 'reference_index' or 'reference_label' can be set!"))
  /\ (Spreadsheet.insert_row_after index label help_text None None
      = Raised (TypeError "unsupported operand type(s)")
      /\ Spreadsheet.insert_column_after index label help_text None None
         = Raised (TypeError "unsupported operand type(s)"))
  /\ (forall i : Z,
        Spreadsheet.insert_row_after index label help_text (Some i) None
        = Returned tt
        /\ Spreadsheet.insert_column_after index label help_text (Some i) None
           = Returned tt)
  /\ (forall (l : string) (i : Z),
        index l = Returned i ->
        Spreadsheet.insert_row_after index label help_text None (Some l)
        = Returned tt
        /\ Spreadsheet.insert_column_after index label help_text None (Some l)
           = Returned tt)
  /\ (forall (l : string) (e : exn),
        index l = Raised e ->
        Spreadsheet.insert_row_after index label help_text None (Some l)
        = Raised e
        /\ Spreadsheet.insert_column_after index label help_text None (Some l)
           = Raised e).
Proof.
  split; [done|]. split; [done|]. split; [done|]. split.
  - intros l i Hl.
    unfold Spreadsheet.insert_row_after, Spreadsheet.insert_column_after.
    simpl. by rewrite Hl.
  - intros l e Hl.
    unfold Spreadsheet.insert_row_after, Spreadsheet.insert_column_after.
    simpl. by rewrite Hl.
Qed.
End Insertion.

(** ** The draft beside the package *)

Section DraftAndPackage.
Context {num fragment : Type}.
Context `{Native num} `{WordConstructor.Ops num fragment}
        `{Legacy.Ops num fragment}.
Local Abbreviation Cell := (Cell num fragment).
Local Abbreviation Store := (Store num fragment).

(** X16. A binary method of the draft ([src/cell.py]) and the same method of
    the package build, at the same new address, a free computational cell of
    the same value; the package's cell takes the indices object of [other],
    the draft's cell the indices object of [self].  The two stores are equal
    as soon as the operands share their indices and the two word constructors
    give the same words. *)
Theorem draft_takes_indices_of_self (op : binop) (st : Store)
    (self other : loc) (a b : Cell) (x y v : num) (w wd : fragment) :
  cells st !! self = Some a ->
  cells st !! other = Some b ->
  _value a = Some x ->
  _value b = Some y ->
  native op x y = Returned v ->
  words_of op a b = Returned w ->
  Legacy.words_of op (_constructing_words a) (_constructing_words b)
  = Returned wd ->
  exists (c cd : Cell) (st' std : Store),
    method op self other st = Returned (length (cells st), st')
    /\ Legacy.method op self other st = Returned (length (cells st), std)
    /\ cells st' !! length (cells st) = Some c
    /\ cells std !! length (cells st) = Some cd
    /\ (_value c = Some v /\ _value cd = Some v)
    /\ (cell_type c = computational /\ cell_type cd = computational)
    /\ (Cell.anchored c = false /\ Cell.anchored cd = false)
    /\ cell_indices c = cell_indices b
    /\ cell_indices cd = cell_indices a
    /\ (cell_indices a = cell_indices b -> w = wd -> st' = std).
Proof.
  intros Ha Hb Hx Hy Hv Hw Hwd.
  exists (outcome (Some v) (cell_indices b) w),
         (outcome (Some v) (cell_indices a) wd).
  do 2 eexists. split.
  { rewrite (method_unfold op self other st a b Ha Hb).
    unfold operator. rewrite Hx, Hy, Hv, Hw. reflexivity. }
  split.
  { exact (draft_binary_method_value op st self other a b x y v wd
             Ha Hb Hx Hy Hv Hwd). }
  simpl. split; [apply lookup_snoc_new|]. split; [apply lookup_snoc_new|].
  repeat split; try done. by intros -> ->.
Qed.

(** X17. [logarithm] and [exponential] of the draft take a number, not a
    cell: the value of [self] is not read, the new cell is on the indices of
    [self], and in both methods the words are the constant of
    [np.log(number)], so the two cells differ in their value only. *)
Theorem draft_functions_share_words (st : Store) (self : loc) (a : Cell)
    (number l e : num) :
  cells st !! self = Some a ->
  np_log (Some number) = Returned l ->
  np_exp (Some number) = Returned e ->
  Legacy.Cell_logarithm self number st
  = Returned (length (cells st),
              {| cells := cells st
                   ++ [outcome (Some l) (cell_indices a)
                         (Legacy.constant (_constructing_words a) l)];
                 indices := indices st |})
  /\ Legacy.Cell_exponential self number st
     = Returned (length (cells st),
                 {| cells := cells st
                      ++ [outcome (Some e) (cell_indices a)
                            (Legacy.constant (_constructing_words a) l)];
                    indices := indices st |}).
Proof.
  intros Ha Hl He. split.
  - unfold Legacy.Cell_logarithm. run. rewrite Ha, Hl. reflexivity.
  - exact (draft_exponential_words st self a number e l Ha He Hl).
Qed.
End DraftAndPackage.

(** ** The further properties on the worked sheets *)

Section MoreWitnesses.
Import Concrete.

Lemma scenario_grid_at (st : Store) :
  indices st !! 1 = Some (plain 2 2) ->
  (forall l, l < 4 -> is_Some (cells st !! l)) ->
  grid st Scenario.sheet 2 2.
Proof.
  intros Hind Hlive. split; [|split; [exact scenario_rectangular|]].
  - exists (plain 2 2). split; [exact Hind | reflexivity].
  - intros r c l Hl. apply Hlive.
    destruct r as [|[|r]]; [| |discriminate Hl];
      (destruct c as [|[|c]]; [| |discriminate Hl]);
      vm_compute in Hl; inversion Hl; lia.
Defined.

Lemma beside_live (l : loc) :
  l < 4 -> is_Some (cells Strangers.beside !! l).
Proof.
  intros Hl. destruct l as [|[|[|[|l]]]]; [| | | |lia]; eexists; reflexivity.
Defined.

Lemma init_rejects_partial_position_witness :
  (exists c : Cell,
     Cell.__init__ (Some (PyInt 0)) (Some (PyInt 1)) (Some 2%Q) 0 value_only None
     = Returned c
     /\ Cell.anchored c = true)
  /\ Cell.__init__ (Some (PyInt 0)) None (Some 2%Q) 0 value_only
       (@None fragment)
     = Raised (ValueError
         "The values of 'row' and 'column' parameters have to be either both not None or both None.").
Proof.
  split.
  - destruct (init_rejects_partial_position (Some (PyInt 0)) (Some (PyInt 1))
                (Some 2%Q) 0 value_only (@None fragment)) as [W _].
    destruct (W eq_refl) as (c & E & _ & _ & _ & _ & Hanch & _).
    exists c. split; [exact E | exact Hanch].
  - destruct (init_rejects_partial_position (Some (PyInt 0)) None
                (Some 2%Q) 0 value_only (@None fragment)) as [_ W].
    apply W. discriminate.
Defined.

Lemma brackets_twice_keeps_value_witness :
  exists (l : loc) (st' : Store),
    (inner <- Cell.brackets 0 ;; Cell.brackets inner) Scenario.operands
    = Returned (l, st')
    /\ cells st' !! l
       = Some (outcome (Some 2%Q) 0 (Brackets (Brackets (Constant (Some 2%Q))))).
Proof.
  destruct (brackets_twice_keeps_value Scenario.operands 0 Scenario.two
              (Brackets (Constant (Some 2%Q)))
              (Brackets (Brackets (Constant (Some 2%Q)))))
    as (l & st' & E & _ & Hl & _); try reflexivity.
  exists l, st'. split; [exact E | exact Hl].
Defined.


Lemma set_then_get_witness :
  exists (l : loc) (cell : Cell) (self' : Spreadsheet) (st' : Store),
    Spreadsheet._set_item Scenario.sheet (Number 5%Q) (PyInt (-1), PyInt 0)
      Scenario.store = Returned (self', st')
    /\ Spreadsheet._get_item self' (PyInt (-1), PyInt 0) = Returned l
    /\ cells st' !! l = Some cell
    /\ Cell.value cell = Some 5%Q.
Proof.
  destruct (set_then_get Scenario.sheet Scenario.store 2 2 (-1) 0 5%Q
              scenario_rectangular)
    as (l & cell & self' & st' & E & Hget & _ & Hcell & Hv & _);
    [simpl; lia | simpl; lia |].
  exists l, cell, self', st'.
  split; [exact E|]. split; [exact Hget|]. split; [exact Hcell | exact Hv].
Defined.

Lemma set_item_keeps_given_coordinates_witness :
  exists (l : loc) (cell : Cell) (self' : Spreadsheet) (st' : Store),
    Spreadsheet._set_item Scenario.sheet (Number 5%Q) (PyInt (-1), PyInt (-1))
      Scenario.store = Returned (self', st')
    /\ slot (_sheet self') 1 1 = Some l
    /\ cells st' !! l = Some cell
    /\ Cell.coordinates cell = (Some (PyInt (-1)), Some (PyInt (-1))).
Proof.
  destruct (set_item_keeps_given_coordinates Scenario.sheet Scenario.store 2 2
              (-1) (-1) 5%Q scenario_rectangular)
    as (l & cell & self' & st' & E & Hslot & Hcell & Hco & _);
    [simpl; lia | simpl; lia |].
  exists l, cell, self', st'.
  split; [exact E|]. split; [exact Hslot|]. split; [exact Hcell | exact Hco].
Defined.

Lemma set_item_refuses_witness :
  Spreadsheet._set_item Scenario.sheet (Number 5%Q) (PyFloat (1 # 2), PyInt 0)
    Scenario.store
  = Raised (IndexError "Indices must be integers!")
  /\ Spreadsheet._set_item Scenario.sheet (Number 5%Q) (PyFloat 1, PyInt 0)
       Scenario.store
     = Raised (TypeError "list indices must be integers or slices, not float")
  /\ Spreadsheet._set_item Scenario.sheet (Number 5%Q) (PyInt 0, PyInt 2)
       Scenario.store
     = Raised (IndexError "list assignment index out of range").
Proof.
  split; [|split].
  - destruct (set_item_refuses Scenario.sheet Scenario.store 2 2
                (PyFloat (1 # 2)) (PyInt 0) scenario_rectangular) as (W & _).
    apply W. left. reflexivity.
  - destruct (set_item_refuses Scenario.sheet Scenario.store 2 2
                (PyFloat 1) (PyInt 0) scenario_rectangular) as (_ & W & _).
    apply (W 5%Q 1%Q); reflexivity.
  - destruct (set_item_refuses Scenario.sheet Scenario.store 2 2
                (PyInt 0) (PyInt 2) scenario_rectangular) as (_ & _ & _ & _ & W).
    apply (W 5%Q 0%Z 2%Z); [reflexivity | simpl; lia | reflexivity | simpl; lia].
Defined.

Lemma set_item_keeps_grid_witness :
  exists (self' : Spreadsheet) (st' : Store),
    Spreadsheet._set_item Scenario.sheet (CellObject 4) (PyInt 0, PyInt 1)
      Strangers.beside = Returned (self', st')
    /\ grid st' self' 2 2
    /\ Spreadsheet.shape self' st' = Returned ((2, 2), st').
Proof.
  eexists _, _. split; [vm_compute; reflexivity|].
  destruct (set_item_keeps_grid Scenario.sheet _ Strangers.beside _ 2 2
              (CellObject 4) (PyInt 0) (PyInt 1)
              (scenario_grid Strangers.beside eq_refl beside_live)
              eq_refl)
    as (Hgrid & Hshape & _).
  split; [exact Hgrid | exact Hshape].
Defined.

Lemma stored_copy_has_own_indices_witness :
  exists (l : loc) (cell : Cell) (self' : Spreadsheet) (st' : Store),
    Spreadsheet._set_item Scenario.sheet (CellObject 4) (PyInt 0, PyInt 1)
      Strangers.beside = Returned (self', st')
    /\ slot (_sheet self') 0 1 = Some l
    /\ cells st' !! l = Some cell
    /\ cell_indices cell <> Spreadsheet.cell_indices self'
    /\ indices st' !! cell_indices cell = Some (plain 2 2).
Proof.
  destruct (stored_copy_has_own_indices Scenario.sheet Strangers.beside 0 1
              [0; 1] 4 (Scenario.value_cell 5 1) (plain 2 2) (plain 2 2))
    as (l & cell & self' & st' & E & Hslot & Hcell & _ & Hd & Hne & _);
    [reflexivity | simpl; lia | reflexivity | reflexivity | reflexivity
    | reflexivity |].
  exists l, cell, self', st'.
  split; [exact E|]. split; [exact Hslot|]. split; [exact Hcell|].
  split; [exact Hne | exact Hd].
Defined.

Lemma assignment_does_not_chain_witness :
  exists (cell : Cell) (st' : Store),
    (first <- Spreadsheet._set_item Scenario.sheet (CellObject 0)
                (PyInt 0, PyInt 1) ;;
     stored <- Spreadsheet.iloc first (PyInt 0) (PyInt 1) ;;
     second <- Spreadsheet._set_item first (CellObject stored)
                 (PyInt 1, PyInt 1) ;;
     l <- Spreadsheet.iloc second (PyInt 1) (PyInt 1) ;;
     get_cell l) Scenario.store = Returned (cell, st')
    /\ Cell.coordinates cell = (Some (PyInt 1), Some (PyInt 1))
    /\ _constructing_words cell = Coordinate (PyInt 0) (PyInt 0).
Proof.
  destruct (assignment_does_not_chain Scenario.sheet Scenario.store 2 2
              0 1 1 1 0 (initial 1 0 0) (Coordinate (PyInt 0) (PyInt 0))
              (plain 2 2) scenario_rectangular)
    as (cell & st' & E & Hco & Hw & _);
    [lia | lia | lia | lia | reflexivity | reflexivity | reflexivity
    | reflexivity |].
  exists cell, st'. split; [exact E|]. split; [exact Hco | exact Hw].
Defined.

Lemma constructor_builds_anchored_grid_witness :
  exists (self : Spreadsheet) (st' : Store),
    Spreadsheet.__init__ 0 Scenario.store = Returned (self, st')
    /\ grid st' self 2 2
    /\ exists (l : loc) (cell : Cell),
         slot (_sheet self) 1 0 = Some l
         /\ cells st' !! l = Some cell
         /\ Cell.coordinates cell = (Some (PyInt 1), Some (PyInt 0)).
Proof.
  destruct (constructor_builds_anchored_grid Scenario.store 0 (plain 2 2))
    as (self & st' & E & Hgrid & Hcells & _); [reflexivity|].
  exists self, st'. split; [exact E|]. split; [exact Hgrid|].
  destruct (Hcells 1 0) as (l & cell & Hslot & _ & Hcell & Hco & _);
    [simpl; lia | simpl; lia |].
  exists l, cell. split; [exact Hslot|]. split; [exact Hcell | exact Hco].
Defined.

Lemma expand_composes_witness :
  exists (self1 self2 : Spreadsheet) (st1 st2 : Store),
    Spreadsheet.expand Scenario.sheet 1 0 [] [] [] [] Scenario.store
    = Returned (self1, st1)
    /\ Spreadsheet.expand self1 0 1 [] [] [] [] st1 = Returned (self2, st2)
    /\ grid st2 self2 3 3.
Proof.
  destruct (expand_composes Scenario.sheet Scenario.store 2 2 1 0 0 1
              [] [] [] [] [] [] [] []
              (scenario_grid Scenario.store eq_refl scenario_live))
    as (self1 & self2 & st1 & st2 & E1 & _ & E2 & Hgrid & _).
  exists self1, self2, st1, st2.
  split; [exact E1|]. split; [exact E2 | exact Hgrid].
Defined.

Lemma expand_never_removes_rows_witness :
  exists (self' : Spreadsheet) (st' : Store),
    Spreadsheet.expand_using_cell_indices Scenario.sheet 0
      (mutate 0 (plain 1 2) Scenario.store) = Returned (self', st')
    /\ Spreadsheet.shape self' st' = Returned ((1, 2), st')
    /\ length (_sheet self') = 2.
Proof.
  destruct (expand_never_removes_rows Scenario.sheet
              (mutate 0 (plain 1 2) Scenario.store) 2 2 1 2 0 (plain 1 2)
              (scenario_grid_at (mutate 0 (plain 1 2) Scenario.store) eq_refl
                 scenario_live))
    as (self' & st' & E & Hshape & Hlen & _);
    [reflexivity | reflexivity | lia |].
  exists self', st'. split; [exact E|]. split; [exact Hshape | exact Hlen].
Defined.

Lemma get_slice_row_major_witness :
  exists subset : list loc,
    Spreadsheet._get_slice Scenario.sheet (0, 2, 1, 0, 2, 1)%Z Scenario.store
    = Returned ({| start_idx := (0, 0)%Z; end_idx := (1, 1)%Z;
                   cell_subset := subset;
                   driving_sheet := Scenario.sheet |}, Scenario.store)
    /\ map Some subset = [Some 0; Some 1; Some 2; Some 3].
Proof.
  destruct (get_slice_row_major Scenario.sheet Scenario.store 2 2
              0 2 1 0 2 1 [0; 1]%Z [0; 1]%Z scenario_rectangular)
    as (subset & E & Hsubset & _);
    [reflexivity | reflexivity
    | repeat constructor; simpl; lia | repeat constructor; simpl; lia |].
  exists subset. split; [exact E | exact Hsubset].
Defined.

Lemma delete_row_deletes_nothing_witness :
  Spreadsheet.delete_row Scenario.sheet (list_index Sample.index)
    (Some 0%Z) None Scenario.store
  = Failed (Python (TypeError "'int' object is not iterable"))
  /\ Spreadsheet.delete_row Scenario.sheet (list_index Sample.index)
       (Some 2%Z) None Scenario.store
     = Failed (Python (IndexError "Index is out of bounds!"))
  /\ Spreadsheet.delete_row Scenario.sheet (list_index Sample.index)
       None (Some "second") Scenario.store
     = Spreadsheet.delete_row Scenario.sheet (list_index Sample.index)
         (Some 1%Z) None Scenario.store.
Proof.
  destruct (delete_row_deletes_nothing Scenario.sheet
              (list_index Sample.index)
              Scenario.store 2 2 (plain 2 2))
    as (_ & Hinside & Houtside & Hlabel & _); [reflexivity | reflexivity |].
  split; [apply Hinside; simpl; lia|].
  split; [apply Houtside; simpl; lia|].
  apply Hlabel. reflexivity.
Defined.

Lemma insert_after_needs_one_reference_witness :
  Spreadsheet.insert_row_after (list_index Sample.index) None None None
    (Some "second")
  = Returned tt
  /\ Spreadsheet.insert_column_after (list_index Sample.index) None None None
       None
     = Raised (TypeError "unsupported operand type(s)").
Proof.
  destruct (insert_after_needs_one_reference (list_index Sample.index)
              None None)
    as (_ & (_ & Hneither) & _ & Hlabel & _).
  split; [|exact Hneither].
  apply (Hlabel "second" 1%Z). reflexivity.
Defined.

Lemma draft_takes_indices_of_self_witness :
  exists (c cd : Cell) (st' std : Store),
    method Add 0 1 Scenario.operands = Returned (3, st')
    /\ Legacy.method Add 0 1 Scenario.operands = Returned (3, std)
    /\ cells st' !! 3 = Some c
    /\ cells std !! 3 = Some cd
    /\ _value c = Some 7%Q
    /\ _value cd = Some 7%Q.
Proof.
  destruct (draft_takes_indices_of_self Add Scenario.operands 0 1
              Scenario.two Scenario.five 2%Q 5%Q 7%Q
              (Operation Add (Constant (Some 2%Q)) (Constant (Some 5%Q)))
              (Operation Add (Constant (Some 2%Q)) (Constant (Some 5%Q))))
    as (c & cd & st' & std & E & Ed & Hc & Hcd & (Hv & Hvd) & _);
    try reflexivity.
  exists c, cd, st', std.
  split; [exact E|]. split; [exact Ed|]. split; [exact Hc|].
  split; [exact Hcd|]. split; [exact Hv | exact Hvd].
Defined.

Lemma draft_functions_share_words_witness :
  exists st' std,
    Legacy.Cell_logarithm 0 (Symbolic.Literal 3) Symbolic.store
    = Returned (1, st')
    /\ Legacy.Cell_exponential 0 (Symbolic.Literal 3) Symbolic.store
       = Returned (1, std)
    /\ option_map _constructing_words (cells st' !! 1)
       = option_map _constructing_words (cells std !! 1).
Proof.
  destruct (draft_functions_share_words Symbolic.store 0
              {| row := None; column := None;
                 _value := Some (Symbolic.Literal 7);
                 cell_type := value_only; cell_indices := 0;
                 _constructing_words :=
                   Constant (Some (Symbolic.Literal 7)) |}
              (Symbolic.Literal 3) (Symbolic.Log (Symbolic.Literal 3))
              (Symbolic.Exp (Symbolic.Literal 3)))
    as (El & Ee); try reflexivity.
  eexists _, _. split; [exact El|]. split; [exact Ee | reflexivity].
Defined.
End MoreWitnesses.
